(** * go-docker-deploy: the deploy webhook and its container provisioning sequence

    A shallow embedding of the two variants of the service:
    - [Main]   : src/main.go (registry credentials, restart policy, resource
                 limits, command override; the x-api-key check is commented out);
    - [ApiKey] : src/unnamed/part_000 (the x-api-key gated variant, without
                 credentials, restart policy, resource limits or command
                 override).

    Go strings are byte strings ([string], one [ascii] per byte), Go [int] and
    [int64] are [Z] with the 64-bit wrap-around written out, Go maps are
    [gmap]s, Go sets ([nat.PortSet]) are [gset]s.  A Go [error] result is
    [option error] ([None] is [nil]).  Calls to the container engine, to the
    credential store and to the standard streams are recorded in a trace. *)

From Stdlib Require Import ZArith Lia Ascii String List Bool.
From stdpp Require Import base option list gmap strings.

Local Open Scope Z_scope.

(** ** Runtime outcomes and Go errors *)

(** A run-time panic of the Go runtime.  [s[lo:hi]] on a string of length [n]
    panics unless [0 <= lo <= hi <= n]. *)
Inductive panic : Type :=
| SliceBoundsOutOfRange (lo hi n : Z).

(** A Go function either returns or panics. *)
Inductive outcome (A : Type) : Type :=
| Ret (a : A)
| Panic (p : panic).
Arguments Ret {A} a.
Arguments Panic {A} p.

Definition obind {A B} (m : outcome A) (k : A -> outcome B) : outcome B :=
  match m with
  | Ret a => k a
  | Panic p => Panic p
  end.

(** The two sentinel errors of package strconv. *)
Inductive numErr : Type := ErrSyntax | ErrRange.

(** The error values the service handles.  [errorString] is what
    [errors.New] and [fmt.Errorf] (without a wrapping verb) build, [NumError]
    is [*strconv.NumError], and [libError] is an error produced by a
    collaborator (container engine, credential store, body parser) of which the
    program only reads the message. *)
Inductive error : Type :=
| errorString (s : string)
| NumError (Func Num : string) (Err : numErr)
| libError (msg : string).

Global Instance numErr_eq_dec : EqDecision numErr.
Proof. solve_decision. Defined.
Global Instance error_eq_dec : EqDecision error.
Proof. solve_decision. Defined.

(** ** The data types of the container engine's API

    Each Go struct is a record in a module of its own, so that fields keep
    their Go names.  Only the fields the service reads or writes are modelled;
    every other field keeps its zero value throughout. *)

Module types.
Module AuthConfig.
Record t : Type := mk {
  Username : string; Password : string; Auth : string; Email : string;
  ServerAddress : string; IdentityToken : string; RegistryToken : string }.
Definition zero : t := mk "" "" "" "" "" "" "".
End AuthConfig.

Module ImagePullOptions.
Record t : Type := mk { RegistryAuth : string }.
Definition zero : t := mk "".
End ImagePullOptions.
End types.

(** Library functions of the Go runtime that the sources call and whose
    definition is not part of the repository. *)
Class GoLib : Type := {
  (** [strings.Map(unicode.ToUpper, s)]: the path [strings.ToUpper] takes on a
      string with a byte outside ASCII. *)
  unicode_ToUpper : string -> string;
  (** [strconv.Quote], used by the [Error] method of [NumError]. *)
  strconv_Quote : string -> string;
  (** [json.Marshal] of a [types.AuthConfig]: the bytes and the error. *)
  json_Marshal : types.AuthConfig.t -> string * option error;
  (** [base64.StdEncoding.EncodeToString]. *)
  base64_EncodeToString : string -> string
}.

Module errors.
Definition New (text : string) : error := errorString text.
End errors.

Module fmt.
(** [fmt.Errorf("Invalid unit: %s", unit)], the only format the sources use:
    the verb prints the string argument as it is. *)
Definition Errorf_s (pre arg : string) : error := errorString (pre +:+ arg).
End fmt.

Definition numErr_Error (e : numErr) : string :=
  match e with
  | ErrSyntax => "invalid syntax"
  | ErrRange => "value out of range"
  end.

(** [err.Error()]. *)
Definition Error `{GoLib} (e : error) : string :=
  match e with
  | errorString s => s
  | NumError f n k =>
      "strconv." +:+ f +:+ ": parsing " +:+ strconv_Quote n +:+ ": " +:+ numErr_Error k
  | libError msg => msg
  end.

(** ** Byte strings *)

Definition len (s : string) : Z := Z.of_nat (String.length s).

Fixpoint drop_bytes (n : nat) (s : string) : string :=
  match n, s with
  | O, _ => s
  | S n', String _ s' => drop_bytes n' s'
  | S _, EmptyString => EmptyString
  end.

Fixpoint take_bytes (n : nat) (s : string) : string :=
  match n, s with
  | O, _ => EmptyString
  | S n', String c s' => String c (take_bytes n' s')
  | S _, EmptyString => EmptyString
  end.

(** [s[lo:]] with the bounds check of the Go runtime. *)
Definition slice_from (s : string) (lo : Z) : outcome string :=
  if (0 <=? lo) && (lo <=? len s)
  then Ret (drop_bytes (Z.to_nat lo) s)
  else Panic (SliceBoundsOutOfRange lo (len s) (len s)).

(** [s[:hi]] with the bounds check of the Go runtime. *)
Definition slice_to (s : string) (hi : Z) : outcome string :=
  if (0 <=? hi) && (hi <=? len s)
  then Ret (take_bytes (Z.to_nat hi) s)
  else Panic (SliceBoundsOutOfRange 0 hi (len s)).

Definition byte_val (c : ascii) : Z := Z.of_N (N_of_ascii c).

Module strings.
(** [strings.HasPrefix(s, prefix)]. *)
Fixpoint HasPrefix (s pre : string) : bool :=
  match pre, s with
  | EmptyString, _ => true
  | String p pre', String c s' => if Ascii.eqb c p then HasPrefix s' pre' else false
  | String _ _, EmptyString => false
  end.

(** A byte below [utf8.RuneSelf]. *)
Definition isASCIIbyte (c : ascii) : bool := byte_val c <? 128.

Fixpoint isASCII (s : string) : bool :=
  match s with
  | EmptyString => true
  | String c s' => isASCIIbyte c && isASCII s'
  end.

(** ['a' <= c && c <= 'z'] then [c -= 'a' - 'A']. *)
Definition upperByte (c : ascii) : ascii :=
  if (97 <=? byte_val c) && (byte_val c <=? 122)
  then ascii_of_N (N_of_ascii c - 32)
  else c.

Fixpoint upperBytes (s : string) : string :=
  match s with
  | EmptyString => EmptyString
  | String c s' => String (upperByte c) (upperBytes s')
  end.

(** [strings.ToUpper]: byte-wise on an ASCII string, through the Unicode
    tables otherwise. *)
Definition ToUpper `{GoLib} (s : string) : string :=
  if isASCII s then upperBytes s else unicode_ToUpper s.
End strings.

Module strconv.
Definition maxUint64 : Z := 2 ^ 64 - 1.

Definition isDigit (c : ascii) : bool := (48 <=? byte_val c) && (byte_val c <=? 57).

(** The digit loop of [ParseUint(s, 10, 64)] from the accumulator [n]:
    [inl v] is the value, [inr e] the kind of error.  Overflow is reported at
    the digit where it happens, before later bytes are looked at. *)
Fixpoint parseDigits (s : string) (n : Z) : Z + numErr :=
  match s with
  | EmptyString => inl n
  | String c s' =>
      if negb (isDigit c) then inr ErrSyntax
      else if maxUint64 / 10 + 1 <=? n then inr ErrRange
      else
        let n1 := n * 10 + (byte_val c - 48) in
        if maxUint64 <? n1 then inr ErrRange else parseDigits s' n1
  end.

(** [strconv.ParseInt(s, 10, 64)]: the value and the error. *)
Definition ParseInt (s : string) : Z * option error :=
  match s with
  | EmptyString => (0, Some (NumError "ParseInt" s ErrSyntax))
  | String c rest =>
      let neg := Ascii.eqb c "-"%char in
      let digits := if Ascii.eqb c "+"%char || neg then rest else s in
      match digits with
      | EmptyString => (0, Some (NumError "ParseInt" s ErrSyntax))
      | _ =>
          match parseDigits digits 0 with
          | inr ErrSyntax => (0, Some (NumError "ParseInt" s ErrSyntax))
          | r =>
              let un := match r with inl v => v | inr _ => maxUint64 end in
              let cutoff := 2 ^ 63 in
              if negb neg && (cutoff <=? un)
              then (cutoff - 1, Some (NumError "ParseInt" s ErrRange))
              else if neg && (cutoff <? un)
              then (- cutoff, Some (NumError "ParseInt" s ErrRange))
              else ((if neg then - un else un), None)
          end
      end
  end.
End strconv.

(** Two's complement wrap-around of a 64-bit signed integer. *)
Definition wrap64 (z : Z) : Z := (z + 2 ^ 63) mod 2 ^ 64 - 2 ^ 63.

Definition int64_range (z : Z) : Prop := - 2 ^ 63 <= z < 2 ^ 63.

(** ** src/main.go: [convertToBytes] *)

Definition units : gmap string Z :=
  <["TB" := 1024 * 1024 * 1024 * 1024]>
  (<["GB" := 1024 * 1024 * 1024]>
  (<["MB" := 1024 * 1024]>
  (<["KB" := 1024]> ∅))).

(** [units[unit]]: the zero value for a missing key. *)
Definition units_at (unit : string) : Z := default 0 (units !! unit).

(** Lines 66-71: the code after the unit has been settled. *)
Definition convertToBytes_number (val unit : string) : outcome (Z * option error) :=
  obind (slice_to val (len val - len unit)) (fun numStr =>
  let '(num, err) := strconv.ParseInt numStr in
  match err with
  | Some e => Ret (0, Some e)
  | None => Ret (wrap64 (num * units_at unit), None)
  end).

Definition convertToBytes `{GoLib} (val : string) : outcome (Z * option error) :=
  let val := strings.ToUpper val in
  obind (slice_from val (len val - 2)) (fun unit =>
  if negb (bool_decide (is_Some (units !! unit))) then
    obind (slice_from val (len val - 1)) (fun unit =>
    if negb (bool_decide (is_Some (units !! unit))) then
      Ret (0, Some (fmt.Errorf_s "Invalid unit: " unit))
    else
      obind (slice_to val (len val - 1)) (fun val =>
      convertToBytes_number val unit))
  else convertToBytes_number val unit).


(** ** Engine configuration types *)

Module mount.
Definition TypeBind : string := "bind".
Module Mount.
Record t : Type := mk { Type_ : string; Source : string; Target : string }.
End Mount.
End mount.

(** Package [nat] of go-connections: a [Port] is a string such as ["80/tcp"],
    a [PortMap] is [gmap string (list PortBinding.t)], a [PortSet] is
    [gset string]. *)
Module nat_.
Module PortBinding.
Record t : Type := mk { HostIP : string; HostPort : string }.
End PortBinding.
End nat_.

Module container.
Module RestartPolicy.
Record t : Type := mk { Name : string; MaximumRetryCount : Z }.
Definition zero : t := mk "" 0.
End RestartPolicy.

Module Resources.
Record t : Type := mk { CPUShares : Z; Memory : Z }.
Definition zero : t := mk 0 0.
Definition set_Memory (v : Z) (r : t) : t := mk (CPUShares r) v.
Definition set_CPUShares (v : Z) (r : t) : t := mk v (Memory r).
End Resources.

Module HostConfig.
Record t : Type := mk {
  PortBindings : gmap string (list nat_.PortBinding.t);
  RestartPolicy : RestartPolicy.t;
  Mounts : list mount.Mount.t;
  Resources : Resources.t }.
Definition zero : t := mk ∅ RestartPolicy.zero [] Resources.zero.
Definition set_PortBindings v (h : t) : t :=
  mk v (RestartPolicy h) (Mounts h) (Resources h).
Definition set_RestartPolicy v (h : t) : t :=
  mk (PortBindings h) v (Mounts h) (Resources h).
Definition set_Mounts v (h : t) : t :=
  mk (PortBindings h) (RestartPolicy h) v (Resources h).
Definition set_Resources v (h : t) : t :=
  mk (PortBindings h) (RestartPolicy h) (Mounts h) v.
End HostConfig.

Module Config.
Record t : Type := mk {
  ExposedPorts : gset string;
  Env : list string;
  Cmd : list string;
  Image : string }.
Definition set_ExposedPorts v (c : t) : t := mk v (Env c) (Cmd c) (Image c).
Definition set_Env v (c : t) : t := mk (ExposedPorts c) v (Cmd c) (Image c).
Definition set_Cmd v (c : t) : t := mk (ExposedPorts c) (Env c) v (Image c).
End Config.
End container.

(** ** The outside world and the trace of a deploy *)

(** Everything a deploy observes of its collaborators: the credential store,
    the container engine and the process environment.  Each operation is
    invoked at most once in a deploy, so one answer per operation and argument
    describes every run.  [cliconfig_Load] gives the error only: the program
    uses the loaded configuration as the receiver of [GetAuthConfig] and
    nothing else. *)
Record World : Type := {
  cliconfig_Load : string -> option error;
  GetAuthConfig : string -> types.AuthConfig.t * option error;
  ImagePull : string -> types.ImagePullOptions.t -> option error;
  ContainerInspect : string -> option error;
  ContainerStop : string -> option error;
  ContainerRemove : string -> option error;
  ContainerCreate :
    container.Config.t -> container.HostConfig.t -> string -> string * option error;
  ContainerStart : string -> option error;
  os_Getenv : string -> string
}.

(** What a deploy does to the outside, in the order it does it. *)
Inductive event : Type :=
| CallConfigLoad (configDir : string)
| CallGetAuthConfig (host : string)
| CallImagePull (ref : string) (opts : types.ImagePullOptions.t)
| DisplayJSONMessagesStream
| ReaderClose
| CallContainerInspect (name : string)
| CallContainerStop (name : string)
| CallContainerRemove (name : string)
| CallContainerCreate
    (config : container.Config.t) (hostConfig : container.HostConfig.t) (name : string)
| CallContainerStart (id : string)
| Println (line : string).

(** The create and start calls of the container engine. *)
Definition is_create_or_start (e : event) : bool :=
  match e with
  | CallContainerCreate _ _ _ | CallContainerStart _ => true
  | _ => false
  end.

(** A computation that extends the trace and returns or panics. *)
Definition Exec (A : Type) : Type := list event -> outcome A * list event.

Global Instance Exec_ret : MRet Exec := fun A a t => (Ret a, t).
Global Instance Exec_bind : MBind Exec := fun A B k m t =>
  match m t with
  | (Ret a, t') => k a t'
  | (Panic p, t') => (Panic p, t')
  end.

(** Perform an outside operation: record it and hand back its answer. *)
Definition call {A} (e : event) (answer : A) : Exec A := fun t => (Ret answer, t ++ [e]).
Definition emit (e : event) : Exec unit := call e tt.
(** A pure Go computation, which may panic. *)
Definition lift {A} (o : outcome A) : Exec A := fun t => (o, t).
(** [defer]: the event happens when the body returns or panics. *)
Definition defer {A} (e : event) (body : Exec A) : Exec A := fun t =>
  let '(o, t') := body t in (o, t' ++ [e]).

(** Run from an empty trace. *)
Definition run {A} (m : Exec A) : outcome A * list event := m [].

(** [len(xs) > 0] on a slice. *)
Definition nonempty {A} (xs : list A) : bool := 0 <? Z.of_nat (length xs).

Definition privateDockerRegistry : string := "d.puneet.cc".

(** ** Request types (declared alike in both source files) *)

Module DockerPortBindingRequest.
Record t : Type := mk { Container : string; Host : string }.
End DockerPortBindingRequest.

Module DockerVolumeBindingRequest.
Record t : Type := mk { Source : string; Target : string }.
End DockerVolumeBindingRequest.

(** fiber's JSON response: [c.Status(code).JSON(&fiber.Map{...})]. *)
Inductive json_value : Type :=
| JInt (n : Z)
| JString (s : string).

Module Response.
Record t : Type := mk { Status : Z; Body : gmap string json_value }.
End Response.

(** [c.Status(code).JSON(&fiber.Map{"error": e, "message": m})]; without
    [Status] the code is fiber's default, 200. *)
Definition JSON (code : Z) (e : Z) (m : string) : Response.t :=
  Response.mk code (<["error" := JInt e]> (<["message" := JString m]> ∅)).

(** ** The blocks of [startContainer] that both source files share verbatim *)

Section Blocks.
Context `{GoLib} (w : World).

(** main.go 102-113, part_000 56-67: stop and remove an existing container;
    the errors of both steps are printed and dropped. *)
Definition cleanup (ContainerName : string) : Exec unit :=
  err ← call (CallContainerInspect ContainerName) (ContainerInspect w ContainerName);
  match err with
  | None =>
      err ← call (CallContainerStop ContainerName) (ContainerStop w ContainerName);
      _ ← match err with
          | Some e => emit (Println ("[startContainer][ContainerStop][ERROR] : " +:+ Error e))
          | None => mret tt
          end;
      err ← call (CallContainerRemove ContainerName) (ContainerRemove w ContainerName);
      match err with
      | Some e => emit (Println ("[startContainer][ContainerRemove][ERROR] : " +:+ Error e))
      | None => mret tt
      end
  | Some _ => mret tt
  end.

(** main.go 145-154, part_000 72-81. *)
Definition addVolumeBindings (VolumeBindings : list DockerVolumeBindingRequest.t)
    (hostConfig : container.HostConfig.t) : container.HostConfig.t :=
  if nonempty VolumeBindings then
    container.HostConfig.set_Mounts
      (foldl (fun mounts volume =>
                mounts ++ [mount.Mount.mk mount.TypeBind
                             (DockerVolumeBindingRequest.Source volume)
                             (DockerVolumeBindingRequest.Target volume)])
             [] VolumeBindings)
      hostConfig
  else hostConfig.

(** The loop of main.go 159-163, part_000 86-90, from the map [m]. *)
Definition portBindingsLoop (PortBindings : list DockerPortBindingRequest.t)
    (m : gmap string (list nat_.PortBinding.t)) : gmap string (list nat_.PortBinding.t) :=
  foldl (fun m port =>
           <[DockerPortBindingRequest.Container port :=
               [nat_.PortBinding.mk "0.0.0.0" (DockerPortBindingRequest.Host port)]]> m)
        m PortBindings.

(** main.go 157-164, part_000 84-91. *)
Definition addPortBindings (PortBindings : list DockerPortBindingRequest.t)
    (hostConfig : container.HostConfig.t) : container.HostConfig.t :=
  if nonempty PortBindings then
    container.HostConfig.set_PortBindings (portBindingsLoop PortBindings ∅) hostConfig
  else hostConfig.

(** The loop of main.go 179-181, part_000 102-104, from the set [ports]. *)
Definition exposedPortsLoop (PortBindings : list DockerPortBindingRequest.t)
    (ports : gset string) : gset string :=
  foldl (fun ports port => {[DockerPortBindingRequest.Container port]} ∪ ports)
        ports PortBindings.

(** main.go 177-182, part_000 100-105. *)
Definition addExposedPorts (PortBindings : list DockerPortBindingRequest.t)
    (containerConfig : container.Config.t) : container.Config.t :=
  if nonempty PortBindings then
    container.Config.set_ExposedPorts (exposedPortsLoop PortBindings ∅) containerConfig
  else containerConfig.

(** main.go 184-196, part_000 107-119. *)
Definition createAndStart (containerConfig : container.Config.t)
    (hostConfig : container.HostConfig.t) (ContainerName : string) : Exec (option error) :=
  '(cID, err) ← call (CallContainerCreate containerConfig hostConfig ContainerName)
                     (ContainerCreate w containerConfig hostConfig ContainerName);
  match err with
  | Some e =>
      _ ← emit (Println ("[startContainer][ContainerCreate][ERROR] : " +:+ Error e));
      mret (Some e)
  | None => call (CallContainerStart cID) (ContainerStart w cID)
  end.
End Blocks.

(** ** src/main.go *)

Module Main.
Module DockerRequest.
Record t : Type := mk {
  ContainerName : string;
  CustomCommand : list string;
  Image : string;
  PortBindings : list DockerPortBindingRequest.t;
  VolumeBindings : list DockerVolumeBindingRequest.t;
  Environment : list string;
  Memory : string;
  CPUShares : string }.
End DockerRequest.
Import DockerRequest.

(** fiber's request context, as far as the handler reads it: the outcome of
    [c.BodyParser(&request)], the request it filled in and its error. *)
Record Ctx : Type := { BodyParser : DockerRequest.t * option error }.

Section Service.
Context `{GoLib} (w : World).

(** Lines 122-142: the resource limits.  [inr e] is the early [return e]. *)
Definition resourceLimits (request : DockerRequest.t)
    (hostConfig : container.HostConfig.t) : Exec (container.HostConfig.t + error) :=
  let hostConfig :=
    if bool_decide (Memory request ≠ "") || bool_decide (CPUShares request ≠ "")
    then container.HostConfig.set_Resources container.Resources.zero hostConfig
    else hostConfig in
  r ← (if bool_decide (Memory request ≠ "") then
         '(memoryInBytes, err) ← lift (convertToBytes (Memory request));
         match err with
         | Some e =>
             _ ← emit (Println ("[startContainer][Memory-Parsing][ERROR] : " +:+ Error e));
             mret (inr e)
         | None =>
             mret (inl (container.HostConfig.set_Resources
                          (container.Resources.set_Memory memoryInBytes
                             (container.HostConfig.Resources hostConfig))
                          hostConfig))
         end
       else mret (inl hostConfig));
  match r with
  | inr e => mret (inr e)
  | inl hostConfig =>
      if bool_decide (CPUShares request ≠ "") then
        let '(cpuShares, err) := strconv.ParseInt (CPUShares request) in
        match err with
        | Some e =>
            _ ← emit (Println ("[startContainer][CPUShares-Parsing][ERROR] : " +:+ Error e));
            mret (inr e)
        | None =>
            mret (inl (container.HostConfig.set_Resources
                         (container.Resources.set_CPUShares cpuShares
                            (container.HostConfig.Resources hostConfig))
                         hostConfig))
        end
      else mret (inl hostConfig)
  end.

(** Lines 166-182. *)
Definition buildContainerConfig (request : DockerRequest.t) : container.Config.t :=
  let containerConfig := container.Config.mk ∅ [] [] (Image request) in
  let containerConfig :=
    if nonempty (CustomCommand request)
    then container.Config.set_Cmd (CustomCommand request) containerConfig
    else containerConfig in
  let containerConfig :=
    if nonempty (Environment request)
    then container.Config.set_Env (Environment request) containerConfig
    else containerConfig in
  addExposedPorts (PortBindings request) containerConfig.

(** Lines 99-196: what follows a successful pull. *)
Definition afterPull (request : DockerRequest.t) : Exec (option error) :=
  _ ← emit DisplayJSONMessagesStream;
  _ ← cleanup w (ContainerName request);
  let hostConfig := container.HostConfig.zero in
  let hostConfig :=
    container.HostConfig.set_RestartPolicy
      (container.RestartPolicy.mk "always" 0) hostConfig in
  r ← resourceLimits request hostConfig;
  match r with
  | inr e => mret (Some e)
  | inl hostConfig =>
      let hostConfig := addVolumeBindings (VolumeBindings request) hostConfig in
      let hostConfig := addPortBindings (PortBindings request) hostConfig in
      let containerConfig := buildContainerConfig request in
      createAndStart w containerConfig hostConfig (ContainerName request)
  end.

Definition startContainer (request : DockerRequest.t) : Exec (option error) :=
  if negb (strings.HasPrefix (Image request) privateDockerRegistry) then
    mret (Some (errors.New ("only " +:+ privateDockerRegistry +:+ " images supported")))
  else
    err ← call (CallConfigLoad "") (cliconfig_Load w "");
    match err with
    | Some _ => mret (Some (errors.New "config load failed"))
    | None =>
        '(conf, _) ← call (CallGetAuthConfig privateDockerRegistry)
                          (GetAuthConfig w privateDockerRegistry);
        let registryAuthConfig := conf in
        let '(jsonRegistryAuth, _) := json_Marshal registryAuthConfig in
        let registryAuthBase64 := base64_EncodeToString jsonRegistryAuth in
        let opts := types.ImagePullOptions.mk registryAuthBase64 in
        err ← call (CallImagePull (Image request) opts) (ImagePull w (Image request) opts);
        match err with
        | Some e => mret (Some e)
        | None => defer ReaderClose (afterPull request)
        end
    end.

(** Lines 208-221: the handler of [POST /]. *)
Definition handler (c : Ctx) : Exec Response.t :=
  let '(request, err) := BodyParser c in
  match err with
  | Some e => mret (JSON 500 1 (Error e))
  | None =>
      err ← startContainer request;
      match err with
      | Some e => mret (JSON 500 1 (Error e))
      | None => mret (JSON 200 0 "Container Started")
      end
  end.
End Service.
End Main.

(** ** src/unnamed/part_000: the x-api-key gated variant *)

Module ApiKey.
Module DockerRequest.
Record t : Type := mk {
  ContainerName : string;
  Image : string;
  PortBindings : list DockerPortBindingRequest.t;
  VolumeBindings : list DockerVolumeBindingRequest.t;
  Environment : list string }.
End DockerRequest.
Import DockerRequest.

(** fiber's request context: [c.Get(key)] (the empty string for an absent
    header) and the outcome of [c.BodyParser(&request)]. *)
Record Ctx : Type := {
  Get : string -> string;
  BodyParser : DockerRequest.t * option error }.

Section Service.
Context `{GoLib} (w : World).

(** Lines 93-105. *)
Definition buildContainerConfig (request : DockerRequest.t) : container.Config.t :=
  let containerConfig := container.Config.mk ∅ [] [] (Image request) in
  let containerConfig :=
    if nonempty (Environment request)
    then container.Config.set_Env (Environment request) containerConfig
    else containerConfig in
  addExposedPorts (PortBindings request) containerConfig.

(** Lines 53-119: what follows a successful pull. *)
Definition afterPull (request : DockerRequest.t) : Exec (option error) :=
  _ ← emit DisplayJSONMessagesStream;
  _ ← cleanup w (ContainerName request);
  let hostConfig := container.HostConfig.zero in
  let hostConfig := addVolumeBindings (VolumeBindings request) hostConfig in
  let hostConfig := addPortBindings (PortBindings request) hostConfig in
  let containerConfig := buildContainerConfig request in
  createAndStart w containerConfig hostConfig (ContainerName request).

Definition startContainer (request : DockerRequest.t) : Exec (option error) :=
  if negb (strings.HasPrefix (Image request) "d.puneet.cc") then
    mret (Some (errors.New "only d.puneet.cc images supported"))
  else
    let opts := types.ImagePullOptions.zero in
    err ← call (CallImagePull (Image request) opts) (ImagePull w (Image request) opts);
    match err with
    | Some e => mret (Some e)
    | None => defer ReaderClose (afterPull request)
    end.

(** Lines 131-144: the handler of [POST /]. *)
Definition handler (c : Ctx) : Exec Response.t :=
  if bool_decide (Get c "x-api-key" ≠ os_Getenv w "DOCKER_DEPLOY_SECRET") then
    mret (JSON 500 1 "Unauthorised Access")
  else
    let '(request, err) := BodyParser c in
    match err with
    | Some e => mret (JSON 500 1 (Error e))
    | None =>
        err ← startContainer request;
        match err with
        | Some e => mret (JSON 500 1 (Error e))
        | None => mret (JSON 200 0 "Container Started")
        end
    end.
End Service.
End ApiKey.

(** ** Concrete collaborators, to evaluate the model on concrete requests *)

(** Stand-ins for the library functions: a quoting that only adds the
    quotes, an encoding that keeps the bytes. *)
Definition plainLib : GoLib := {|
  unicode_ToUpper := fun s => s;
  strconv_Quote := fun s => String "034"%char (s +:+ String "034"%char "");
  json_Marshal := fun a => (types.AuthConfig.Username a, None);
  base64_EncodeToString := fun s => s
|}.

(** A world in which every operation succeeds; the engine names the created
    container ["id-" + name]. *)
Definition okWorld : World := {|
  cliconfig_Load := fun _ => None;
  GetAuthConfig := fun _ => (types.AuthConfig.mk "deploy" "" "" "" "" "" "", None);
  ImagePull := fun _ _ => None;
  ContainerInspect := fun _ => None;
  ContainerStop := fun _ => None;
  ContainerRemove := fun _ => None;
  ContainerCreate := fun _ _ name => ("id-" +:+ name, None);
  ContainerStart := fun _ => None;
  os_Getenv := fun _ => "s3cret"
|}.

Definition svc1 : Main.DockerRequest.t :=
  Main.DockerRequest.mk "svc1" [] "d.puneet.cc/app:latest"
    [DockerPortBindingRequest.mk "80/tcp" "8080"] [] [] "" "".

(** Memory-unit multipliers in the words of the specification: KB is 1024,
    MB is 1024 squared, GB is 1024 cubed, TB is 1024 to the fourth. *)
Definition unit_multiplier_spec (unit : string) : option Z :=
  if bool_decide (unit = "KB") then Some (1024 ^ 1)
  else if bool_decide (unit = "MB") then Some (1024 ^ 2)
  else if bool_decide (unit = "GB") then Some (1024 ^ 3)
  else if bool_decide (unit = "TB") then Some (1024 ^ 4)
  else None.

(** A non-empty string of decimal digits, and the number it denotes. *)
Fixpoint all_digits (s : string) : bool :=
  match s with
  | EmptyString => true
  | String c s' => strconv.isDigit c && all_digits s'
  end.

Definition is_decimal (s : string) : bool :=
  all_digits s && negb (bool_decide (s = "")).

Fixpoint decimal_value (s : string) : Z :=
  match s with
  | EmptyString => 0
  | String c s' => (byte_val c - 48) * 10 ^ len s' + decimal_value s'
  end.

(** * The vocabulary of the statements *)

(** ** Events and results of the shared blocks *)

(** The events of the cleanup block, main.go 102-113 and part_000 56-67. *)
Definition stop_log `{GoLib} (w : World) (name : string) : list event :=
  match ContainerStop w name with
  | Some e => [Println ("[startContainer][ContainerStop][ERROR] : " +:+ Error e)]
  | None => []
  end.

Definition remove_log `{GoLib} (w : World) (name : string) : list event :=
  match ContainerRemove w name with
  | Some e => [Println ("[startContainer][ContainerRemove][ERROR] : " +:+ Error e)]
  | None => []
  end.

Definition cleanup_events `{GoLib} (w : World) (name : string) : list event :=
  CallContainerInspect name ::
  match ContainerInspect w name with
  | None =>
      [CallContainerStop name] ++ stop_log w name ++
      [CallContainerRemove name] ++ remove_log w name
  | Some _ => []
  end.

(** The events after the create call and the result of main.go 184-196,
    part_000 107-119. *)
Definition after_create `{GoLib} (w : World) (config : container.Config.t)
    (hostConfig : container.HostConfig.t) (name : string) : list event :=
  match ContainerCreate w config hostConfig name with
  | (_, Some e) => [Println ("[startContainer][ContainerCreate][ERROR] : " +:+ Error e)]
  | (cID, None) => [CallContainerStart cID]
  end.

Definition create_result (w : World) (config : container.Config.t)
    (hostConfig : container.HostConfig.t) (name : string) : option error :=
  match ContainerCreate w config hostConfig name with
  | (_, Some e) => Some e
  | (cID, None) => ContainerStart w cID
  end.

(** ** A program logic for the trace monad

    [hoare P m Q]: from any trace, [m] terminates (it returns or panics), only
    appends events, every appended event satisfies [P], and a returned value
    satisfies [Q]. *)
Definition hoare {A} (P : event -> Prop) (m : Exec A) (Q : A -> Prop) : Prop :=
  forall t, exists o es,
    m t = (o, t ++ es) /\ Forall P es /\
    match o with Ret a => Q a | Panic _ => True end.

(** ** Port bindings *)

Abbreviation port_container := DockerPortBindingRequest.Container.
Abbreviation port_host := DockerPortBindingRequest.Host.

(** The one host binding the service builds: all interfaces, the host port. *)
Definition host_binding (hostPort : string) : list nat_.PortBinding.t :=
  [nat_.PortBinding.mk "0.0.0.0" hostPort].

(** What the deploy makes of the request's port bindings: each container
    port is forwarded from the host port of its last binding, by exactly one
    host binding on all interfaces; nothing else is forwarded; and the exposed
    ports are the container ports of the bindings. *)
Definition ports_follow_bindings (bindings : list DockerPortBindingRequest.t)
    (config : container.Config.t) (hostConfig : container.HostConfig.t) : Prop :=
  (forall l1 b l2, bindings = l1 ++ b :: l2 ->
     port_container b ∉ port_container <$> l2 ->
     container.HostConfig.PortBindings hostConfig !! port_container b
       = Some [nat_.PortBinding.mk "0.0.0.0" (port_host b)]) /\
  (forall p bs, container.HostConfig.PortBindings hostConfig !! p = Some bs ->
     exists b, b ∈ bindings /\ port_container b = p /\
               bs = [nat_.PortBinding.mk "0.0.0.0" (port_host b)]) /\
  (forall p, p ∈ container.Config.ExposedPorts config <-> p ∈ port_container <$> bindings).

(** ** src/main.go *)

Section MainVocabulary.
Import Main.DockerRequest.
Context `{GoLib} (w : World).

(** Both resource strings are absent or parse. *)
Definition resources_parse (request : Main.DockerRequest.t) : Prop :=
  (Memory request = "" \/ exists n, convertToBytes (Memory request) = Ret (n, None)) /\
  (CPUShares request = "" \/ exists n, strconv.ParseInt (CPUShares request) = (n, None)).

(** The pull options the deploy builds: the errors of the credential lookup
    and of the JSON encoding are dropped, their values are used. *)
Definition pullOptions : types.ImagePullOptions.t :=
  types.ImagePullOptions.mk
    (base64_EncodeToString (json_Marshal (GetAuthConfig w privateDockerRegistry).1).1).

(** The events up to the pull. *)
Definition pull_events (request : Main.DockerRequest.t) : list event :=
  [CallConfigLoad ""; CallGetAuthConfig privateDockerRegistry;
   CallImagePull (Image request) pullOptions].

(** The host configuration before the resource limits: lines 115-119. *)
Definition hostConfig_always : container.HostConfig.t :=
  container.HostConfig.set_RestartPolicy
    (container.RestartPolicy.mk "always" 0) container.HostConfig.zero.

(** The host configuration of the create call, from the one the resource
    limits left: lines 144-164. *)
Definition hostConfig_final (request : Main.DockerRequest.t)
    (hostConfig : container.HostConfig.t) : container.HostConfig.t :=
  addPortBindings (PortBindings request)
    (addVolumeBindings (VolumeBindings request) hostConfig).

(** What a create call of [startContainer] is made with. *)
Definition create_shape (request : Main.DockerRequest.t) (e : event) : Prop :=
  match e with
  | CallContainerCreate config hostConfig name =>
      exists res,
        hostConfig =
          hostConfig_final request
            (container.HostConfig.set_Resources res hostConfig_always) /\
        config = Main.buildContainerConfig request /\
        name = ContainerName request
  | _ => True
  end.

(** The three steps before the configuration succeed. *)
Definition reaches_configuration (request : Main.DockerRequest.t) : Prop :=
  strings.HasPrefix (Image request) privateDockerRegistry = true /\
  cliconfig_Load w "" = None /\
  ImagePull w (Image request) pullOptions = None.

(** The events up to the end of the cleanup. *)
Definition events_to_cleanup (request : Main.DockerRequest.t) : list event :=
  pull_events request ++ [DisplayJSONMessagesStream]
    ++ cleanup_events w (ContainerName request).

End MainVocabulary.

(** The run of a deploy that found the container: it is stopped, then
    removed, the errors of both steps are printed only, and the create call
    follows. *)
Definition main_cleanup_then_create `{GoLib} (w : World)
    (request : Main.DockerRequest.t) : Prop :=
  let name := Main.DockerRequest.ContainerName request in
  let config := Main.buildContainerConfig request in
  exists hostConfig,
    run (Main.startContainer w request) =
      (Ret (create_result w config hostConfig name),
       pull_events w request
         ++ [DisplayJSONMessagesStream; CallContainerInspect name; CallContainerStop name]
         ++ stop_log w name ++ [CallContainerRemove name] ++ remove_log w name
         ++ [CallContainerCreate config hostConfig name]
         ++ after_create w config hostConfig name ++ [ReaderClose]).

(** ** src/unnamed/part_000 *)

Section ApiKeyVocabulary.
Import ApiKey.DockerRequest.
Context `{GoLib} (w : World).

(** The host configuration of the create call: lines 69-91. *)
Definition apikey_hostConfig (request : ApiKey.DockerRequest.t) : container.HostConfig.t :=
  addPortBindings (PortBindings request)
    (addVolumeBindings (VolumeBindings request) container.HostConfig.zero).

(** What a create call of [startContainer] is made with. *)
Definition apikey_create_shape (request : ApiKey.DockerRequest.t) (e : event) : Prop :=
  match e with
  | CallContainerCreate config hostConfig name =>
      hostConfig = apikey_hostConfig request /\
      config = ApiKey.buildContainerConfig request /\
      name = ContainerName request
  | _ => True
  end.

End ApiKeyVocabulary.

(** The same run in the x-api-key variant. *)
Definition apikey_cleanup_then_create `{GoLib} (w : World)
    (request : ApiKey.DockerRequest.t) : Prop :=
  let name := ApiKey.DockerRequest.ContainerName request in
  let config := ApiKey.buildContainerConfig request in
  let hostConfig := apikey_hostConfig request in
  run (ApiKey.startContainer w request) =
    (Ret (create_result w config hostConfig name),
     [CallImagePull (ApiKey.DockerRequest.Image request) types.ImagePullOptions.zero;
      DisplayJSONMessagesStream; CallContainerInspect name; CallContainerStop name]
       ++ stop_log w name ++ [CallContainerRemove name] ++ remove_log w name
       ++ [CallContainerCreate config hostConfig name]
       ++ after_create w config hostConfig name ++ [ReaderClose]).

(** ** Example requests and worlds *)

Definition svc1_apikey : ApiKey.DockerRequest.t :=
  ApiKey.DockerRequest.mk "svc1" "d.puneet.cc/app:latest"
    [DockerPortBindingRequest.mk "80/tcp" "8080"] [] [].

(** An image of another registry. *)
Definition foreign : Main.DockerRequest.t :=
  Main.DockerRequest.mk "svc1" [] "docker.io/app:latest" [] [] [] "" "".

Definition foreign_apikey : ApiKey.DockerRequest.t :=
  ApiKey.DockerRequest.mk "svc1" "docker.io/app:latest" [] [] [].

(** [svc1] with the memory limit [memory]. *)
Definition svc1_memory (memory : string) : Main.DockerRequest.t :=
  Main.DockerRequest.mk "svc1" [] "d.puneet.cc/app:latest"
    [DockerPortBindingRequest.mk "80/tcp" "8080"] [] [] memory "".

(** Two bindings of the same container port. *)
Definition svc1_two_hosts : Main.DockerRequest.t :=
  Main.DockerRequest.mk "svc1" [] "d.puneet.cc/app:latest"
    [DockerPortBindingRequest.mk "80/tcp" "8080";
     DockerPortBindingRequest.mk "80/tcp" "9090"] [] [] "" "".

(** The engine cannot stop nor remove the existing container. *)
Definition stuckWorld : World := {|
  cliconfig_Load := cliconfig_Load okWorld;
  GetAuthConfig := GetAuthConfig okWorld;
  ImagePull := ImagePull okWorld;
  ContainerInspect := ContainerInspect okWorld;
  ContainerStop := fun _ => Some (libError "cannot stop container");
  ContainerRemove := fun _ => Some (libError "cannot remove container");
  ContainerCreate := ContainerCreate okWorld;
  ContainerStart := ContainerStart okWorld;
  os_Getenv := os_Getenv okWorld
|}.

(** The credential store has no entry for the registry. *)
Definition noCredentialWorld : World := {|
  cliconfig_Load := cliconfig_Load okWorld;
  GetAuthConfig := fun _ => (types.AuthConfig.zero, Some (libError "credentials not found"));
  ImagePull := ImagePull okWorld;
  ContainerInspect := ContainerInspect okWorld;
  ContainerStop := ContainerStop okWorld;
  ContainerRemove := ContainerRemove okWorld;
  ContainerCreate := ContainerCreate okWorld;
  ContainerStart := ContainerStart okWorld;
  os_Getenv := os_Getenv okWorld
|}.

(** The credential configuration cannot be loaded. *)
Definition noConfigWorld : World := {|
  cliconfig_Load := fun _ => Some (libError "open config.json: permission denied");
  GetAuthConfig := GetAuthConfig okWorld;
  ImagePull := ImagePull okWorld;
  ContainerInspect := ContainerInspect okWorld;
  ContainerStop := ContainerStop okWorld;
  ContainerRemove := ContainerRemove okWorld;
  ContainerCreate := ContainerCreate okWorld;
  ContainerStart := ContainerStart okWorld;
  os_Getenv := os_Getenv okWorld
|}.

(** Library functions whose JSON encoding fails. *)
Definition failingMarshalLib : GoLib := {|
  unicode_ToUpper := fun s => s;
  strconv_Quote := fun s => s;
  json_Marshal := fun _ => ("", Some (libError "json: unsupported value"));
  base64_EncodeToString := fun s => s
|}.

(** ** Further vocabulary: numerals with a sign *)

(** A decimal numeral with an optional sign, and the number it denotes. *)
Definition signed_decimal (s : string) (k : Z) : Prop :=
  exists digits,
    is_decimal digits = true /\
    (((s = digits \/ s = "+" +:+ digits) /\ k = decimal_value digits) \/
     (s = "-" +:+ digits /\ k = - decimal_value digits)).

(** ** Further vocabulary: the shape of a deploy *)

(** The six operations of the container engine a deploy uses. *)
Inductive engine_op : Type :=
| OpPull | OpInspect | OpStop | OpRemove | OpCreate | OpStart.

Definition engine_op_of (e : event) : option engine_op :=
  match e with
  | CallImagePull _ _ => Some OpPull
  | CallContainerInspect _ => Some OpInspect
  | CallContainerStop _ => Some OpStop
  | CallContainerRemove _ => Some OpRemove
  | CallContainerCreate _ _ _ => Some OpCreate
  | CallContainerStart _ => Some OpStart
  | _ => None
  end.

(** The engine operations of a trace, in order. *)
Definition engine_ops (es : list event) : list engine_op := omap engine_op_of es.

(** The eight sequences of engine operations a deploy can make. *)
Definition deploy_sequences : list (list engine_op) :=
  [ [];
    [OpPull];
    [OpPull; OpInspect];
    [OpPull; OpInspect; OpCreate];
    [OpPull; OpInspect; OpCreate; OpStart];
    [OpPull; OpInspect; OpStop; OpRemove];
    [OpPull; OpInspect; OpStop; OpRemove; OpCreate];
    [OpPull; OpInspect; OpStop; OpRemove; OpCreate; OpStart] ].

(** The calls to the credential store. *)
Definition credential_call (e : event) : bool :=
  match e with
  | CallConfigLoad _ | CallGetAuthConfig _ => true
  | _ => false
  end.

(** The events that follow a successful pull, around the events [mid] of the
    configuration, create and start steps. *)
Definition after_pull_events `{GoLib} (w : World) (name : string) (mid : list event)
    : list event :=
  [DisplayJSONMessagesStream] ++ cleanup_events w name ++ mid ++ [ReaderClose].

(** The runs of [startContainer], in either variant, on the image [image]
    and the container name [name]: the outcome and the trace. *)
Inductive deploy_run `{GoLib} (w : World) (image name : string)
    : outcome (option error) -> list event -> Prop :=
| run_before_pull (e : error) (pre : list event) :
    forallb credential_call pre = true ->
    deploy_run w image name (Ret (Some e)) pre
| run_pull_failed (e : error) (pre : list event) (opts : types.ImagePullOptions.t) :
    forallb credential_call pre = true ->
    ImagePull w image opts = Some e ->
    deploy_run w image name (Ret (Some e)) (pre ++ [CallImagePull image opts])
| run_panicked (p : panic) (pre : list event) (opts : types.ImagePullOptions.t) :
    forallb credential_call pre = true ->
    ImagePull w image opts = None ->
    deploy_run w image name (Panic p)
      (pre ++ [CallImagePull image opts] ++ after_pull_events w name [])
| run_parse_error (e : error) (line : string) (pre : list event)
    (opts : types.ImagePullOptions.t) :
    forallb credential_call pre = true ->
    ImagePull w image opts = None ->
    deploy_run w image name (Ret (Some e))
      (pre ++ [CallImagePull image opts] ++ after_pull_events w name [Println line])
| run_created (config : container.Config.t) (hostConfig : container.HostConfig.t)
    (pre : list event) (opts : types.ImagePullOptions.t) :
    forallb credential_call pre = true ->
    ImagePull w image opts = None ->
    deploy_run w image name (Ret (create_result w config hostConfig name))
      (pre ++ [CallImagePull image opts]
         ++ after_pull_events w name
              ([CallContainerCreate config hostConfig name]
                 ++ after_create w config hostConfig name)).

(** An event of a deploy names no image and no container but the request's. *)
Definition touches_only (image name : string) (e : event) : Prop :=
  match e with
  | CallImagePull ref _ => ref = image
  | CallContainerInspect n | CallContainerStop n | CallContainerRemove n => n = name
  | CallContainerCreate _ _ n => n = name
  | _ => True
  end.

(** The bind mount of a volume binding. *)
Definition bind_mount (volume : DockerVolumeBindingRequest.t) : mount.Mount.t :=
  mount.Mount.mk "bind" (DockerVolumeBindingRequest.Source volume)
    (DockerVolumeBindingRequest.Target volume).

(** The memory limit [n] and the CPU-share weight [c] a request asks for:
    zero for an absent string, the parsed value otherwise. *)
Definition memory_limit `{GoLib} (request : Main.DockerRequest.t) (n : Z) : Prop :=
  (Main.DockerRequest.Memory request = "" /\ n = 0) \/
  (Main.DockerRequest.Memory request <> "" /\
   convertToBytes (Main.DockerRequest.Memory request) = Ret (n, None)).

Definition cpu_limit (request : Main.DockerRequest.t) (c : Z) : Prop :=
  (Main.DockerRequest.CPUShares request = "" /\ c = 0) \/
  (Main.DockerRequest.CPUShares request <> "" /\
   strconv.ParseInt (Main.DockerRequest.CPUShares request) = (c, None)).

(** [svc1] with the CPU-share weight [cpuShares]. *)
Definition svc1_cpu (cpuShares : string) : Main.DockerRequest.t :=
  Main.DockerRequest.mk "svc1" [] "d.puneet.cc/app:latest"
    [DockerPortBindingRequest.mk "80/tcp" "8080"] [] [] "" cpuShares.

(** [svc1] with a memory limit, a CPU-share weight and two volumes. *)
Definition svc1_limits : Main.DockerRequest.t :=
  Main.DockerRequest.mk "svc1" ["serve"] "d.puneet.cc/app:latest"
    [DockerPortBindingRequest.mk "80/tcp" "8080"]
    [DockerVolumeBindingRequest.mk "/srv/data" "/data";
     DockerVolumeBindingRequest.mk "/srv/logs" "/logs"]
    ["MODE=prod"] "512MB" "256".

(** The engine refuses to create the container. *)
Definition noCreateWorld : World := {|
  cliconfig_Load := cliconfig_Load okWorld;
  GetAuthConfig := GetAuthConfig okWorld;
  ImagePull := ImagePull okWorld;
  ContainerInspect := ContainerInspect okWorld;
  ContainerStop := ContainerStop okWorld;
  ContainerRemove := ContainerRemove okWorld;
  ContainerCreate := fun _ _ _ => ("", Some (libError "name already in use"));
  ContainerStart := ContainerStart okWorld;
  os_Getenv := os_Getenv okWorld
|}.

(** The engine creates the container and cannot start it. *)
Definition noStartWorld : World := {|
  cliconfig_Load := cliconfig_Load okWorld;
  GetAuthConfig := GetAuthConfig okWorld;
  ImagePull := ImagePull okWorld;
  ContainerInspect := ContainerInspect okWorld;
  ContainerStop := ContainerStop okWorld;
  ContainerRemove := ContainerRemove okWorld;
  ContainerCreate := ContainerCreate okWorld;
  ContainerStart := fun _ => Some (libError "port is already allocated");
  os_Getenv := os_Getenv okWorld
|}.

(** The registry refuses the pull. *)
Definition noPullWorld : World := {|
  cliconfig_Load := cliconfig_Load okWorld;
  GetAuthConfig := GetAuthConfig okWorld;
  ImagePull := fun _ _ => Some (libError "pull access denied");
  ContainerInspect := ContainerInspect okWorld;
  ContainerStop := ContainerStop okWorld;
  ContainerRemove := ContainerRemove okWorld;
  ContainerCreate := ContainerCreate okWorld;
  ContainerStart := ContainerStart okWorld;
  os_Getenv := os_Getenv okWorld
|}.

(** ** A library instance that decodes UTF-8

    [strings.ToUpper] leaves its byte loop for [strings.Map(unicode.ToUpper, s)]
    as soon as the string has a byte outside ASCII.  The definitions below
    follow the Go library for that path, so that the model can be run on such
    strings as well: the decoder and the encoder of [unicode/utf8], the two
    loops of [strings.Map], and [unicode.ToUpper] with the part of its case
    table that lies below U+0100. *)

Module utf8.
Definition RuneError : Z := 65533.
Definition MaxRune : Z := 1114111.

(** What the table [first] records of a first byte: a rune of its own, a byte
    that starts no rune, or the first of [size] bytes whose second byte lies
    between [lo] and [hi]. *)
Inductive firstInfo : Type :=
| AsciiByte
| InvalidByte
| LeadByte (size lo hi : Z).

Definition first (b : Z) : firstInfo :=
  if b <? 128 then AsciiByte
  else if b <? 194 then InvalidByte
  else if b <? 224 then LeadByte 2 128 191
  else if b =? 224 then LeadByte 3 160 191
  else if b <? 237 then LeadByte 3 128 191
  else if b =? 237 then LeadByte 3 128 159
  else if b <? 240 then LeadByte 3 128 191
  else if b =? 240 then LeadByte 4 144 191
  else if b <? 244 then LeadByte 4 128 191
  else if b =? 244 then LeadByte 4 128 143
  else InvalidByte.

(** A continuation byte: between [locb] and [hicb]. *)
Definition isContinuation (b : Z) : bool := (128 <=? b) && (b <=? 191).

(** [utf8.DecodeRuneInString]: the rune and its width; a byte that starts no
    well-formed rune is [RuneError] of width 1.  The branches on a string
    that ends early repeat the answer of the length test above them. *)
Definition DecodeRuneInString (s : string) : Z * Z :=
  match s with
  | EmptyString => (RuneError, 0)
  | String c0 s1 =>
      let b0 := byte_val c0 in
      match first b0 with
      | AsciiByte => (b0, 1)
      | InvalidByte => (RuneError, 1)
      | LeadByte sz lo hi =>
          if len s <? sz then (RuneError, 1)
          else
            match s1 with
            | EmptyString => (RuneError, 1)
            | String c1 s2 =>
                let b1 := byte_val c1 in
                if (b1 <? lo) || (hi <? b1) then (RuneError, 1)
                else if sz <=? 2
                then (Z.lor (Z.shiftl (Z.land b0 31) 6) (Z.land b1 63), 2)
                else
                  match s2 with
                  | EmptyString => (RuneError, 1)
                  | String c2 s3 =>
                      let b2 := byte_val c2 in
                      if negb (isContinuation b2) then (RuneError, 1)
                      else if sz <=? 3
                      then (Z.lor (Z.shiftl (Z.land b0 15) 12)
                              (Z.lor (Z.shiftl (Z.land b1 63) 6) (Z.land b2 63)), 3)
                      else
                        match s3 with
                        | EmptyString => (RuneError, 1)
                        | String c3 _ =>
                            let b3 := byte_val c3 in
                            if negb (isContinuation b3) then (RuneError, 1)
                            else (Z.lor (Z.shiftl (Z.land b0 7) 18)
                                    (Z.lor (Z.shiftl (Z.land b1 63) 12)
                                       (Z.lor (Z.shiftl (Z.land b2 63) 6) (Z.land b3 63))), 4)
                        end
                  end
            end
      end
  end.

Definition byte_of (z : Z) : ascii := ascii_of_N (Z.to_N (z mod 256)).

(** The bytes [utf8.AppendRune] writes: a rune out of range or in the
    surrogate range is written as [RuneError]. *)
Definition EncodeRune (r : Z) : string :=
  if (0 <=? r) && (r <=? 127) then String (byte_of r) ""
  else if (0 <=? r) && (r <=? 2047)
  then String (byte_of (Z.lor 192 (Z.shiftr r 6)))
         (String (byte_of (Z.lor 128 (Z.land r 63))) "")
  else
    let r := if (r <? 0) || (MaxRune <? r) || ((55296 <=? r) && (r <=? 57343))
             then RuneError else r in
    if r <=? 65535
    then String (byte_of (Z.lor 224 (Z.shiftr r 12)))
           (String (byte_of (Z.lor 128 (Z.land (Z.shiftr r 6) 63)))
              (String (byte_of (Z.lor 128 (Z.land r 63))) ""))
    else String (byte_of (Z.lor 240 (Z.shiftr r 18)))
           (String (byte_of (Z.lor 128 (Z.land (Z.shiftr r 12) 63)))
              (String (byte_of (Z.lor 128 (Z.land (Z.shiftr r 6) 63)))
                 (String (byte_of (Z.lor 128 (Z.land r 63))) ""))).
End utf8.

Module unicode.
Definition MaxASCII : Z := 127.

(** [unicode.To(unicode.UpperCase, r, unicode.CaseRanges)] with the ranges of
    the table below U+0100: the micro sign, the lower-case letters of
    Latin-1, and the y with diaeresis.  A rune in no range is returned as it
    is; the ranges from U+0100 on are not reproduced. *)
Definition upperLatin1 (r : Z) : Z :=
  if r =? 181 then r + 743
  else if ((224 <=? r) && (r <=? 246)) || ((248 <=? r) && (r <=? 254)) then r - 32
  else if r =? 255 then r + 121
  else r.

(** [unicode.ToUpper]. *)
Definition ToUpper (r : Z) : Z :=
  if r <=? MaxASCII
  then (if (97 <=? r) && (r <=? 122) then r - 32 else r)
  else upperLatin1 r.
End unicode.

(** What [strings.Map] writes for a mapped rune: nothing if it is negative. *)
Definition strings_Map_rune (r : Z) : string :=
  if 0 <=? r then utf8.EncodeRune r else "".

(** The second loop of [strings.Map]: every rune of the rest is mapped and
    written.  [fuel] bounds the number of runes. *)
Fixpoint strings_Map_write (fuel : nat) (mapping : Z -> Z) (s : string) : string :=
  match fuel with
  | O => ""
  | S fuel' =>
      match s with
      | EmptyString => ""
      | _ =>
          let '(c, width) := utf8.DecodeRuneInString s in
          strings_Map_rune (mapping c)
            +:+ strings_Map_write fuel' mapping (drop_bytes (Z.to_nat width) s)
      end
  end.

(** The first loop of [strings.Map]: it skips the runes that the mapping keeps
    (an ill-formed byte is never kept: it decodes as [RuneError] of width 1),
    and at the first other rune copies what it skipped, writes the mapped rune
    and leaves the rest to the second loop.  [None]: no rune changes. *)
Fixpoint strings_Map_scan (fuel : nat) (mapping : Z -> Z) (s : string) : option string :=
  match fuel with
  | O => None
  | S fuel' =>
      match s with
      | EmptyString => None
      | _ =>
          let '(c, width) := utf8.DecodeRuneInString s in
          let r := mapping c in
          let rest := drop_bytes (Z.to_nat width) s in
          if (r =? c) && (negb (c =? utf8.RuneError) || negb (width =? 1))
          then option_map (fun out => take_bytes (Z.to_nat width) s +:+ out)
                 (strings_Map_scan fuel' mapping rest)
          else Some (strings_Map_rune r +:+ strings_Map_write fuel' mapping rest)
      end
  end.

(** [strings.Map(mapping, s)]: the input itself if no rune changes. *)
Definition strings_Map (mapping : Z -> Z) (s : string) : string :=
  default s (strings_Map_scan (String.length s) mapping s).

(** The library functions of [plainLib], with the upper-casing of the Go
    library. *)
Definition utf8Lib : GoLib := {|
  unicode_ToUpper := strings_Map unicode.ToUpper;
  strconv_Quote := strconv_Quote (GoLib := plainLib);
  json_Marshal := json_Marshal (GoLib := plainLib);
  base64_EncodeToString := base64_EncodeToString (GoLib := plainLib)
|}.



(** * Properties *)

(** ** Byte strings *)

Lemma app_String (c : ascii) (s t : string) : String c s +:+ t = String c (s +:+ t).
Proof. reflexivity. Qed.

Lemma len_nonneg (s : string) : 0 <= len s.
Proof. unfold len. lia. Qed.

Lemma len_String (c : ascii) (s : string) : len (String c s) = len s + 1.
Proof. unfold len. cbn [String.length]. lia. Qed.

Lemma length_app (s t : string) :
  String.length (s +:+ t) = (String.length s + String.length t)%nat.
Proof. induction s as [|c s IH]; [reflexivity|]. rewrite app_String. cbn. by rewrite IH. Qed.

Lemma len_app (s t : string) : len (s +:+ t) = len s + len t.
Proof. unfold len. rewrite length_app. lia. Qed.

Lemma drop_bytes_app (s t : string) : drop_bytes (String.length s) (s +:+ t) = t.
Proof. induction s as [|c s IH]; [reflexivity|]. rewrite app_String. exact IH. Qed.

Lemma take_bytes_app (s t : string) : take_bytes (String.length s) (s +:+ t) = s.
Proof. induction s as [|c s IH]; [reflexivity|]. rewrite app_String. cbn. by rewrite IH. Qed.

Lemma take_drop_bytes (n : nat) (s : string) : take_bytes n s +:+ drop_bytes n s = s.
Proof.
  revert s. induction n as [|n IH]; intros [|c s]; try reflexivity.
  cbn [take_bytes drop_bytes]. rewrite app_String. by rewrite IH.
Qed.

Lemma length_drop_bytes (n : nat) (s : string) :
  String.length (drop_bytes n s) = (String.length s - n)%nat.
Proof. revert s. induction n as [|n IH]; intros [|c s]; cbn; auto with lia. Qed.

Lemma slice_from_app (s t : string) : slice_from (s +:+ t) (len (s +:+ t) - len t) = Ret t.
Proof.
  unfold slice_from. rewrite len_app.
  replace (len s + len t - len t) with (len s) by lia.
  pose proof (len_nonneg s). pose proof (len_nonneg t).
  rewrite (proj2 (Z.leb_le 0 (len s))) by lia.
  rewrite (proj2 (Z.leb_le (len s) (len s + len t))) by lia.
  cbn [andb]. unfold len. rewrite Nat2Z.id. by rewrite drop_bytes_app.
Qed.

Lemma slice_to_app (s t : string) : slice_to (s +:+ t) (len (s +:+ t) - len t) = Ret s.
Proof.
  unfold slice_to. rewrite len_app.
  replace (len s + len t - len t) with (len s) by lia.
  pose proof (len_nonneg s). pose proof (len_nonneg t).
  rewrite (proj2 (Z.leb_le 0 (len s))) by lia.
  rewrite (proj2 (Z.leb_le (len s) (len s + len t))) by lia.
  cbn [andb]. unfold len. rewrite Nat2Z.id. by rewrite take_bytes_app.
Qed.

Lemma slice_from_Ret (s : string) (lo : Z) :
  0 <= lo <= len s -> slice_from s lo = Ret (drop_bytes (Z.to_nat lo) s).
Proof.
  intros [H0 H1]. unfold slice_from.
  rewrite (proj2 (Z.leb_le 0 lo)) by lia. by rewrite (proj2 (Z.leb_le lo (len s))) by lia.
Qed.

Lemma slice_from_Panic (s : string) (lo : Z) :
  lo < 0 -> slice_from s lo = Panic (SliceBoundsOutOfRange lo (len s) (len s)).
Proof. intros Hlo. unfold slice_from. by rewrite (proj2 (Z.leb_gt 0 lo)) by lia. Qed.

Lemma length_upperBytes (s : string) :
  String.length (strings.upperBytes s) = String.length s.
Proof. induction s as [|c s IH]; cbn; auto. Qed.

Lemma len_ToUpper_ascii `{GoLib} (s : string) :
  strings.isASCII s = true -> len (strings.ToUpper s) = len s.
Proof. intros Ha. unfold strings.ToUpper, len. rewrite Ha. by rewrite length_upperBytes. Qed.

(** ** The unit table *)

Lemma units_lookup_Some (unit : string) (m : Z) :
  units !! unit = Some m <->
  (unit = "KB" /\ m = 1024) \/ (unit = "MB" /\ m = 1024 ^ 2) \/
  (unit = "GB" /\ m = 1024 ^ 3) \/ (unit = "TB" /\ m = 1024 ^ 4).
Proof.
  unfold units. rewrite !lookup_insert_Some, lookup_empty.
  change (1024 * 1024 * 1024 * 1024) with (1024 ^ 4).
  change (1024 * 1024 * 1024) with (1024 ^ 3).
  change (1024 * 1024) with (1024 ^ 2).
  split.
  - intros [[<- <-]|[_ [[<- <-]|[_ [[<- <-]|[_ [[<- <-]|[_ ?]]]]]]]]; tauto || discriminate.
  - intros [[-> ->]|[[-> ->]|[[-> ->]|[-> ->]]]]; repeat (first [left; split; [reflexivity|reflexivity] | right; split; [discriminate|]]).
Qed.

Lemma units_spec (unit : string) : units !! unit = unit_multiplier_spec unit.
Proof.
  unfold unit_multiplier_spec.
  repeat case_bool_decide; subst; try reflexivity.
  destruct (units !! unit) as [m|] eqn:E; [|reflexivity].
  apply units_lookup_Some in E.
  destruct E as [[-> _]|[[-> _]|[[-> _]|[-> _]]]]; congruence.
Qed.

Lemma units_key_length (unit : string) :
  is_Some (units !! unit) -> String.length unit = 2%nat.
Proof.
  intros [m Hm]. apply units_lookup_Some in Hm.
  destruct Hm as [[-> _]|[[-> _]|[[-> _]|[-> _]]]]; reflexivity.
Qed.

Lemma units_one_byte (unit : string) :
  String.length unit = 1%nat -> units !! unit = None.
Proof.
  intros Hl. destruct (units !! unit) eqn:E; [|reflexivity].
  assert (String.length unit = 2%nat) by (apply units_key_length; eauto). lia.
Qed.

(** ** [strconv.ParseInt] on decimal numerals *)

Lemma isDigit_range (c : ascii) :
  strconv.isDigit c = true -> 0 <= byte_val c - 48 <= 9.
Proof. unfold strconv.isDigit. intros [H1 H2]%andb_prop. lia. Qed.

Lemma decimal_value_nonneg (s : string) : all_digits s = true -> 0 <= decimal_value s.
Proof.
  induction s as [|c s IH]; cbn [all_digits decimal_value]; [lia|].
  intros [Hc Hs]%andb_prop. apply isDigit_range in Hc. specialize (IH Hs).
  pose proof (len_nonneg s). assert (0 < 10 ^ len s) by (apply Z.pow_pos_nonneg; lia). nia.
Qed.

Lemma parseDigits_value (s : string) (n : Z) :
  all_digits s = true -> 0 <= n ->
  n * 10 ^ len s + decimal_value s <= strconv.maxUint64 ->
  strconv.parseDigits s n = inl (n * 10 ^ len s + decimal_value s).
Proof.
  revert n. induction s as [|c s IH]; intros n Hd Hn Hmax.
  - cbn. f_equal. change (len "") with 0. lia.
  - cbn [all_digits] in Hd. apply andb_prop in Hd as [Hc Hs].
    pose proof (isDigit_range c Hc) as Hrange.
    pose proof (decimal_value_nonneg s Hs) as Hv.
    pose proof (len_nonneg s) as Hl.
    assert (Hp : 0 < 10 ^ len s) by (apply Z.pow_pos_nonneg; lia).
    rewrite len_String in *. cbn [decimal_value] in *.
    rewrite Z.pow_add_r in * by lia. change (10 ^ 1) with 10 in *.
    cbn [strconv.parseDigits]. rewrite Hc. cbn [negb].
    assert (Hn10 : n * 10 + (byte_val c - 48) <= strconv.maxUint64) by nia.
    assert (Hcut : n <= strconv.maxUint64 / 10) by (apply Z.div_le_lower_bound; lia).
    rewrite (proj2 (Z.leb_gt _ _)) by lia.
    cbv zeta. rewrite (proj2 (Z.ltb_ge _ _)) by lia.
    rewrite IH by (auto; nia). f_equal. ring.
Qed.

Lemma digit_not_sign (c : ascii) :
  strconv.isDigit c = true -> Ascii.eqb c "+" = false /\ Ascii.eqb c "-" = false.
Proof.
  intros Hc. split; destruct (Ascii.eqb_spec c "+"), (Ascii.eqb_spec c "-");
    subst; try reflexivity; vm_compute in Hc; discriminate.
Qed.

(** A decimal numeral below 2^63 parses to the number it denotes. *)
Lemma ParseInt_decimal (s : string) :
  is_decimal s = true -> decimal_value s < 2 ^ 63 ->
  strconv.ParseInt s = (decimal_value s, None).
Proof.
  unfold is_decimal. intros [Hd Hne]%andb_prop Hlt.
  destruct s as [|c s]; [discriminate|].
  pose proof (decimal_value_nonneg _ Hd) as Hv.
  assert (Hc : strconv.isDigit c = true) by (cbn in Hd; by apply andb_prop in Hd as [? _]).
  destruct (digit_not_sign c Hc) as [Hplus Hminus].
  unfold strconv.ParseInt. rewrite Hplus, Hminus. cbn [orb].
  assert (Hmax : 2 ^ 63 <= strconv.maxUint64) by (vm_compute; discriminate).
  rewrite (parseDigits_value (String c s) 0) by (auto; lia).
  rewrite Z.mul_0_l, Z.add_0_l. cbv zeta.
  rewrite (proj2 (Z.leb_gt _ _)) by lia. reflexivity.
Qed.

(** ** [convertToBytes] *)

Lemma wrap64_in_range (z : Z) : int64_range z -> wrap64 z = z.
Proof. unfold int64_range, wrap64. intros Hz. rewrite Z.mod_small; lia. Qed.

Lemma wrap64_range (z : Z) : int64_range (wrap64 z).
Proof.
  unfold int64_range, wrap64.
  pose proof (Z.mod_pos_bound (z + 2 ^ 63) (2 ^ 64) ltac:(lia)). lia.
Qed.

(** A recognised two-byte unit: the number before it is parsed and multiplied
    (in int64) by the unit's table entry. *)
Lemma convertToBytes_unit `{GoLib} (val numStr unit : string) (m : Z) :
  strings.ToUpper val = numStr +:+ unit ->
  units !! unit = Some m ->
  convertToBytes val =
    match strconv.ParseInt numStr with
    | (_, Some e) => Ret (0, Some e)
    | (num, None) => Ret (wrap64 (num * m), None)
    end.
Proof.
  intros Hup Hm. unfold convertToBytes. rewrite Hup. cbv zeta.
  assert (Hl : len unit = 2).
  { unfold len. rewrite (units_key_length unit) by eauto. reflexivity. }
  rewrite <- Hl at 1. rewrite slice_from_app. cbn [obind].
  rewrite bool_decide_eq_true_2 by eauto. cbn [negb].
  unfold convertToBytes_number. rewrite slice_to_app. cbn [obind].
  unfold units_at. rewrite Hm. cbn [default].
  destruct (strconv.ParseInt numStr) as [num [e|]]; reflexivity.
Qed.

(** When the last two bytes are not a unit the last byte is tried, and no
    single byte is a key of the table: the result is the "Invalid unit" error
    naming the last byte. *)
Lemma convertToBytes_no_unit `{GoLib} (val : string) :
  2 <= len (strings.ToUpper val) ->
  units !! drop_bytes (Z.to_nat (len (strings.ToUpper val) - 2)) (strings.ToUpper val) = None ->
  convertToBytes val =
    Ret (0, Some (fmt.Errorf_s "Invalid unit: "
                    (drop_bytes (Z.to_nat (len (strings.ToUpper val) - 1))
                                (strings.ToUpper val)))).
Proof.
  intros Hlen Hnone. unfold convertToBytes. cbv zeta.
  set (up := strings.ToUpper val) in *.
  rewrite !slice_from_Ret by lia. cbn [obind].
  rewrite bool_decide_eq_false_2 by (rewrite Hnone; apply is_Some_None). cbn [negb obind].
  rewrite bool_decide_eq_false_2; [reflexivity|].
  rewrite units_one_byte; [apply is_Some_None|].
  rewrite length_drop_bytes. unfold len in *. lia.
Qed.

(** An ASCII string of one byte: the first slice is out of range. *)
Lemma convertToBytes_one_byte `{GoLib} (val : string) :
  strings.isASCII val = true -> String.length val = 1%nat ->
  convertToBytes val = Panic (SliceBoundsOutOfRange (-1) 1 1).
Proof.
  intros Ha Hl. unfold convertToBytes. cbv zeta.
  assert (Hlen : len (strings.ToUpper val) = 1).
  { rewrite len_ToUpper_ascii by done. unfold len. rewrite Hl. reflexivity. }
  rewrite slice_from_Panic by lia. rewrite Hlen. reflexivity.
Qed.

(** C3.  A memory string whose upper-cased form is a decimal numeral followed
    by one of the units KB, MB, GB, TB yields the number the numeral denotes
    times the unit's power of 1024 (KB 1024, MB 1024^2, GB 1024^3, TB 1024^4),
    computed in int64: the product itself whenever it fits. *)
Theorem convertToBytes_decimal_times_unit `{GoLib} (val numStr unit : string) (m : Z) :
  strings.ToUpper val = numStr +:+ unit ->
  unit_multiplier_spec unit = Some m ->
  is_decimal numStr = true ->
  decimal_value numStr < 2 ^ 63 ->
  convertToBytes val = Ret (wrap64 (decimal_value numStr * m), None) /\
  (decimal_value numStr * m < 2 ^ 63 ->
   convertToBytes val = Ret (decimal_value numStr * m, None)).
Proof.
  intros Hup Hm Hdec Hlt.
  rewrite <- units_spec in Hm.
  assert (Hconv : convertToBytes val = Ret (wrap64 (decimal_value numStr * m), None)).
  { rewrite (convertToBytes_unit val numStr unit m Hup Hm).
    by rewrite (ParseInt_decimal numStr Hdec Hlt). }
  split; [exact Hconv|].
  intros Hfit. rewrite Hconv. rewrite wrap64_in_range; [reflexivity|].
  unfold is_decimal in Hdec. apply andb_prop in Hdec as [Hd _].
  pose proof (decimal_value_nonneg numStr Hd).
  apply units_lookup_Some in Hm. unfold int64_range.
  destruct Hm as [[_ ->]|[[_ ->]|[[_ ->]|[_ ->]]]]; lia.
Qed.

(** "512MB" is 512 * 1024^2 and "2GB" is 2 * 1024^3. *)
Lemma convertToBytes_512MB_2GB :
  @convertToBytes plainLib "512MB" = Ret (512 * 1024 ^ 2, None) /\
  @convertToBytes plainLib "2GB" = Ret (2 * 1024 ^ 3, None).
Proof.
  split.
  - apply (proj2 (@convertToBytes_decimal_times_unit plainLib "512MB" "512" "MB" (1024 ^ 2)
                    eq_refl eq_refl eq_refl eq_refl)).
    reflexivity.
  - apply (proj2 (@convertToBytes_decimal_times_unit plainLib "2GB" "2" "GB" (1024 ^ 3)
                    eq_refl eq_refl eq_refl eq_refl)).
    reflexivity.
Defined.

(** The same two values whatever the library functions are, and in lower case. *)
Example convertToBytes_512MB `{GoLib} : convertToBytes "512MB" = Ret (536870912, None).
Proof. reflexivity. Qed.

Example convertToBytes_2gb `{GoLib} : convertToBytes "2gb" = Ret (2147483648, None).
Proof. reflexivity. Qed.

(** The product is an int64 product: 2^53 KB wraps around. *)
Example convertToBytes_wraps `{GoLib} :
  convertToBytes "9007199254740992KB" = Ret (- 2 ^ 63, None).
Proof. reflexivity. Qed.

(** C4.  When the last two bytes of the upper-cased string are not a unit, the
    last byte is tried as a unit; the table has two-byte keys only, so that
    lookup fails for every input and the result is the "Invalid unit" error
    naming the last byte.  No input is parsed through the one-byte fallback. *)
Theorem convertToBytes_one_byte_fallback_fails `{GoLib} (val : string) :
  2 <= len (strings.ToUpper val) ->
  units !! drop_bytes (Z.to_nat (len (strings.ToUpper val) - 2)) (strings.ToUpper val) = None ->
  exists unit,
    slice_from (strings.ToUpper val) (len (strings.ToUpper val) - 1) = Ret unit /\
    units !! unit = None /\
    convertToBytes val = Ret (0, Some (errorString ("Invalid unit: " +:+ unit))).
Proof.
  intros Hlen Hnone.
  exists (drop_bytes (Z.to_nat (len (strings.ToUpper val) - 1)) (strings.ToUpper val)).
  split; [apply slice_from_Ret; lia|]. split.
  - apply units_one_byte. rewrite length_drop_bytes. unfold len in *. lia.
  - by apply convertToBytes_no_unit.
Qed.

(** "10K" ends in a one-letter unit and is rejected. *)
Lemma convertToBytes_10K :
  exists unit,
    slice_from "10K" 2 = Ret unit /\
    units !! unit = None /\
    @convertToBytes plainLib "10K" = Ret (0, Some (errorString ("Invalid unit: " +:+ unit))).
Proof.
  exact (@convertToBytes_one_byte_fallback_fails plainLib "10K" ltac:(vm_compute; discriminate) eq_refl).
Defined.

Example convertToBytes_10K_error `{GoLib} :
  convertToBytes "10K" = Ret (0, Some (errorString "Invalid unit: K")).
Proof. reflexivity. Qed.

(** ** Running the trace monad *)

Lemma bind_ret {A B} (a : A) (k : A -> Exec B) (t : list event) :
  (mret a ≫= k) t = k a t.
Proof. reflexivity. Qed.

Lemma bind_call {A B} (e : event) (a : A) (k : A -> Exec B) (t : list event) :
  (call e a ≫= k) t = k a (t ++ [e]).
Proof. reflexivity. Qed.

Lemma bind_emit {B} (e : event) (k : unit -> Exec B) (t : list event) :
  (emit e ≫= k) t = k tt (t ++ [e]).
Proof. reflexivity. Qed.

Lemma bind_lift {A B} (o : outcome A) (k : A -> Exec B) (t : list event) :
  (lift o ≫= k) t = match o with Ret a => k a t | Panic p => (Panic p, t) end.
Proof. destruct o; reflexivity. Qed.

Lemma bind_bind {A B C} (m : Exec A) (k1 : A -> Exec B) (k2 : B -> Exec C)
    (t : list event) :
  ((m ≫= k1) ≫= k2) t = (m ≫= (fun a => k1 a ≫= k2)) t.
Proof. unfold mbind, Exec_bind. destruct (m t) as [[a|p] t']; reflexivity. Qed.

Lemma bind_eq {A B} (m : Exec A) (k : A -> Exec B) (t t' : list event) (o : outcome A) :
  m t = (o, t') ->
  (m ≫= k) t = match o with Ret a => k a t' | Panic p => (Panic p, t') end.
Proof. intros Hm. unfold mbind, Exec_bind. rewrite Hm. destruct o; reflexivity. Qed.

Lemma cleanup_run `{GoLib} (w : World) (name : string) (t : list event) :
  cleanup w name t = (Ret tt, t ++ cleanup_events w name).
Proof.
  unfold cleanup, cleanup_events, stop_log, remove_log. rewrite bind_call.
  destruct (ContainerInspect w name) as [ei|]; [reflexivity|]. rewrite bind_call.
  destruct (ContainerStop w name) as [es|];
    [rewrite bind_emit|rewrite bind_ret]; rewrite bind_call;
    destruct (ContainerRemove w name) as [er|]; unfold emit, call, mret, Exec_ret;
    rewrite <- ?app_assoc; reflexivity.
Qed.

Lemma createAndStart_run `{GoLib} (w : World) (config : container.Config.t)
    (hostConfig : container.HostConfig.t) (name : string) (t : list event) :
  createAndStart w config hostConfig name t =
    (Ret (create_result w config hostConfig name),
     t ++ [CallContainerCreate config hostConfig name]
       ++ after_create w config hostConfig name).
Proof.
  unfold createAndStart, after_create, create_result. rewrite bind_call.
  destruct (ContainerCreate w config hostConfig name) as [cID [e|]];
    rewrite ?bind_emit; unfold call, mret, Exec_ret;
    rewrite <- ?app_assoc; reflexivity.
Qed.

(** ** The rules of the program logic *)

Section Hoare.
Context {A B : Type} (P : event -> Prop).

Lemma hoare_ret (a : A) (Q : A -> Prop) : Q a -> hoare P (mret a) Q.
Proof. intros Ha t. exists (Ret a), []. rewrite app_nil_r. by repeat split. Qed.

Lemma hoare_call (e : event) (a : A) (Q : A -> Prop) :
  P e -> Q a -> hoare P (call e a) Q.
Proof. intros He Ha t. exists (Ret a), [e]. repeat split; auto. Qed.

Lemma hoare_lift (o : outcome A) (Q : A -> Prop) :
  (forall a, o = Ret a -> Q a) -> hoare P (lift o) Q.
Proof.
  intros Ho t. exists o, []. rewrite app_nil_r. repeat split; auto.
  destruct o; auto.
Qed.

Lemma hoare_bind (m : Exec A) (k : A -> Exec B) (R : A -> Prop) (Q : B -> Prop) :
  hoare P m R -> (forall a, R a -> hoare P (k a) Q) -> hoare P (m ≫= k) Q.
Proof.
  intros Hm Hk t. destruct (Hm t) as (o & es & Hrun & Hes & Ho).
  rewrite (bind_eq m k t (t ++ es) o Hrun). destruct o as [a|p].
  - destruct (Hk a Ho (t ++ es)) as (o' & es' & Hrun' & Hes' & Ho').
    exists o', (es ++ es'). rewrite Hrun', app_assoc. repeat split; auto.
    by apply Forall_app.
  - exists (Panic p), es. repeat split; auto.
Qed.

Lemma hoare_defer (e : event) (m : Exec A) (Q : A -> Prop) :
  P e -> hoare P m Q -> hoare P (defer e m) Q.
Proof.
  intros He Hm t. destruct (Hm t) as (o & es & Hrun & Hes & Ho).
  exists o, (es ++ [e]). unfold defer. rewrite Hrun, app_assoc. repeat split; auto.
  apply Forall_app. split; auto.
Qed.

Lemma hoare_weaken (m : Exec A) (Q Q' : A -> Prop) :
  hoare P m Q -> (forall a, Q a -> Q' a) -> hoare P m Q'.
Proof.
  intros Hm HQ t. destruct (Hm t) as (o & es & Hrun & Hes & Ho).
  exists o, es. repeat split; auto. destruct o; auto.
Qed.
End Hoare.

(** What [hoare] says about a run from the empty trace. *)
Lemma hoare_run {A} (P : event -> Prop) (m : Exec A) (Q : A -> Prop) (e : event) :
  hoare P m Q -> e ∈ (run m).2 -> P e.
Proof.
  intros Hm He. destruct (Hm []) as (o & es & Hrun & Hes & _).
  unfold run in He. rewrite Hrun in He. cbn in He.
  rewrite Forall_forall in Hes. auto.
Qed.

Section BlocksHoare.
Context `{GoLib} (w : World) (P : event -> Prop).
Hypothesis P_println : forall line, P (Println line).
Hypothesis P_inspect : forall name, P (CallContainerInspect name).
Hypothesis P_stop : forall name, P (CallContainerStop name).
Hypothesis P_remove : forall name, P (CallContainerRemove name).
Hypothesis P_start : forall id, P (CallContainerStart id).

Lemma cleanup_hoare (name : string) : hoare P (cleanup w name) (fun _ => True).
Proof.
  unfold cleanup.
  eapply hoare_bind; [apply hoare_call with (Q := fun _ => True); auto|].
  intros [e|] _; [by apply hoare_ret|].
  eapply hoare_bind; [apply hoare_call with (Q := fun _ => True); auto|].
  intros err _.
  eapply hoare_bind with (R := fun _ => True).
  { destruct err; [apply hoare_call|apply hoare_ret]; auto. }
  intros _ _.
  eapply hoare_bind; [apply hoare_call with (Q := fun _ => True); auto|].
  intros [e|] _; [apply hoare_call|apply hoare_ret]; auto.
Qed.

Lemma createAndStart_hoare (config : container.Config.t)
    (hostConfig : container.HostConfig.t) (name : string) :
  P (CallContainerCreate config hostConfig name) ->
  hoare P (createAndStart w config hostConfig name) (fun _ => True).
Proof.
  intros Hc. unfold createAndStart.
  eapply hoare_bind; [apply hoare_call with (Q := fun _ => True); auto|].
  intros [cID [e|]] _.
  - eapply hoare_bind; [apply hoare_call with (Q := fun _ => True); auto|].
    intros _ _. by apply hoare_ret.
  - apply hoare_call; auto.
Qed.
End BlocksHoare.

(** ** The port-binding loops *)

Lemma portBindingsLoop_cons (b : DockerPortBindingRequest.t)
    (l : list DockerPortBindingRequest.t) (m : gmap string (list nat_.PortBinding.t)) :
  portBindingsLoop (b :: l) m =
  portBindingsLoop l (<[port_container b := host_binding (port_host b)]> m).
Proof. reflexivity. Qed.

Lemma portBindingsLoop_app (l1 l2 : list DockerPortBindingRequest.t)
    (m : gmap string (list nat_.PortBinding.t)) :
  portBindingsLoop (l1 ++ l2) m = portBindingsLoop l2 (portBindingsLoop l1 m).
Proof. unfold portBindingsLoop. apply foldl_app. Qed.

Lemma portBindingsLoop_notin (p : string) (l : list DockerPortBindingRequest.t)
    (m : gmap string (list nat_.PortBinding.t)) :
  p ∉ port_container <$> l -> portBindingsLoop l m !! p = m !! p.
Proof.
  revert m. induction l as [|b l IH]; intros m Hp; [reflexivity|].
  rewrite fmap_cons, not_elem_of_cons in Hp. destruct Hp as [Hne Hp].
  rewrite portBindingsLoop_cons, IH by done. by rewrite lookup_insert_ne.
Qed.

(** A container port is bound to the host port of its last binding. *)
Lemma portBindingsLoop_last (l1 l2 : list DockerPortBindingRequest.t)
    (b : DockerPortBindingRequest.t) (m : gmap string (list nat_.PortBinding.t)) :
  port_container b ∉ port_container <$> l2 ->
  portBindingsLoop (l1 ++ b :: l2) m !! port_container b = Some (host_binding (port_host b)).
Proof.
  intros Hlast. rewrite portBindingsLoop_app, portBindingsLoop_cons.
  rewrite portBindingsLoop_notin by done. apply lookup_insert_eq.
Qed.

(** Every entry of the map comes from a binding of the list (or was there). *)
Lemma portBindingsLoop_lookup_Some (l : list DockerPortBindingRequest.t)
    (m : gmap string (list nat_.PortBinding.t)) (p : string) (bs : list nat_.PortBinding.t) :
  portBindingsLoop l m !! p = Some bs ->
  m !! p = Some bs \/
  exists b, b ∈ l /\ port_container b = p /\ bs = host_binding (port_host b).
Proof.
  revert m. induction l as [|b l IH]; intros m Hl; [by left|].
  rewrite portBindingsLoop_cons in Hl. apply IH in Hl as [Hl|(b' & Hin & Hp & Hbs)].
  - apply lookup_insert_Some in Hl as [[Hp Hbs]|[_ Hm]]; [|by left].
    right. exists b. split; [apply list_elem_of_here|]. by split.
  - right. exists b'. split; [by apply list_elem_of_further|]. by split.
Qed.

Lemma exposedPortsLoop_spec (l : list DockerPortBindingRequest.t) (ports : gset string)
    (p : string) :
  p ∈ exposedPortsLoop l ports <-> p ∈ ports \/ p ∈ port_container <$> l.
Proof.
  revert ports. induction l as [|b l IH]; intros ports.
  - cbn. rewrite elem_of_nil. tauto.
  - change (exposedPortsLoop (b :: l) ports)
      with (exposedPortsLoop l ({[port_container b]} ∪ ports)).
    rewrite IH, fmap_cons, elem_of_cons, elem_of_union, elem_of_singleton. tauto.
Qed.

Lemma nonempty_false {A} (l : list A) : nonempty l = false -> l = [].
Proof. destruct l; [done|]. unfold nonempty. cbn [length]. intros ?%Z.ltb_ge. lia. Qed.

Lemma addPortBindings_spec (bindings : list DockerPortBindingRequest.t)
    (config : container.Config.t) (hostConfig : container.HostConfig.t) :
  container.HostConfig.PortBindings hostConfig = ∅ ->
  container.Config.ExposedPorts config = ∅ ->
  ports_follow_bindings bindings
    (addExposedPorts bindings config) (addPortBindings bindings hostConfig).
Proof.
  intros Hpb Hep. unfold addExposedPorts, addPortBindings.
  destruct (nonempty bindings) eqn:Hne.
  - cbn. repeat split.
    + intros l1 b l2 -> Hlast. by apply portBindingsLoop_last.
    + intros p bs Hl. apply portBindingsLoop_lookup_Some in Hl as [Hl|Hl]; [|done].
      by rewrite lookup_empty in Hl.
    + intros Hp. apply exposedPortsLoop_spec in Hp as [Hp|Hp]; [|done].
      by apply not_elem_of_empty in Hp.
    + intros Hp. apply exposedPortsLoop_spec. by right.
  - apply nonempty_false in Hne as ->. unfold ports_follow_bindings.
    rewrite Hpb, Hep. repeat split.
    + intros l1 b l2 Hnil. by destruct l1.
    + intros p bs Hl. by rewrite lookup_empty in Hl.
    + intros Hp. by apply not_elem_of_empty in Hp.
    + intros Hp. by apply elem_of_nil in Hp.
Qed.

Lemma addVolumeBindings_keeps (volumes : list DockerVolumeBindingRequest.t)
    (hostConfig : container.HostConfig.t) :
  container.HostConfig.PortBindings (addVolumeBindings volumes hostConfig)
    = container.HostConfig.PortBindings hostConfig /\
  container.HostConfig.RestartPolicy (addVolumeBindings volumes hostConfig)
    = container.HostConfig.RestartPolicy hostConfig.
Proof. unfold addVolumeBindings. by destruct (nonempty volumes). Qed.

Lemma addPortBindings_keeps (bindings : list DockerPortBindingRequest.t)
    (hostConfig : container.HostConfig.t) :
  container.HostConfig.RestartPolicy (addPortBindings bindings hostConfig)
    = container.HostConfig.RestartPolicy hostConfig.
Proof. unfold addPortBindings. by destruct (nonempty bindings). Qed.

(** ** src/main.go: the resource limits *)

Section MainResources.
Import Main.DockerRequest.
Context `{GoLib}.

Lemma resourceLimits_ok (request : Main.DockerRequest.t)
    (hostConfig : container.HostConfig.t) (t : list event) :
  resources_parse request ->
  exists res,
    Main.resourceLimits request hostConfig t =
      (Ret (inl (container.HostConfig.set_Resources res hostConfig)), t).
Proof.
  intros [Hmem Hcpu]. unfold Main.resourceLimits. cbv zeta.
  destruct hostConfig as [pb rp mo rs].
  destruct (bool_decide (Memory request ≠ "")) eqn:Hm;
    destruct (bool_decide (CPUShares request ≠ "")) eqn:Hcs; cbn [orb].
  - apply bool_decide_eq_true in Hm, Hcs.
    destruct Hmem as [?|[n Hn]]; [done|]. destruct Hcpu as [?|[c Hc]]; [done|].
    rewrite bind_bind, bind_lift, Hn, bind_ret, Hc. eexists. reflexivity.
  - apply bool_decide_eq_true in Hm.
    destruct Hmem as [?|[n Hn]]; [done|].
    rewrite bind_bind, bind_lift, Hn, bind_ret. eexists. reflexivity.
  - apply bool_decide_eq_true in Hcs.
    destruct Hcpu as [?|[c Hc]]; [done|].
    rewrite bind_ret, Hc. eexists. reflexivity.
  - rewrite bind_ret. exists rs. reflexivity.
Qed.

(** A memory string on which [convertToBytes] panics: the panic leaves
    [resourceLimits] before anything is printed or returned. *)
Lemma resourceLimits_panic (request : Main.DockerRequest.t)
    (hostConfig : container.HostConfig.t) (t : list event) (p : panic) :
  Memory request <> "" -> convertToBytes (Memory request) = Panic p ->
  Main.resourceLimits request hostConfig t = (Panic p, t).
Proof.
  intros Hne Hp. unfold Main.resourceLimits. cbv zeta.
  rewrite (bool_decide_eq_true_2 _ Hne). cbn [orb].
  rewrite bind_bind, bind_lift, Hp. reflexivity.
Qed.

(** A memory string that [convertToBytes] rejects: the error is printed and
    returned. *)
Lemma resourceLimits_memory_error (request : Main.DockerRequest.t)
    (hostConfig : container.HostConfig.t) (t : list event) (n : Z) (e : error) :
  Memory request <> "" -> convertToBytes (Memory request) = Ret (n, Some e) ->
  Main.resourceLimits request hostConfig t =
    (Ret (inr e), t ++ [Println ("[startContainer][Memory-Parsing][ERROR] : " +:+ Error e)]).
Proof.
  intros Hne Hp. unfold Main.resourceLimits. cbv zeta.
  rewrite (bool_decide_eq_true_2 _ Hne). cbn [orb].
  rewrite bind_bind, bind_lift, Hp. reflexivity.
Qed.

(** A CPU-share string that [strconv.ParseInt] rejects, after a memory
    string that is absent or parses. *)
Lemma resourceLimits_cpu_error (request : Main.DockerRequest.t)
    (hostConfig : container.HostConfig.t) (t : list event) (n : Z) (e : error) :
  (Memory request = "" \/ exists m, convertToBytes (Memory request) = Ret (m, None)) ->
  CPUShares request <> "" -> strconv.ParseInt (CPUShares request) = (n, Some e) ->
  Main.resourceLimits request hostConfig t =
    (Ret (inr e), t ++ [Println ("[startContainer][CPUShares-Parsing][ERROR] : " +:+ Error e)]).
Proof.
  intros Hmem Hne Hp. unfold Main.resourceLimits. cbv zeta.
  rewrite (bool_decide_eq_true_2 _ Hne). rewrite orb_true_r.
  destruct Hmem as [Hmem|[m Hm]].
  - rewrite Hmem. rewrite (bool_decide_eq_false_2 ("" ≠ "")) by (intros Hx; by apply Hx).
    rewrite bind_ret, Hp. reflexivity.
  - case_bool_decide; rewrite ?bind_bind, ?bind_lift, ?Hm, ?bind_ret, Hp; reflexivity.
Qed.

(** Whatever the strings are, [resourceLimits] terminates, prints at most,
    and a returned host configuration differs in its resources only. *)
Lemma resourceLimits_hoare (P : event -> Prop) (request : Main.DockerRequest.t)
    (hostConfig : container.HostConfig.t) :
  (forall line, P (Println line)) ->
  hoare P (Main.resourceLimits request hostConfig)
    (fun r => match r with
              | inl hostConfig' =>
                  exists res, hostConfig' = container.HostConfig.set_Resources res hostConfig
              | inr _ => True
              end).
Proof.
  intros HP. unfold Main.resourceLimits. cbv zeta.
  assert (Hshape : forall b : bool, exists res,
    (if b then container.HostConfig.set_Resources container.Resources.zero hostConfig
     else hostConfig) = container.HostConfig.set_Resources res hostConfig).
  { intros [|]; [eexists; reflexivity|].
    exists (container.HostConfig.Resources hostConfig). by destruct hostConfig. }
  destruct (Hshape (bool_decide (Memory request ≠ "") || bool_decide (CPUShares request ≠ "")))
    as [res0 ->].
  eapply hoare_bind with
    (R := fun r => match r with
                   | inl hc => exists res, hc = container.HostConfig.set_Resources res hostConfig
                   | inr _ => True
                   end).
  - case_bool_decide; [|apply hoare_ret; eauto].
    eapply hoare_bind; [apply hoare_lift with (Q := fun _ => True); auto|].
    intros [memoryInBytes [e|]] _.
    + eapply hoare_bind; [apply hoare_call with (Q := fun _ => True); auto|].
      intros _ _. by apply hoare_ret.
    + apply hoare_ret. eexists. reflexivity.
  - intros [hc|e] Hr; [|by apply hoare_ret].
    destruct Hr as [res ->].
    case_bool_decide; [|apply hoare_ret; eauto].
    destruct (strconv.ParseInt (CPUShares request)) as [cpuShares [e|]].
    + eapply hoare_bind; [apply hoare_call with (Q := fun _ => True); auto|].
      intros _ _. by apply hoare_ret.
    + apply hoare_ret. eexists. reflexivity.
Qed.
End MainResources.

(** ** src/main.go: [startContainer] *)

Section MainDeploy.
Import Main.DockerRequest.
Context `{GoLib} (w : World).

Lemma startContainer_load_failed (request : Main.DockerRequest.t) (t : list event)
    (e : error) :
  strings.HasPrefix (Image request) privateDockerRegistry = true ->
  cliconfig_Load w "" = Some e ->
  Main.startContainer w request t =
    (Ret (Some (errors.New "config load failed")), t ++ [CallConfigLoad ""]).
Proof.
  intros Hp Hl. unfold Main.startContainer. rewrite Hp. cbn [negb].
  rewrite bind_call, Hl. reflexivity.
Qed.

Lemma startContainer_to_pull (request : Main.DockerRequest.t) (t : list event) :
  strings.HasPrefix (Image request) privateDockerRegistry = true ->
  cliconfig_Load w "" = None ->
  Main.startContainer w request t =
    match ImagePull w (Image request) (pullOptions w) with
    | Some e => (Ret (Some e), t ++ pull_events w request)
    | None => defer ReaderClose (Main.afterPull w request) (t ++ pull_events w request)
    end.
Proof.
  intros Hp Hl. unfold Main.startContainer, pull_events, pullOptions.
  rewrite Hp. cbn [negb]. rewrite bind_call, Hl, bind_call.
  destruct (GetAuthConfig w privateDockerRegistry) as [conf cerr]. cbn [fst].
  destruct (json_Marshal conf) as [jsonRegistryAuth jerr]. cbn [fst].
  rewrite bind_call, <- !app_assoc. cbn [app].
  destruct (ImagePull w (Image request) _); reflexivity.
Qed.

Lemma afterPull_run (request : Main.DockerRequest.t) (t : list event) :
  Main.afterPull w request t =
    match Main.resourceLimits request hostConfig_always
            (t ++ [DisplayJSONMessagesStream] ++ cleanup_events w (ContainerName request)) with
    | (Ret (inl hostConfig), t') =>
        createAndStart w (Main.buildContainerConfig request)
          (hostConfig_final request hostConfig) (ContainerName request) t'
    | (Ret (inr e), t') => (Ret (Some e), t')
    | (Panic p, t') => (Panic p, t')
    end.
Proof.
  unfold Main.afterPull. rewrite bind_emit.
  rewrite (bind_eq _ _ _ _ _ (cleanup_run w _ _)). cbv zeta.
  rewrite <- app_assoc. unfold mbind, Exec_bind, hostConfig_always, hostConfig_final.
  destruct (Main.resourceLimits _ _ _) as [[[hc|e]|p] t']; reflexivity.
Qed.

Lemma afterPull_hoare (request : Main.DockerRequest.t) :
  hoare (create_shape request) (Main.afterPull w request) (fun _ => True).
Proof.
  unfold Main.afterPull.
  eapply hoare_bind; [apply hoare_call with (Q := fun _ => True); done|]. intros _ _.
  eapply hoare_bind; [apply cleanup_hoare; done|]. intros _ _. cbv zeta.
  eapply hoare_bind; [apply resourceLimits_hoare; done|].
  intros [hostConfig|e] Hr; [|by apply hoare_ret].
  destruct Hr as [res ->]. apply createAndStart_hoare; try done.
  cbn. exists res. done.
Qed.

Lemma startContainer_hoare (request : Main.DockerRequest.t) :
  hoare (create_shape request) (Main.startContainer w request) (fun _ => True).
Proof.
  unfold Main.startContainer.
  destruct (negb _); [by apply hoare_ret|].
  eapply hoare_bind; [apply hoare_call with (Q := fun _ => True); done|].
  intros [e|] _; [by apply hoare_ret|].
  eapply hoare_bind; [apply hoare_call with (Q := fun _ => True); done|].
  intros [conf cerr] _. destruct (json_Marshal conf) as [jsonRegistryAuth jerr].
  eapply hoare_bind; [apply hoare_call with (Q := fun _ => True); done|].
  intros [e|] _; [by apply hoare_ret|].
  apply hoare_defer; [done|]. apply afterPull_hoare.
Qed.

(** [startContainer] terminates from every trace, and only appends to it. *)
Lemma startContainer_total (request : Main.DockerRequest.t) (t : list event) :
  exists o es, Main.startContainer w request t = (o, t ++ es).
Proof.
  destruct (startContainer_hoare request t) as (o & es & Hrun & _). eauto.
Qed.

(** The handler answers from the result of [startContainer], and panics when
    it panics. *)
Lemma handler_run (c : Main.Ctx) (t : list event) :
  Main.handler w c t =
    match Main.BodyParser c with
    | (_, Some e) => (Ret (JSON 500 1 (Error e)), t)
    | (request, None) =>
        match Main.startContainer w request t with
        | (Ret (Some e), t') => (Ret (JSON 500 1 (Error e)), t')
        | (Ret None, t') => (Ret (JSON 200 0 "Container Started"), t')
        | (Panic p, t') => (Panic p, t')
        end
    end.
Proof.
  unfold Main.handler. destruct (Main.BodyParser c) as [request [e|]]; [reflexivity|].
  unfold mbind, Exec_bind.
  destruct (Main.startContainer w request t) as [[[e|]|p] t']; reflexivity.
Qed.
End MainDeploy.

(** ** src/unnamed/part_000: [startContainer] *)

Section ApiKeyDeploy.
Import ApiKey.DockerRequest.
Context `{GoLib} (w : World).

Lemma apikey_startContainer_to_pull (request : ApiKey.DockerRequest.t) (t : list event) :
  strings.HasPrefix (Image request) "d.puneet.cc" = true ->
  ApiKey.startContainer w request t =
    match ImagePull w (Image request) types.ImagePullOptions.zero with
    | Some e =>
        (Ret (Some e), t ++ [CallImagePull (Image request) types.ImagePullOptions.zero])
    | None =>
        defer ReaderClose (ApiKey.afterPull w request)
          (t ++ [CallImagePull (Image request) types.ImagePullOptions.zero])
    end.
Proof.
  intros Hp. unfold ApiKey.startContainer. rewrite Hp. cbn [negb]. cbv zeta.
  rewrite bind_call. destruct (ImagePull w (Image request) _); reflexivity.
Qed.

Lemma apikey_afterPull_run (request : ApiKey.DockerRequest.t) (t : list event) :
  ApiKey.afterPull w request t =
    createAndStart w (ApiKey.buildContainerConfig request) (apikey_hostConfig request)
      (ContainerName request)
      (t ++ [DisplayJSONMessagesStream] ++ cleanup_events w (ContainerName request)).
Proof.
  unfold ApiKey.afterPull. rewrite bind_emit.
  rewrite (bind_eq _ _ _ _ _ (cleanup_run w _ _)). cbv zeta.
  by rewrite <- app_assoc.
Qed.

Lemma apikey_startContainer_hoare (request : ApiKey.DockerRequest.t) :
  hoare (apikey_create_shape request) (ApiKey.startContainer w request) (fun _ => True).
Proof.
  unfold ApiKey.startContainer.
  destruct (negb _); [by apply hoare_ret|]. cbv zeta.
  eapply hoare_bind; [apply hoare_call with (Q := fun _ => True); done|].
  intros [e|] _; [by apply hoare_ret|].
  apply hoare_defer; [done|]. unfold ApiKey.afterPull.
  eapply hoare_bind; [apply hoare_call with (Q := fun _ => True); done|]. intros _ _.
  eapply hoare_bind; [apply cleanup_hoare; done|]. intros _ _. cbv zeta.
  apply createAndStart_hoare; done.
Qed.

Lemma apikey_handler_run (c : ApiKey.Ctx) (t : list event) :
  ApiKey.handler w c t =
    if bool_decide (ApiKey.Get c "x-api-key" ≠ os_Getenv w "DOCKER_DEPLOY_SECRET")
    then (Ret (JSON 500 1 "Unauthorised Access"), t)
    else
      match ApiKey.BodyParser c with
      | (_, Some e) => (Ret (JSON 500 1 (Error e)), t)
      | (request, None) =>
          match ApiKey.startContainer w request t with
          | (Ret (Some e), t') => (Ret (JSON 500 1 (Error e)), t')
          | (Ret None, t') => (Ret (JSON 200 0 "Container Started"), t')
          | (Panic p, t') => (Panic p, t')
          end
      end.
Proof.
  unfold ApiKey.handler. case_bool_decide; [reflexivity|].
  destruct (ApiKey.BodyParser c) as [request [e|]]; [reflexivity|].
  unfold mbind, Exec_bind.
  destruct (ApiKey.startContainer w request t) as [[[e|]|p] t']; reflexivity.
Qed.

(** Nothing in this variant can panic: [startContainer] always returns. *)
Lemma apikey_startContainer_returns (request : ApiKey.DockerRequest.t) (t : list event) :
  exists err es, ApiKey.startContainer w request t = (Ret err, t ++ es).
Proof.
  unfold ApiKey.startContainer.
  destruct (negb _); [exists (Some (errors.New "only d.puneet.cc images supported")), [];
                      by rewrite app_nil_r|].
  cbv zeta. rewrite bind_call.
  destruct (ImagePull w (Image request) _) as [e|]; [by eexists _, _|].
  unfold defer. rewrite apikey_afterPull_run, createAndStart_run.
  eexists _, _. rewrite <- !app_assoc. reflexivity.
Qed.
End ApiKeyDeploy.

(** ** Complete runs of the deploy *)

Section MainRuns.
Import Main.DockerRequest.
Context `{GoLib} (w : World).

Lemma startContainer_after_cleanup (request : Main.DockerRequest.t) (t : list event) :
  reaches_configuration w request ->
  Main.startContainer w request t =
    match Main.resourceLimits request hostConfig_always (t ++ events_to_cleanup w request) with
    | (Ret (inl hostConfig), t') =>
        (Ret (create_result w (Main.buildContainerConfig request)
                (hostConfig_final request hostConfig) (ContainerName request)),
         t' ++ [CallContainerCreate (Main.buildContainerConfig request)
                  (hostConfig_final request hostConfig) (ContainerName request)]
            ++ after_create w (Main.buildContainerConfig request)
                 (hostConfig_final request hostConfig) (ContainerName request)
            ++ [ReaderClose])
    | (Ret (inr e), t') => (Ret (Some e), t' ++ [ReaderClose])
    | (Panic p, t') => (Panic p, t' ++ [ReaderClose])
    end.
Proof.
  intros (Hp & Hl & Hpull). rewrite (startContainer_to_pull w request t Hp Hl), Hpull.
  unfold defer. rewrite afterPull_run. unfold events_to_cleanup.
  rewrite <- !app_assoc.
  destruct (Main.resourceLimits _ _ _) as [[[hc|e]|p] t']; try reflexivity.
  rewrite createAndStart_run, <- !app_assoc. reflexivity.
Qed.

Lemma events_to_cleanup_no_create (request : Main.DockerRequest.t) :
  Forall (fun e => is_create_or_start e = false) (events_to_cleanup w request).
Proof.
  unfold events_to_cleanup, pull_events, cleanup_events, stop_log, remove_log.
  destruct (ContainerInspect w (ContainerName request)),
    (ContainerStop w (ContainerName request)), (ContainerRemove w (ContainerName request));
    repeat constructor.
Qed.

(** A memory string on which [convertToBytes] panics: the deploy panics after
    the cleanup; only the deferred close of the pull stream still runs. *)
Lemma startContainer_memory_panic (request : Main.DockerRequest.t) (t : list event)
    (p : panic) :
  reaches_configuration w request ->
  Memory request <> "" -> convertToBytes (Memory request) = Panic p ->
  Main.startContainer w request t =
    (Panic p, t ++ events_to_cleanup w request ++ [ReaderClose]).
Proof.
  intros Hreach Hne Hp. rewrite (startContainer_after_cleanup request t Hreach).
  rewrite (resourceLimits_panic request _ _ p Hne Hp). by rewrite <- app_assoc.
Qed.

(** A memory string that [convertToBytes] rejects with an error: the deploy
    prints and returns it; create and start are not called. *)
Lemma startContainer_memory_error (request : Main.DockerRequest.t) (t : list event)
    (n : Z) (e : error) :
  reaches_configuration w request ->
  Memory request <> "" -> convertToBytes (Memory request) = Ret (n, Some e) ->
  Main.startContainer w request t =
    (Ret (Some e),
     t ++ events_to_cleanup w request
       ++ [Println ("[startContainer][Memory-Parsing][ERROR] : " +:+ Error e); ReaderClose]).
Proof.
  intros Hreach Hne Hp. rewrite (startContainer_after_cleanup request t Hreach).
  rewrite (resourceLimits_memory_error request _ _ n e Hne Hp).
  by rewrite <- !app_assoc.
Qed.

(** A CPU-share string that [strconv.ParseInt] rejects, after a memory string
    that is absent or parses: likewise. *)
Lemma startContainer_cpu_error (request : Main.DockerRequest.t) (t : list event)
    (n : Z) (e : error) :
  reaches_configuration w request ->
  (Memory request = "" \/ exists m, convertToBytes (Memory request) = Ret (m, None)) ->
  CPUShares request <> "" -> strconv.ParseInt (CPUShares request) = (n, Some e) ->
  Main.startContainer w request t =
    (Ret (Some e),
     t ++ events_to_cleanup w request
       ++ [Println ("[startContainer][CPUShares-Parsing][ERROR] : " +:+ Error e); ReaderClose]).
Proof.
  intros Hreach Hmem Hne Hp. rewrite (startContainer_after_cleanup request t Hreach).
  rewrite (resourceLimits_cpu_error request _ _ n e Hmem Hne Hp).
  by rewrite <- !app_assoc.
Qed.

(** Resource strings that are absent or parse: the deploy goes on to create. *)
Lemma startContainer_creates (request : Main.DockerRequest.t) (t : list event) :
  reaches_configuration w request -> resources_parse request ->
  exists res,
    let hostConfig :=
      hostConfig_final request (container.HostConfig.set_Resources res hostConfig_always) in
    let config := Main.buildContainerConfig request in
    Main.startContainer w request t =
      (Ret (create_result w config hostConfig (ContainerName request)),
       t ++ events_to_cleanup w request
         ++ [CallContainerCreate config hostConfig (ContainerName request)]
         ++ after_create w config hostConfig (ContainerName request) ++ [ReaderClose]).
Proof.
  intros Hreach Hres. rewrite (startContainer_after_cleanup request t Hreach).
  destruct (resourceLimits_ok request hostConfig_always (t ++ events_to_cleanup w request) Hres)
    as [res ->].
  exists res. cbv zeta. by rewrite <- !app_assoc.
Qed.
End MainRuns.

(** The response of the handler of main.go on a request whose body parses, by
    the result of the deploy. *)
Lemma handler_response `{GoLib} (w : World) (c : Main.Ctx) (request : Main.DockerRequest.t)
    (t t' : list event) (err : option error) :
  Main.BodyParser c = (request, None) ->
  Main.startContainer w request t = (Ret err, t') ->
  Main.handler w c t =
    (Ret match err with
         | Some e => JSON 500 1 (Error e)
         | None => JSON 200 0 "Container Started"
         end, t').
Proof. intros Hb Hs. rewrite handler_run, Hb, Hs. by destruct err. Qed.

Lemma handler_malformed_body `{GoLib} (w : World) (c : Main.Ctx)
    (request : Main.DockerRequest.t) (t : list event) (e : error) :
  Main.BodyParser c = (request, Some e) ->
  Main.handler w c t = (Ret (JSON 500 1 (Error e)), t).
Proof. intros Hb. by rewrite handler_run, Hb. Qed.

(** * The statements of the specification *)

(** C1.  A deploy whose image reference does not start with "d.puneet.cc"
    returns the error "only d.puneet.cc images supported" and leaves the trace
    as it was: no call to the engine (nor to anything else) is made.  In both
    variants of the service. *)
Theorem startContainer_rejects_foreign_image `{GoLib} (w : World)
    (request : Main.DockerRequest.t) (request' : ApiKey.DockerRequest.t)
    (t : list event) :
  strings.HasPrefix (Main.DockerRequest.Image request) "d.puneet.cc" = false ->
  strings.HasPrefix (ApiKey.DockerRequest.Image request') "d.puneet.cc" = false ->
  (exists err, Main.startContainer w request t = (Ret (Some err), t) /\
               Error err = "only d.puneet.cc images supported") /\
  (exists err, ApiKey.startContainer w request' t = (Ret (Some err), t) /\
               Error err = "only d.puneet.cc images supported").
Proof.
  intros Hmain Hkey. split.
  - exists (errors.New "only d.puneet.cc images supported").
    unfold Main.startContainer, privateDockerRegistry. by rewrite Hmain.
  - exists (errors.New "only d.puneet.cc images supported").
    unfold ApiKey.startContainer. by rewrite Hkey.
Qed.

(** An image of docker.io is rejected by both variants, from the empty trace. *)
Lemma docker_io_image_rejected :
  (exists err, @Main.startContainer plainLib okWorld foreign [] = (Ret (Some err), []) /\
               @Error plainLib err = "only d.puneet.cc images supported") /\
  (exists err, @ApiKey.startContainer plainLib okWorld foreign_apikey [] = (Ret (Some err), []) /\
               @Error plainLib err = "only d.puneet.cc images supported").
Proof.
  exact (@startContainer_rejects_foreign_image plainLib okWorld foreign foreign_apikey []
           eq_refl eq_refl).
Defined.

(** C2.  When the container exists, the deploy stops it and then removes it;
    an error of either step is printed and nothing else, and the deploy goes
    on to the create call as after a clean removal: in main.go through the
    resource limits, whose memory and CPU-share strings are absent or parse
    (what happens when they do not is the matter of C5), in the x-api-key
    variant directly. *)
Theorem cleanup_failure_not_fatal `{GoLib} (w : World)
    (request : Main.DockerRequest.t) (request' : ApiKey.DockerRequest.t) :
  (reaches_configuration w request ->
   ContainerInspect w (Main.DockerRequest.ContainerName request) = None ->
   resources_parse request ->
   main_cleanup_then_create w request) /\
  (strings.HasPrefix (ApiKey.DockerRequest.Image request') "d.puneet.cc" = true ->
   ImagePull w (ApiKey.DockerRequest.Image request') types.ImagePullOptions.zero = None ->
   ContainerInspect w (ApiKey.DockerRequest.ContainerName request') = None ->
   apikey_cleanup_then_create w request').
Proof.
  split.
  - intros Hreach Hi Hres.
    destruct (startContainer_creates w request [] Hreach Hres) as [res Hrun].
    cbv zeta in Hrun. unfold main_cleanup_then_create. cbv zeta.
    exists (hostConfig_final request
              (container.HostConfig.set_Resources res (hostConfig_always))).
    unfold run. rewrite Hrun.
    unfold events_to_cleanup, cleanup_events, pull_events. rewrite Hi.
    cbn [app]. rewrite <- ?app_assoc. reflexivity.
  - intros Hp Hpull Hi. unfold apikey_cleanup_then_create, run. cbv zeta.
    rewrite (apikey_startContainer_to_pull w request' [] Hp), Hpull.
    unfold defer. rewrite apikey_afterPull_run, createAndStart_run.
    unfold cleanup_events. rewrite Hi. cbn [app]. rewrite <- ?app_assoc. reflexivity.
Qed.

(** With an engine that can neither stop nor remove the container, both
    variants still reach the create call. *)
Lemma stuck_cleanup_still_creates :
  @main_cleanup_then_create plainLib stuckWorld svc1 /\
  @apikey_cleanup_then_create plainLib stuckWorld svc1_apikey.
Proof.
  split.
  - apply (proj1 (@cleanup_failure_not_fatal plainLib stuckWorld svc1 svc1_apikey)).
    + repeat split.
    + reflexivity.
    + split; left; reflexivity.
  - apply (proj2 (@cleanup_failure_not_fatal plainLib stuckWorld svc1 svc1_apikey));
      reflexivity.
Defined.

(** C5.  A memory string of one ASCII byte does not make the deploy fail with
    a parse error: [convertToBytes] panics on it, so [startContainer] returns
    no error at all.  Create and start are not called; after the cleanup only
    the deferred close of the pull stream runs. *)
Theorem one_byte_memory_deploy_panics `{GoLib} (w : World)
    (request : Main.DockerRequest.t) :
  reaches_configuration w request ->
  strings.isASCII (Main.DockerRequest.Memory request) = true ->
  String.length (Main.DockerRequest.Memory request) = 1%nat ->
  run (Main.startContainer w request) =
    (Panic (SliceBoundsOutOfRange (-1) 1 1),
     events_to_cleanup w request ++ [ReaderClose]) /\
  Forall (fun e => is_create_or_start e = false)
    (events_to_cleanup w request ++ [ReaderClose]).
Proof.
  intros Hreach Ha Hl. split.
  - unfold run.
    rewrite (startContainer_memory_panic w request [] (SliceBoundsOutOfRange (-1) 1 1));
      auto using convertToBytes_one_byte.
    intros Hm. rewrite Hm in Hl. discriminate.
  - apply Forall_app. split; [apply events_to_cleanup_no_create|].
    by repeat constructor.
Qed.

(** The memory string "5". *)
Lemma memory_5_deploy_panics :
  run (@Main.startContainer plainLib okWorld (svc1_memory "5")) =
    (Panic (SliceBoundsOutOfRange (-1) 1 1),
     @events_to_cleanup plainLib okWorld (svc1_memory "5") ++ [ReaderClose]) /\
  Forall (fun e => is_create_or_start e = false)
    (@events_to_cleanup plainLib okWorld (svc1_memory "5") ++ [ReaderClose]).
Proof.
  apply (@one_byte_memory_deploy_panics plainLib okWorld (svc1_memory "5")).
  - repeat split.
  - reflexivity.
  - reflexivity.
Defined.

(** C6.  A request whose body parses and whose memory string is one ASCII
    byte gets no response: the handler panics with the deploy, it returns
    neither the 200 nor the 500 answer. *)
Theorem one_byte_memory_no_response `{GoLib} (w : World) (c : Main.Ctx)
    (request : Main.DockerRequest.t) :
  Main.BodyParser c = (request, None) ->
  reaches_configuration w request ->
  strings.isASCII (Main.DockerRequest.Memory request) = true ->
  String.length (Main.DockerRequest.Memory request) = 1%nat ->
  (run (Main.handler w c)).1 = Panic (SliceBoundsOutOfRange (-1) 1 1) /\
  forall response, (run (Main.handler w c)).1 <> Ret response.
Proof.
  intros Hb Hreach Ha Hl.
  assert (Hne : Main.DockerRequest.Memory request <> "").
  { intros Hm. rewrite Hm in Hl. discriminate. }
  assert (Hrun : (run (Main.handler w c)).1 = Panic (SliceBoundsOutOfRange (-1) 1 1)).
  { unfold run. rewrite handler_run, Hb.
    rewrite (startContainer_memory_panic w request [] (SliceBoundsOutOfRange (-1) 1 1));
      auto using convertToBytes_one_byte. }
  split; [exact Hrun|]. intros response. rewrite Hrun. discriminate.
Qed.

(** The request with the memory string "5" gets no response. *)
Lemma memory_5_no_response :
  (run (@Main.handler plainLib okWorld {| Main.BodyParser := (svc1_memory "5", None) |})).1
    = Panic (SliceBoundsOutOfRange (-1) 1 1) /\
  forall response,
    (run (@Main.handler plainLib okWorld {| Main.BodyParser := (svc1_memory "5", None) |})).1
      <> Ret response.
Proof.
  apply (@one_byte_memory_no_response plainLib okWorld
           {| Main.BodyParser := (svc1_memory "5", None) |} (svc1_memory "5")).
  - reflexivity.
  - repeat split.
  - reflexivity.
  - reflexivity.
Defined.

(** X21.  A memory string that [convertToBytes] rejects with an error is
    answered 500 with that error's message, whatever the CPU-share string is:
    the error is printed after the cleanup, and neither create nor start is
    called.  (With [handler_cpu_error], the part of C5 and C6 that holds.) *)
Lemma handler_memory_error `{GoLib} (w : World) (c : Main.Ctx)
    (request : Main.DockerRequest.t) (n : Z) (e : error) :
  Main.BodyParser c = (request, None) ->
  reaches_configuration w request ->
  Main.DockerRequest.Memory request <> "" ->
  convertToBytes (Main.DockerRequest.Memory request) = Ret (n, Some e) ->
  run (Main.handler w c) =
    (Ret (JSON 500 1 (Error e)),
     events_to_cleanup w request
       ++ [Println ("[startContainer][Memory-Parsing][ERROR] : " +:+ Error e); ReaderClose]).
Proof.
  intros Hb Hreach Hne Hp. unfold run.
  by rewrite (handler_response w c request [] _ (Some e) Hb
                (startContainer_memory_error w request [] n e Hreach Hne Hp)).
Qed.

(** X22.  A CPU-share string that [strconv.ParseInt] rejects, after a memory
    string that is absent or parses, is answered 500 with the message of the
    [strconv.ParseInt] error: the error is printed after the cleanup, and
    neither create nor start is called. *)
Lemma handler_cpu_error `{GoLib} (w : World) (c : Main.Ctx)
    (request : Main.DockerRequest.t) (n : Z) (e : error) :
  Main.BodyParser c = (request, None) ->
  reaches_configuration w request ->
  (Main.DockerRequest.Memory request = "" \/
   exists m, convertToBytes (Main.DockerRequest.Memory request) = Ret (m, None)) ->
  Main.DockerRequest.CPUShares request <> "" ->
  strconv.ParseInt (Main.DockerRequest.CPUShares request) = (n, Some e) ->
  run (Main.handler w c) =
    (Ret (JSON 500 1 (Error e)),
     events_to_cleanup w request
       ++ [Println ("[startContainer][CPUShares-Parsing][ERROR] : " +:+ Error e); ReaderClose]).
Proof.
  intros Hb Hreach Hmem Hne Hp. unfold run.
  by rewrite (handler_response w c request [] _ (Some e) Hb
                (startContainer_cpu_error w request [] n e Hreach Hmem Hne Hp)).
Qed.

(** The end-to-end example of the specification. *)
Example handler_svc1 :
  (run (@Main.handler plainLib okWorld {| Main.BodyParser := (svc1, None) |})).1 =
    Ret (JSON 200 0 "Container Started").
Proof. reflexivity. Qed.

Example handler_foreign :
  run (@Main.handler plainLib okWorld {| Main.BodyParser := (foreign, None) |}) =
    (Ret (JSON 500 1 "only d.puneet.cc images supported"), []).
Proof. reflexivity. Qed.


(** With the upper-casing of the Go library, a memory string of one byte
    makes [convertToBytes] panic exactly when the byte is ASCII. *)
Lemma convertToBytes_one_byte_utf8 (c : ascii) :
  (exists p, @convertToBytes utf8Lib (String c "") = Panic p)
  <-> strings.isASCIIbyte c = true.
Proof.
  destruct c as [[] [] [] [] [] [] [] []]; vm_compute;
    (split;
     [ intros [p Hp]; first [reflexivity | discriminate Hp]
     | intros Hc; first [discriminate Hc | eexists; reflexivity] ]).
Qed.



(** C7, as the specification states it, fails in the x-api-key variant: the
    host configuration of its create call has the empty restart policy. *)
Lemma apikey_no_restart_policy :
  exists config hostConfig,
    CallContainerCreate config hostConfig "svc1"
      ∈ (run (@ApiKey.startContainer plainLib okWorld svc1_apikey)).2 /\
    container.HostConfig.RestartPolicy hostConfig = container.RestartPolicy.mk "" 0.
Proof.
  exists (ApiKey.buildContainerConfig svc1_apikey), (apikey_hostConfig svc1_apikey).
  split; [|reflexivity].
  apply list_elem_of_lookup. exists 5%nat. reflexivity.
Qed.

(** C7, amended.  In main.go every create call of a deploy is made with a
    host configuration whose restart policy is "always". *)
Theorem main_restart_policy_always `{GoLib} (w : World) (request : Main.DockerRequest.t)
    (config : container.Config.t) (hostConfig : container.HostConfig.t) (name : string) :
  CallContainerCreate config hostConfig name ∈ (run (Main.startContainer w request)).2 ->
  container.RestartPolicy.Name (container.HostConfig.RestartPolicy hostConfig) = "always".
Proof.
  intros Hin.
  pose proof (hoare_run _ _ _ _ (startContainer_hoare w request) Hin) as Hshape.
  cbn in Hshape. destruct Hshape as (res & -> & _ & _).
  unfold hostConfig_final. rewrite addPortBindings_keeps.
  by rewrite (proj2 (addVolumeBindings_keeps _ _)).
Qed.

(** The create call of the deploy of [svc1]. *)
Lemma svc1_restart_policy_always :
  container.RestartPolicy.Name
    (container.HostConfig.RestartPolicy
       (hostConfig_final svc1
          (container.HostConfig.set_Resources container.Resources.zero hostConfig_always)))
  = "always".
Proof.
  apply (@main_restart_policy_always plainLib okWorld svc1
           (Main.buildContainerConfig svc1) _ "svc1").
  apply list_elem_of_lookup. exists 7%nat. reflexivity.
Defined.

(** C8, as the specification states it, fails when two bindings name the same
    container port: the binding of 80/tcp to host port 8080 is in the
    request, and the create call forwards 80/tcp from host port 9090 only. *)
Lemma repeated_container_port_last_wins :
  exists config hostConfig,
    CallContainerCreate config hostConfig "svc1"
      ∈ (run (@Main.startContainer plainLib okWorld svc1_two_hosts)).2 /\
    DockerPortBindingRequest.mk "80/tcp" "8080"
      ∈ Main.DockerRequest.PortBindings svc1_two_hosts /\
    container.HostConfig.PortBindings hostConfig !! "80/tcp"
      = Some [nat_.PortBinding.mk "0.0.0.0" "9090"].
Proof.
  exists (Main.buildContainerConfig svc1_two_hosts),
         (hostConfig_final svc1_two_hosts
            (container.HostConfig.set_Resources container.Resources.zero hostConfig_always)).
  split; [|split].
  - apply list_elem_of_lookup. exists 7%nat. reflexivity.
  - apply list_elem_of_here.
  - reflexivity.
Qed.

(** C8, amended.  In both variants every create call is made with
    configurations that follow the request's port bindings: each container
    port is forwarded by exactly one host binding, on 0.0.0.0 and the host
    port of the last binding that names the port; no other port is forwarded;
    and the exposed ports are exactly the container ports of the bindings. *)
Theorem created_ports_follow_bindings `{GoLib} (w : World)
    (request : Main.DockerRequest.t) (request' : ApiKey.DockerRequest.t)
    (config : container.Config.t) (hostConfig : container.HostConfig.t) (name : string) :
  (CallContainerCreate config hostConfig name ∈ (run (Main.startContainer w request)).2 ->
   ports_follow_bindings (Main.DockerRequest.PortBindings request) config hostConfig) /\
  (CallContainerCreate config hostConfig name ∈ (run (ApiKey.startContainer w request')).2 ->
   ports_follow_bindings (ApiKey.DockerRequest.PortBindings request') config hostConfig).
Proof.
  split; intros Hin.
  - pose proof (hoare_run _ _ _ _ (startContainer_hoare w request) Hin) as Hshape.
    cbn in Hshape. destruct Hshape as (res & -> & -> & _).
    unfold hostConfig_final, Main.buildContainerConfig. cbv zeta.
    apply addPortBindings_spec.
    + by rewrite (proj1 (addVolumeBindings_keeps _ _)).
    + by destruct (nonempty (Main.DockerRequest.CustomCommand request)),
                  (nonempty (Main.DockerRequest.Environment request)).
  - pose proof (hoare_run _ _ _ _ (apikey_startContainer_hoare w request') Hin) as Hshape.
    cbn in Hshape. destruct Hshape as (-> & -> & _).
    unfold apikey_hostConfig, ApiKey.buildContainerConfig. cbv zeta.
    apply addPortBindings_spec.
    + by rewrite (proj1 (addVolumeBindings_keeps _ _)).
    + by destruct (nonempty (ApiKey.DockerRequest.Environment request')).
Qed.

(** The create call of a deploy with two bindings of 80/tcp. *)
Lemma svc1_two_hosts_ports :
  ports_follow_bindings (Main.DockerRequest.PortBindings svc1_two_hosts)
    (Main.buildContainerConfig svc1_two_hosts)
    (hostConfig_final svc1_two_hosts
       (container.HostConfig.set_Resources container.Resources.zero hostConfig_always)).
Proof.
  apply (proj1 (@created_ports_follow_bindings plainLib okWorld svc1_two_hosts svc1_apikey
                  (Main.buildContainerConfig svc1_two_hosts) _ "svc1")).
  apply list_elem_of_lookup. exists 7%nat. reflexivity.
Defined.

(** C9, as the specification states it, fails: the credential lookup and the
    JSON encoding both fail, and the deploy pulls the image all the same, with
    empty credentials, and succeeds. *)
Lemma credential_lookup_failure_ignored :
  (GetAuthConfig noCredentialWorld "d.puneet.cc").2 = Some (libError "credentials not found") /\
  (@json_Marshal failingMarshalLib types.AuthConfig.zero).2
    = Some (libError "json: unsupported value") /\
  (run (@Main.startContainer failingMarshalLib noCredentialWorld svc1)).1 = Ret None /\
  CallImagePull "d.puneet.cc/app:latest" (types.ImagePullOptions.mk "")
    ∈ (run (@Main.startContainer failingMarshalLib noCredentialWorld svc1)).2.
Proof.
  repeat split. apply list_elem_of_lookup. exists 2%nat. reflexivity.
Qed.

(** C9, amended.  Of the credential steps only the loading of the credential
    configuration is fatal: when it fails the deploy returns "config load
    failed" after that one call, before the pull and every other engine call.
    When it succeeds the pull is the next call after the lookup, whatever
    errors the lookup and the encoding report, with the credentials they
    returned. *)
Theorem only_config_load_failure_is_fatal `{GoLib} (w : World)
    (request : Main.DockerRequest.t) :
  strings.HasPrefix (Main.DockerRequest.Image request) "d.puneet.cc" = true ->
  (forall e, cliconfig_Load w "" = Some e ->
     run (Main.startContainer w request) =
       (Ret (Some (errorString "config load failed")), [CallConfigLoad ""])) /\
  (cliconfig_Load w "" = None ->
     exists o es,
       run (Main.startContainer w request) =
         (o, [CallConfigLoad ""; CallGetAuthConfig "d.puneet.cc";
              CallImagePull (Main.DockerRequest.Image request) (pullOptions w)] ++ es)).
Proof.
  intros Hp. split.
  - intros e Hl. unfold run. by rewrite (startContainer_load_failed w request [] e Hp Hl).
  - intros Hl. unfold run. rewrite (startContainer_to_pull w request [] Hp Hl).
    destruct (ImagePull w _ _) as [e|].
    + exists (Ret (Some e)), []. by rewrite app_nil_r.
    + unfold defer.
      destruct (afterPull_hoare w request ([] ++ pull_events w request))
        as (o & es & -> & _).
      exists o, (es ++ [ReaderClose]). by rewrite <- app_assoc.
Qed.

(** A configuration that cannot be loaded ends the deploy; a failing
    credential lookup does not keep it from pulling. *)
Lemma config_load_failure_fatal_lookup_failure_not :
  run (@Main.startContainer plainLib noConfigWorld svc1) =
    (Ret (Some (errorString "config load failed")), [CallConfigLoad ""]) /\
  exists o es,
    run (@Main.startContainer plainLib noCredentialWorld svc1) =
      (o, [CallConfigLoad ""; CallGetAuthConfig "d.puneet.cc";
           CallImagePull "d.puneet.cc/app:latest" (@pullOptions plainLib noCredentialWorld)]
          ++ es).
Proof.
  split.
  - exact (proj1 (@only_config_load_failure_is_fatal plainLib noConfigWorld svc1 eq_refl)
             _ eq_refl).
  - exact (proj2 (@only_config_load_failure_is_fatal plainLib noCredentialWorld svc1 eq_refl)
             eq_refl).
Defined.

(** * Further properties of the code *)

(** ** [convertToBytes]: which strings it accepts *)

Lemma parseDigits_inl (s : string) (n v : Z) :
  0 <= n -> strconv.parseDigits s n = inl v ->
  all_digits s = true /\ v = n * 10 ^ len s + decimal_value s.
Proof.
  revert n. induction s as [|c s IH]; intros n Hn Hp.
  - cbn in Hp. injection Hp as <-. split; [reflexivity|].
    change (len "") with 0. cbn [decimal_value]. lia.
  - cbn [strconv.parseDigits] in Hp.
    destruct (strconv.isDigit c) eqn:Hc; [|discriminate]. cbn [negb] in Hp.
    destruct (strconv.maxUint64 / 10 + 1 <=? n); [discriminate|].
    cbv zeta in Hp.
    destruct (strconv.maxUint64 <? n * 10 + (byte_val c - 48)); [discriminate|].
    pose proof (isDigit_range c Hc) as Hr.
    apply IH in Hp as [Hd ->]; [|lia].
    split; [cbn [all_digits]; by rewrite Hc, Hd|].
    pose proof (len_nonneg s). rewrite len_String. cbn [decimal_value].
    rewrite Z.pow_add_r by lia. change (10 ^ 1) with 10. ring.
Qed.

Lemma parseDigits_bound (s : string) (n v : Z) :
  n <= strconv.maxUint64 -> strconv.parseDigits s n = inl v -> v <= strconv.maxUint64.
Proof.
  revert n. induction s as [|c s IH]; intros n Hn Hp.
  - cbn in Hp. by injection Hp as <-.
  - cbn [strconv.parseDigits] in Hp.
    destruct (negb (strconv.isDigit c)); [discriminate|].
    destruct (strconv.maxUint64 / 10 + 1 <=? n); [discriminate|].
    cbv zeta in Hp.
    destruct (strconv.maxUint64 <? n * 10 + (byte_val c - 48)) eqn:Hlt; [discriminate|].
    apply Z.ltb_ge in Hlt. eapply IH; [|exact Hp]. lia.
Qed.

(** The digits after the sign, in a successful parse. *)
Lemma ParseInt_digits (neg : bool) (s0 digits : string) (k : Z) :
  digits <> "" ->
  match strconv.parseDigits digits 0 with
  | inr ErrSyntax => (0, Some (NumError "ParseInt" s0 ErrSyntax))
  | r =>
      let un := match r with inl v => v | inr _ => strconv.maxUint64 end in
      let cutoff := 2 ^ 63 in
      if negb neg && (cutoff <=? un)
      then (cutoff - 1, Some (NumError "ParseInt" s0 ErrRange))
      else if neg && (cutoff <? un)
      then (- cutoff, Some (NumError "ParseInt" s0 ErrRange))
      else ((if neg then - un else un), None)
  end = (k, None) ->
  is_decimal digits = true /\
  k = (if neg then - decimal_value digits else decimal_value digits) /\
  int64_range k.
Proof.
  intros Hne Hp.
  destruct (strconv.parseDigits digits 0) as [v|[|]] eqn:Hd.
  - apply parseDigits_inl in Hd as [Hall Hv]; [|lia].
    rewrite Z.mul_0_l, Z.add_0_l in Hv. subst v.
    pose proof (decimal_value_nonneg digits Hall) as Hv.
    unfold is_decimal. rewrite Hall, (bool_decide_eq_false_2 _ Hne). cbn [andb negb].
    cbv zeta in Hp. unfold int64_range. destruct neg; cbn [negb andb] in Hp.
    + destruct (2 ^ 63 <? decimal_value digits) eqn:Hc; [discriminate|].
      apply Z.ltb_ge in Hc. injection Hp as <-. repeat split; lia.
    + destruct (2 ^ 63 <=? decimal_value digits) eqn:Hc; [discriminate|].
      apply Z.leb_gt in Hc. injection Hp as <-. repeat split; lia.
  - discriminate.
  - cbv zeta in Hp. destruct neg; cbn [negb andb] in Hp; vm_compute in Hp; discriminate.
Qed.

(** [strconv.ParseInt] succeeds on signed decimal numerals of the int64
    range only, with the number they denote. *)
Lemma ParseInt_success (s : string) (k : Z) :
  strconv.ParseInt s = (k, None) -> signed_decimal s k /\ int64_range k.
Proof.
  destruct s as [|c rest]; [discriminate|]. unfold strconv.ParseInt.
  destruct (Ascii.eqb_spec c "+") as [->|Hplus].
  - cbn [orb]. change (Ascii.eqb "+" "-") with false.
    destruct rest as [|d rest]; [discriminate|]. intros Hp.
    apply (ParseInt_digits false) in Hp as (Hdec & -> & Hr); [|discriminate].
    split; [|exact Hr]. exists (String d rest). split; [exact Hdec|].
    left. split; [by right|reflexivity].
  - destruct (Ascii.eqb_spec c "-") as [->|Hminus]; cbn [orb].
    + destruct rest as [|d rest]; [discriminate|]. intros Hp.
      apply (ParseInt_digits true) in Hp as (Hdec & -> & Hr); [|discriminate].
      split; [|exact Hr]. exists (String d rest). split; [exact Hdec|].
      right. split; reflexivity.
    + intros Hp.
      apply (ParseInt_digits false) in Hp as (Hdec & -> & Hr); [|discriminate].
      split; [|exact Hr]. exists (String c rest). split; [exact Hdec|].
      left. split; [by left|reflexivity].
Qed.

(** A decimal numeral after a minus sign parses to the opposite number, down
    to -2^63. *)
Lemma ParseInt_negative (digits : string) :
  is_decimal digits = true -> decimal_value digits <= 2 ^ 63 ->
  strconv.ParseInt ("-" +:+ digits) = (- decimal_value digits, None).
Proof.
  unfold is_decimal. intros [Hd Hne]%andb_prop Hle.
  destruct digits as [|c s]; [discriminate|].
  pose proof (decimal_value_nonneg _ Hd) as Hv.
  change ("-" +:+ String c s) with (String "-" (String c s)).
  unfold strconv.ParseInt.
  change (Ascii.eqb "-" "+") with false. change (Ascii.eqb "-" "-") with true.
  cbn [orb].
  assert (Hmax : 2 ^ 63 <= strconv.maxUint64) by (vm_compute; discriminate).
  rewrite (parseDigits_value (String c s) 0) by (auto; lia).
  rewrite Z.mul_0_l, Z.add_0_l. cbv zeta. cbn [negb andb].
  by rewrite (proj2 (Z.ltb_ge _ _)) by lia.
Qed.

(** Every error of [strconv.ParseInt] is a [NumError] about the whole
    argument. *)
Lemma ParseInt_error (s : string) (k : Z) (e : error) :
  strconv.ParseInt s = (k, Some e) -> exists kind, e = NumError "ParseInt" s kind.
Proof.
  unfold strconv.ParseInt. destruct s as [|c rest]; [intros [= _ <-]; eauto|].
  destruct (if Ascii.eqb c "+" || Ascii.eqb c "-" then rest else String c rest);
    [intros [= _ <-]; eauto|].
  destruct (strconv.parseDigits _ 0) as [v|[|]]; cbv zeta;
    repeat match goal with |- context [if ?b then _ else _] => destruct b end;
    intros [= _ <-]; eauto.
Qed.

Lemma upperByte_idempotent (c : ascii) :
  strings.upperByte (strings.upperByte c) = strings.upperByte c.
Proof. destruct c as [[] [] [] [] [] [] [] []]; reflexivity. Qed.

Lemma isASCIIbyte_upperByte (c : ascii) :
  strings.isASCIIbyte (strings.upperByte c) = strings.isASCIIbyte c.
Proof. destruct c as [[] [] [] [] [] [] [] []]; reflexivity. Qed.

Lemma upperBytes_idempotent (s : string) :
  strings.upperBytes (strings.upperBytes s) = strings.upperBytes s.
Proof.
  induction s as [|c s IH]; [reflexivity|].
  cbn [strings.upperBytes]. by rewrite upperByte_idempotent, IH.
Qed.

Lemma isASCII_upperBytes (s : string) :
  strings.isASCII (strings.upperBytes s) = strings.isASCII s.
Proof.
  induction s as [|c s IH]; [reflexivity|].
  cbn [strings.upperBytes strings.isASCII]. by rewrite isASCIIbyte_upperByte, IH.
Qed.

(** On a string of at least two bytes (after upper-casing) every slice is in
    range: [convertToBytes] returns. *)
Lemma convertToBytes_returns `{GoLib} (val : string) :
  2 <= len (strings.ToUpper val) -> exists r, convertToBytes val = Ret r.
Proof.
  intros Hlen. set (up := strings.ToUpper val) in *.
  destruct (units !! drop_bytes (Z.to_nat (len up - 2)) up) as [m|] eqn:Hu.
  - rewrite (convertToBytes_unit val (take_bytes (Z.to_nat (len up - 2)) up)
               (drop_bytes (Z.to_nat (len up - 2)) up) m);
      [|by rewrite take_drop_bytes|exact Hu].
    destruct (strconv.ParseInt _) as [num [e|]]; eauto.
  - rewrite (convertToBytes_no_unit val Hlen Hu). eauto.
Qed.

Lemma convertToBytes_short_panics `{GoLib} (val : string) :
  len (strings.ToUpper val) < 2 ->
  convertToBytes val =
    Panic (SliceBoundsOutOfRange (len (strings.ToUpper val) - 2)
             (len (strings.ToUpper val)) (len (strings.ToUpper val))).
Proof.
  intros Hlt. unfold convertToBytes. cbv zeta. by rewrite slice_from_Panic by lia.
Qed.

(** X1.  [convertToBytes] panics exactly on the strings whose upper-cased form
    is shorter than two bytes (the empty string among them); on every other
    string it returns a value or an error. *)
Theorem convertToBytes_panics_iff_short `{GoLib} (val : string) :
  (exists p, convertToBytes val = Panic p) <-> len (strings.ToUpper val) < 2.
Proof.
  split.
  - intros [p Hp]. destruct (Z.lt_ge_cases (len (strings.ToUpper val)) 2) as [?|Hge];
      [done|].
    destruct (convertToBytes_returns val Hge) as [r Hr]. congruence.
  - intros Hlt. rewrite (convertToBytes_short_panics val Hlt). eauto.
Qed.

(** X2.  parsing does not depend on the case of ASCII letters: a string and
    its upper-cased form give the same result. *)
Theorem convertToBytes_ignores_case `{GoLib} (val : string) :
  strings.isASCII val = true ->
  convertToBytes (strings.upperBytes val) = convertToBytes val.
Proof.
  intros Ha. unfold convertToBytes, strings.ToUpper.
  by rewrite isASCII_upperBytes, Ha, upperBytes_idempotent.
Qed.

Lemma convertToBytes_512mb_as_512MB :
  @convertToBytes plainLib (strings.upperBytes "512mb") = @convertToBytes plainLib "512mb".
Proof. exact (@convertToBytes_ignores_case plainLib "512mb" eq_refl). Defined.

(** X3.  whenever [convertToBytes] returns a value without an error, the
    upper-cased string is a decimal numeral with an optional sign followed by
    one of the four units, and the value is the int64 product of the number
    and the unit's multiplier. *)
Theorem convertToBytes_success_shape `{GoLib} (val : string) (n : Z) :
  convertToBytes val = Ret (n, None) ->
  exists numStr unit k m,
    strings.ToUpper val = numStr +:+ unit /\
    unit_multiplier_spec unit = Some m /\
    signed_decimal numStr k /\ int64_range k /\
    n = wrap64 (k * m).
Proof.
  intros Hc. set (up := strings.ToUpper val) in *.
  destruct (Z.lt_ge_cases (len up) 2) as [Hlt|Hge].
  { rewrite (convertToBytes_short_panics val Hlt) in Hc. discriminate. }
  destruct (units !! drop_bytes (Z.to_nat (len up - 2)) up) as [m|] eqn:Hu.
  - rewrite (convertToBytes_unit val (take_bytes (Z.to_nat (len up - 2)) up)
               (drop_bytes (Z.to_nat (len up - 2)) up) m) in Hc;
      [|by rewrite take_drop_bytes|exact Hu].
    destruct (strconv.ParseInt _) as [k [e|]] eqn:Hp; [discriminate|].
    injection Hc as <-. apply ParseInt_success in Hp as [Hs Hr].
    exists (take_bytes (Z.to_nat (len up - 2)) up),
           (drop_bytes (Z.to_nat (len up - 2)) up), k, m.
    split; [by rewrite take_drop_bytes|].
    split; [by rewrite <- units_spec|].
    split; [exact Hs|]. split; [exact Hr|reflexivity].
  - rewrite (convertToBytes_no_unit val Hge Hu) in Hc. discriminate.
Qed.

Lemma convertToBytes_512MB_shape :
  exists numStr unit k m,
    @strings.ToUpper plainLib "512MB" = numStr +:+ unit /\
    unit_multiplier_spec unit = Some m /\
    signed_decimal numStr k /\ int64_range k /\
    536870912 = wrap64 (k * m).
Proof. exact (@convertToBytes_success_shape plainLib "512MB" 536870912 eq_refl). Defined.

(** X4.  an error of [convertToBytes] comes with the value 0 and is one of
    two: "Invalid unit: " followed by the last byte of the upper-cased string,
    when its last two bytes are not a unit, or the [strconv.ParseInt] error
    about the text before the unit. *)
Theorem convertToBytes_error_shape `{GoLib} (val : string) (n : Z) (e : error) :
  convertToBytes val = Ret (n, Some e) ->
  n = 0 /\
  ((exists unit, String.length unit = 1%nat /\
      strings.ToUpper val
        = take_bytes (Z.to_nat (len (strings.ToUpper val) - 1)) (strings.ToUpper val) +:+ unit /\
      e = errorString ("Invalid unit: " +:+ unit)) \/
   (exists numStr unit kind,
      strings.ToUpper val = numStr +:+ unit /\ is_Some (units !! unit) /\
      e = NumError "ParseInt" numStr kind)).
Proof.
  intros Hc. set (up := strings.ToUpper val) in *.
  destruct (Z.lt_ge_cases (len up) 2) as [Hlt|Hge].
  { rewrite (convertToBytes_short_panics val Hlt) in Hc. discriminate. }
  destruct (units !! drop_bytes (Z.to_nat (len up - 2)) up) as [m|] eqn:Hu.
  - rewrite (convertToBytes_unit val (take_bytes (Z.to_nat (len up - 2)) up)
               (drop_bytes (Z.to_nat (len up - 2)) up) m) in Hc;
      [|by rewrite take_drop_bytes|exact Hu].
    destruct (strconv.ParseInt _) as [k [e'|]] eqn:Hp; [|discriminate].
    injection Hc as <- <-. split; [reflexivity|]. right.
    apply ParseInt_error in Hp as [kind ->].
    eexists _, _, kind. split; [by rewrite take_drop_bytes|]. split; [|reflexivity].
    rewrite Hu. eauto.
  - rewrite (convertToBytes_no_unit val Hge Hu) in Hc. injection Hc as <- <-.
    split; [reflexivity|]. left.
    exists (drop_bytes (Z.to_nat (len up - 1)) up).
    split; [rewrite length_drop_bytes; unfold len in *; lia|].
    split; [by rewrite take_drop_bytes|reflexivity].
Qed.

Lemma convertToBytes_12XB_error_shape :
  0 = 0 /\
  ((exists unit, String.length unit = 1%nat /\
      @strings.ToUpper plainLib "12xb"
        = take_bytes (Z.to_nat (len (@strings.ToUpper plainLib "12xb") - 1))
            (@strings.ToUpper plainLib "12xb") +:+ unit /\
      errorString "Invalid unit: B" = errorString ("Invalid unit: " +:+ unit)) \/
   (exists numStr unit kind,
      @strings.ToUpper plainLib "12xb" = numStr +:+ unit /\ is_Some (units !! unit) /\
      errorString "Invalid unit: B" = NumError "ParseInt" numStr kind)).
Proof.
  exact (@convertToBytes_error_shape plainLib "12xb" 0 (errorString "Invalid unit: B") eq_refl).
Defined.

(** X5.  the number before the unit may carry a minus sign, and no check
    keeps the result positive: a numeral of value v (at most 2^63) after "-"
    yields the int64 product of -v and the unit's multiplier, which is
    negative whenever v is positive and the product fits. *)
Theorem convertToBytes_negative `{GoLib} (val digits unit : string) (m : Z) :
  strings.ToUpper val = ("-" +:+ digits) +:+ unit ->
  unit_multiplier_spec unit = Some m ->
  is_decimal digits = true ->
  decimal_value digits <= 2 ^ 63 ->
  convertToBytes val = Ret (wrap64 (- decimal_value digits * m), None) /\
  (0 < decimal_value digits -> decimal_value digits * m <= 2 ^ 63 ->
   convertToBytes val = Ret (- (decimal_value digits * m), None) /\
   - (decimal_value digits * m) < 0).
Proof.
  intros Hup Hm Hdec Hle. rewrite <- units_spec in Hm.
  assert (Hconv : convertToBytes val = Ret (wrap64 (- decimal_value digits * m), None)).
  { rewrite (convertToBytes_unit val ("-" +:+ digits) unit m Hup Hm).
    by rewrite (ParseInt_negative digits Hdec Hle). }
  split; [exact Hconv|]. intros Hpos Hfit.
  assert (Hmpos : 0 < m).
  { apply units_lookup_Some in Hm. destruct Hm as [[_ ->]|[[_ ->]|[[_ ->]|[_ ->]]]]; lia. }
  split; [|nia]. rewrite Hconv, wrap64_in_range; [f_equal; f_equal; ring|].
  unfold int64_range. nia.
Qed.

Lemma convertToBytes_minus_3TB :
  @convertToBytes plainLib "-3tb" = Ret (wrap64 (- 3 * 1024 ^ 4), None) /\
  (0 < 3 -> 3 * 1024 ^ 4 <= 2 ^ 63 ->
   @convertToBytes plainLib "-3tb" = Ret (- (3 * 1024 ^ 4), None) /\ - (3 * 1024 ^ 4) < 0).
Proof.
  exact (@convertToBytes_negative plainLib "-3tb" "3" "TB" (1024 ^ 4)
           eq_refl eq_refl eq_refl ltac:(vm_compute; discriminate)).
Defined.

(** X6.  the product with the multiplier is not checked for overflow: a
    numeral that fits int64 but whose product lies between 2^63 and 2^64
    yields the product minus 2^64, a negative number, and no error. *)
Theorem convertToBytes_overflow_wraps `{GoLib} (val numStr unit : string) (m : Z) :
  strings.ToUpper val = numStr +:+ unit ->
  unit_multiplier_spec unit = Some m ->
  is_decimal numStr = true ->
  decimal_value numStr < 2 ^ 63 ->
  2 ^ 63 <= decimal_value numStr * m < 2 ^ 64 ->
  convertToBytes val = Ret (decimal_value numStr * m - 2 ^ 64, None) /\
  decimal_value numStr * m - 2 ^ 64 < 0.
Proof.
  intros Hup Hm Hdec Hlt Hover. rewrite <- units_spec in Hm.
  rewrite (convertToBytes_unit val numStr unit m Hup Hm).
  rewrite (ParseInt_decimal numStr Hdec Hlt). split; [|lia].
  f_equal. f_equal. unfold wrap64.
  replace (decimal_value numStr * m + 2 ^ 63)
    with ((decimal_value numStr * m - 2 ^ 63) + 1 * 2 ^ 64) by lia.
  rewrite Z.mod_add by lia. rewrite Z.mod_small; lia.
Qed.

Lemma convertToBytes_8388608TB_wraps :
  @convertToBytes plainLib "8388608TB" = Ret (8388608 * 1024 ^ 4 - 2 ^ 64, None) /\
  8388608 * 1024 ^ 4 - 2 ^ 64 < 0.
Proof.
  apply (@convertToBytes_overflow_wraps plainLib "8388608TB" "8388608" "TB" (1024 ^ 4)).
  - reflexivity.
  - reflexivity.
  - reflexivity.
  - vm_compute. reflexivity.
  - split; vm_compute; [discriminate|reflexivity].
Defined.

(** ** Every run of a deploy has one of five shapes *)

Lemma resourceLimits_cases `{GoLib} (request : Main.DockerRequest.t)
    (hostConfig : container.HostConfig.t) (t : list event) :
  (exists p, Main.resourceLimits request hostConfig t = (Panic p, t)) \/
  (exists e line,
     Main.resourceLimits request hostConfig t = (Ret (inr e), t ++ [Println line])) \/
  (exists res,
     Main.resourceLimits request hostConfig t =
       (Ret (inl (container.HostConfig.set_Resources res hostConfig)), t)).
Proof.
  destruct (decide (Main.DockerRequest.Memory request = "")) as [Hm|Hm].
  - destruct (decide (Main.DockerRequest.CPUShares request = "")) as [Hc|Hc].
    + right. right. apply resourceLimits_ok. split; by left.
    + destruct (strconv.ParseInt (Main.DockerRequest.CPUShares request))
        as [c [e|]] eqn:Hp.
      * right. left. eexists _, _.
        apply (resourceLimits_cpu_error request hostConfig t c e); auto.
      * right. right. apply resourceLimits_ok. split; [by left|right; eauto].
  - destruct (convertToBytes (Main.DockerRequest.Memory request))
      as [[n [e|]]|p] eqn:Hconv.
    + right. left. eexists _, _.
      by apply (resourceLimits_memory_error request hostConfig t n e).
    + destruct (decide (Main.DockerRequest.CPUShares request = "")) as [Hc|Hc].
      * right. right. apply resourceLimits_ok. split; [right; eauto|by left].
      * destruct (strconv.ParseInt (Main.DockerRequest.CPUShares request))
          as [c [e|]] eqn:Hp.
        -- right. left. eexists _, _.
           apply (resourceLimits_cpu_error request hostConfig t c e); eauto.
        -- right. right. apply resourceLimits_ok. split; right; eauto.
    + left. exists p. by apply resourceLimits_panic.
Qed.

Lemma main_deploy_run `{GoLib} (w : World) (request : Main.DockerRequest.t) :
  deploy_run w (Main.DockerRequest.Image request) (Main.DockerRequest.ContainerName request)
    (run (Main.startContainer w request)).1 (run (Main.startContainer w request)).2.
Proof.
  unfold run.
  destruct (strings.HasPrefix (Main.DockerRequest.Image request) privateDockerRegistry)
    eqn:Hp.
  2:{ unfold Main.startContainer. rewrite Hp. by apply run_before_pull. }
  destruct (cliconfig_Load w "") as [e|] eqn:Hl.
  { rewrite (startContainer_load_failed w request [] e Hp Hl).
    by apply (run_before_pull _ _ _ _ [CallConfigLoad ""]). }
  destruct (ImagePull w (Main.DockerRequest.Image request) (pullOptions w)) as [e|] eqn:Hpull.
  { rewrite (startContainer_to_pull w request [] Hp Hl), Hpull.
    by apply (run_pull_failed _ _ _ e
                [CallConfigLoad ""; CallGetAuthConfig privateDockerRegistry]). }
  rewrite (startContainer_after_cleanup w request []) by done.
  set (pre := [CallConfigLoad ""; CallGetAuthConfig privateDockerRegistry]).
  assert (Hshape : forall mid,
    ([] ++ events_to_cleanup w request) ++ mid ++ [ReaderClose] =
    pre ++ [CallImagePull (Main.DockerRequest.Image request) (pullOptions w)]
        ++ after_pull_events w (Main.DockerRequest.ContainerName request) mid).
  { intros mid. unfold events_to_cleanup, pull_events, after_pull_events, pre.
    cbn [app]. by rewrite <- ?app_assoc. }
  destruct (resourceLimits_cases request hostConfig_always ([] ++ events_to_cleanup w request))
    as [[p ->]|[(e & line & ->)|[res ->]]]; cbn [fst snd].
  - change (([] ++ events_to_cleanup w request) ++ [ReaderClose])
      with (([] ++ events_to_cleanup w request) ++ [] ++ [ReaderClose]).
    rewrite Hshape. by apply run_panicked.
  - rewrite <- app_assoc, Hshape. by apply run_parse_error.
  - rewrite (app_assoc [_] (after_create _ _ _ _) [ReaderClose]), Hshape.
    by apply run_created.
Qed.

Lemma apikey_deploy_run `{GoLib} (w : World) (request : ApiKey.DockerRequest.t) :
  deploy_run w (ApiKey.DockerRequest.Image request)
    (ApiKey.DockerRequest.ContainerName request)
    (run (ApiKey.startContainer w request)).1 (run (ApiKey.startContainer w request)).2.
Proof.
  unfold run.
  destruct (strings.HasPrefix (ApiKey.DockerRequest.Image request) "d.puneet.cc") eqn:Hp.
  2:{ unfold ApiKey.startContainer. rewrite Hp. by apply run_before_pull. }
  rewrite (apikey_startContainer_to_pull w request [] Hp).
  destruct (ImagePull w (ApiKey.DockerRequest.Image request) types.ImagePullOptions.zero)
    as [e|] eqn:Hpull.
  { by apply (run_pull_failed _ _ _ e []). }
  unfold defer. rewrite apikey_afterPull_run, createAndStart_run. cbn [fst snd].
  replace (((([] ++ [CallImagePull (ApiKey.DockerRequest.Image request)
                      types.ImagePullOptions.zero])
              ++ [DisplayJSONMessagesStream]
              ++ cleanup_events w (ApiKey.DockerRequest.ContainerName request))
             ++ [CallContainerCreate (ApiKey.buildContainerConfig request)
                   (apikey_hostConfig request) (ApiKey.DockerRequest.ContainerName request)]
             ++ after_create w (ApiKey.buildContainerConfig request)
                  (apikey_hostConfig request) (ApiKey.DockerRequest.ContainerName request))
            ++ [ReaderClose])
    with ([] ++ [CallImagePull (ApiKey.DockerRequest.Image request)
                   types.ImagePullOptions.zero]
             ++ after_pull_events w (ApiKey.DockerRequest.ContainerName request)
                  ([CallContainerCreate (ApiKey.buildContainerConfig request)
                      (apikey_hostConfig request)
                      (ApiKey.DockerRequest.ContainerName request)]
                     ++ after_create w (ApiKey.buildContainerConfig request)
                          (apikey_hostConfig request)
                          (ApiKey.DockerRequest.ContainerName request))).
  - by apply run_created.
  - unfold after_pull_events. cbn [app]. by rewrite <- ?app_assoc.
Qed.

(** ** What follows from the shape of a run *)

Section DeployRun.
Context `{GoLib} (w : World) (image name : string).

Lemma credential_calls_in (pre : list event) (e : event) :
  forallb credential_call pre = true -> e ∈ pre -> credential_call e = true.
Proof.
  intros Hall Hin. rewrite forallb_forall in Hall. apply Hall.
  by apply list_elem_of_In.
Qed.

Lemma credential_calls_ops (pre : list event) :
  forallb credential_call pre = true -> engine_ops pre = [].
Proof.
  induction pre as [|e pre IH]; [reflexivity|]. cbn [forallb].
  intros [He Hpre]%andb_prop. destruct e; try discriminate He; exact (IH Hpre).
Qed.

Lemma engine_ops_app (es1 es2 : list event) :
  engine_ops (es1 ++ es2) = engine_ops es1 ++ engine_ops es2.
Proof. apply omap_app. Qed.

(** The engine operations of the cleanup block: inspect, and then stop and
    remove together or neither. *)
Lemma cleanup_events_ops :
  engine_ops (cleanup_events w name) =
    match ContainerInspect w name with
    | None => [OpInspect; OpStop; OpRemove]
    | Some _ => [OpInspect]
    end.
Proof.
  unfold cleanup_events, stop_log, remove_log.
  destruct (ContainerInspect w name), (ContainerStop w name), (ContainerRemove w name);
    reflexivity.
Qed.

Lemma after_create_ops (config : container.Config.t) (hostConfig : container.HostConfig.t) :
  engine_ops (after_create w config hostConfig name) =
    match ContainerCreate w config hostConfig name with
    | (_, Some _) => []
    | (_, None) => [OpStart]
    end.
Proof.
  unfold after_create. by destruct (ContainerCreate w config hostConfig name) as [cID [e|]].
Qed.

Lemma deploy_run_ops (o : outcome (option error)) (tr : list event) :
  deploy_run w image name o tr -> engine_ops tr ∈ deploy_sequences.
Proof.
  intros Hrun. unfold deploy_sequences.
  destruct Hrun as [e pre Hpre|e pre opts Hpre Hpull|p pre opts Hpre Hpull
                   |e line pre opts Hpre Hpull|config hostConfig pre opts Hpre Hpull];
    unfold after_pull_events;
    rewrite ?engine_ops_app, ?(credential_calls_ops pre Hpre), ?cleanup_events_ops,
      ?after_create_ops;
    try destruct (ContainerInspect w name);
    try destruct (ContainerCreate w config hostConfig name) as [cID [ce|]];
    cbn; repeat first [apply list_elem_of_here | apply list_elem_of_further].
Qed.

(** Decompose a membership in a concrete trace. *)
Ltac split_in H :=
  repeat first
    [ apply elem_of_app in H as [H|H]
    | apply elem_of_cons in H as [H|H]
    | apply elem_of_nil in H; destruct H ].

Lemma cleanup_events_in (e : event) :
  e ∈ cleanup_events w name ->
  e = CallContainerInspect name \/
  (ContainerInspect w name = None /\
   (e = CallContainerStop name \/ e = CallContainerRemove name \/ exists line, e = Println line)).
Proof.
  unfold cleanup_events, stop_log, remove_log. intros Hin.
  destruct (ContainerInspect w name), (ContainerStop w name), (ContainerRemove w name);
    split_in Hin; subst; eauto 6.
Qed.

Lemma after_create_in (config : container.Config.t) (hostConfig : container.HostConfig.t)
    (e : event) :
  e ∈ after_create w config hostConfig name ->
  (exists line, e = Println line) \/
  (exists cID, e = CallContainerStart cID /\
               ContainerCreate w config hostConfig name = (cID, None)).
Proof.
  unfold after_create. intros Hin.
  destruct (ContainerCreate w config hostConfig name) as [cID [ce|]];
    split_in Hin; subst; eauto.
Qed.

(** The events of a run, one by one. *)
Lemma deploy_run_in (o : outcome (option error)) (tr : list event) (e : event) :
  deploy_run w image name o tr -> e ∈ tr ->
  credential_call e = true \/
  (exists opts, e = CallImagePull image opts) \/
  e = DisplayJSONMessagesStream \/ e = ReaderClose \/
  e ∈ cleanup_events w name \/
  (exists line, e = Println line) \/
  (exists config hostConfig,
     e = CallContainerCreate config hostConfig name \/
     e ∈ after_create w config hostConfig name).
Proof.
  intros Hrun Hin.
  destruct Hrun as [e' pre Hpre|e' pre opts Hpre Hpull|p pre opts Hpre Hpull
                   |e' line pre opts Hpre Hpull|config hostConfig pre opts Hpre Hpull];
    unfold after_pull_events in Hin.
  - left. eauto using credential_calls_in.
  - split_in Hin; subst; eauto using credential_calls_in.
  - apply elem_of_app in Hin as [Hin|Hin]; [left; eauto using credential_calls_in|].
    apply elem_of_cons in Hin as [->|Hin]; [eauto|].
    apply elem_of_cons in Hin as [->|Hin]; [eauto|].
    apply elem_of_app in Hin as [Hin|Hin]; [eauto 6|].
    split_in Hin; subst; eauto 6.
  - apply elem_of_app in Hin as [Hin|Hin]; [left; eauto using credential_calls_in|].
    apply elem_of_cons in Hin as [->|Hin]; [eauto|].
    apply elem_of_cons in Hin as [->|Hin]; [eauto|].
    apply elem_of_app in Hin as [Hin|Hin]; [eauto 6|].
    split_in Hin; subst; eauto 8.
  - apply elem_of_app in Hin as [Hin|Hin]; [left; eauto using credential_calls_in|].
    apply elem_of_cons in Hin as [->|Hin]; [eauto|].
    apply elem_of_cons in Hin as [->|Hin]; [eauto|].
    apply elem_of_app in Hin as [Hin|Hin]; [eauto 6|].
    apply elem_of_app in Hin as [Hin|Hin].
    + apply elem_of_cons in Hin as [->|Hin]; [eauto 10|]. eauto 10.
    + split_in Hin; subst; eauto 6.
Qed.
End DeployRun.

Section DeployRunFacts.
Context `{GoLib} (w : World) (image name : string).
Implicit Types (o : outcome (option error)) (tr : list event).

Lemma after_pull_mid_in (pre mid : list event) (opts : types.ImagePullOptions.t)
    (e : event) :
  e ∈ mid -> e ∈ pre ++ [CallImagePull image opts] ++ after_pull_events w name mid.
Proof.
  intros Hin. unfold after_pull_events.
  apply elem_of_app. right. apply elem_of_app. right.
  apply elem_of_app. right. apply elem_of_app. right.
  apply elem_of_app. by left.
Qed.

Lemma after_pull_close_in (pre mid : list event) (opts : types.ImagePullOptions.t) :
  ReaderClose ∈ pre ++ [CallImagePull image opts] ++ after_pull_events w name mid.
Proof.
  unfold after_pull_events.
  apply elem_of_app. right. apply elem_of_app. right.
  apply elem_of_app. right. apply elem_of_app. right.
  apply elem_of_app. right. apply list_elem_of_here.
Qed.

(** A start call is made with the ID of the create call of the same run,
    which succeeded; the run returns what the start call returned. *)
Lemma deploy_run_start o tr (id : string) :
  deploy_run w image name o tr -> CallContainerStart id ∈ tr ->
  exists config hostConfig,
    CallContainerCreate config hostConfig name ∈ tr /\
    ContainerCreate w config hostConfig name = (id, None) /\
    o = Ret (ContainerStart w id).
Proof.
  intros Hrun Hin.
  pose proof (deploy_run_in w image name o tr _ Hrun Hin) as Hcases.
  destruct Hcases as [Hc|[[opts He]|[He|[He|[Hc|[[line He]|(config & hostConfig & Hc)]]]]]];
    try discriminate.
  { apply cleanup_events_in in Hc as [?|[_ [?|[?|[? ?]]]]]; discriminate. }
  clear Hc.
  destruct Hrun as [e' pre Hpre|e' pre opts Hpre Hpull|p pre opts Hpre Hpull
                   |e' line pre opts Hpre Hpull|config' hostConfig' pre opts Hpre Hpull];
    unfold after_pull_events in Hin.
  - by apply (credential_calls_in pre _ Hpre) in Hin.
  - apply elem_of_app in Hin as [Hin|Hin];
      [by apply (credential_calls_in pre _ Hpre) in Hin|].
    apply elem_of_cons in Hin as [?|Hin]; [discriminate|]. by apply elem_of_nil in Hin.
  - apply elem_of_app in Hin as [Hin|Hin];
      [by apply (credential_calls_in pre _ Hpre) in Hin|].
    do 2 (apply elem_of_cons in Hin as [?|Hin]; [discriminate|]).
    apply elem_of_app in Hin as [Hin|Hin].
    { apply cleanup_events_in in Hin as [?|[_ [?|[?|[? ?]]]]]; discriminate. }
    apply elem_of_cons in Hin as [?|Hin]; [discriminate|]. by apply elem_of_nil in Hin.
  - apply elem_of_app in Hin as [Hin|Hin];
      [by apply (credential_calls_in pre _ Hpre) in Hin|].
    do 2 (apply elem_of_cons in Hin as [?|Hin]; [discriminate|]).
    apply elem_of_app in Hin as [Hin|Hin].
    { apply cleanup_events_in in Hin as [?|[_ [?|[?|[? ?]]]]]; discriminate. }
    do 2 (apply elem_of_cons in Hin as [?|Hin]; [discriminate|]). by apply elem_of_nil in Hin.
  - exists config', hostConfig'. split.
    { apply after_pull_mid_in, elem_of_app. left. apply list_elem_of_here. }
    apply elem_of_app in Hin as [Hin|Hin];
      [by apply (credential_calls_in pre _ Hpre) in Hin|].
    do 2 (apply elem_of_cons in Hin as [?|Hin]; [discriminate|]).
    apply elem_of_app in Hin as [Hin|Hin].
    { apply cleanup_events_in in Hin as [?|[_ [?|[?|[? ?]]]]]; discriminate. }
    apply elem_of_app in Hin as [Hin|Hin].
    2:{ apply elem_of_cons in Hin as [?|Hin]; [discriminate|]. by apply elem_of_nil in Hin. }
    apply elem_of_app in Hin as [Hin|Hin].
    { apply elem_of_cons in Hin as [?|Hin]; [discriminate|]. by apply elem_of_nil in Hin. }
    apply after_create_in in Hin as [[? ?]|(cID & [= ->] & Hcreate)]; [discriminate|].
    split; [exact Hcreate|]. unfold create_result. by rewrite Hcreate.
Qed.

(** A run that returns no error has started the container. *)
Lemma deploy_run_nil tr :
  deploy_run w image name (Ret None) tr ->
  exists id, CallContainerStart id ∈ tr /\ ContainerStart w id = None.
Proof.
  intros Hrun. remember (Ret None) as o eqn:Ho.
  destruct Hrun as [e' pre Hpre|e' pre opts Hpre Hpull|p pre opts Hpre Hpull
                   |e' line pre opts Hpre Hpull|config hostConfig pre opts Hpre Hpull];
    try discriminate.
  injection Ho as Hres. unfold create_result in Hres.
  destruct (ContainerCreate w config hostConfig name) as [cID [e|]] eqn:Hc;
    [discriminate|].
  exists cID. split; [|exact Hres].
  apply after_pull_mid_in, elem_of_app. right.
  unfold after_create. rewrite Hc. apply list_elem_of_here.
Qed.

(** Stop and remove are called on the request's container only, and only
    when the inspect call found it. *)
Lemma deploy_run_cleanup o tr (n : string) :
  deploy_run w image name o tr ->
  CallContainerStop n ∈ tr \/ CallContainerRemove n ∈ tr ->
  n = name /\ ContainerInspect w name = None.
Proof.
  intros Hrun [Hin|Hin];
    pose proof (deploy_run_in w image name o tr _ Hrun Hin) as Hcases;
    destruct Hcases as [Hc|[[opts He]|[He|[He|[Hc|[[line He]|(config & hostConfig & Hc)]]]]]];
    try discriminate.
  - apply cleanup_events_in in Hc as [?|[Hi [[= ->]|[?|[? ?]]]]]; try discriminate. done.
  - destruct Hc as [?|Hc]; [discriminate|].
    apply after_create_in in Hc as [[? ?]|(? & ? & _)]; discriminate.
  - apply cleanup_events_in in Hc as [?|[Hi [?|[[= ->]|[? ?]]]]]; try discriminate. done.
  - destruct Hc as [?|Hc]; [discriminate|].
    apply after_create_in in Hc as [[? ?]|(? & ? & _)]; discriminate.
Qed.

(** The pull stream is closed exactly in the runs whose pull succeeded, and
    closing it is then the last event. *)
Lemma deploy_run_close o tr :
  deploy_run w image name o tr ->
  (ReaderClose ∈ tr <->
   exists opts, CallImagePull image opts ∈ tr /\ ImagePull w image opts = None) /\
  (ReaderClose ∈ tr -> last tr = Some ReaderClose).
Proof.
  intros Hrun.
  assert (Hpre_close : forall pre, forallb credential_call pre = true -> ReaderClose ∉ pre).
  { intros pre Hpre Hin. by apply (credential_calls_in pre _ Hpre) in Hin. }
  assert (Hpre_pull : forall pre opts, forallb credential_call pre = true ->
            CallImagePull image opts ∉ pre).
  { intros pre opts Hpre Hin. by apply (credential_calls_in pre _ Hpre) in Hin. }
  destruct Hrun as [e' pre Hpre|e' pre opts Hpre Hpull|p pre opts Hpre Hpull
                   |e' line pre opts Hpre Hpull|config hostConfig pre opts Hpre Hpull];
    unfold after_pull_events.
  - split; [split|].
    + intros Hin. by apply Hpre_close in Hin.
    + intros (opts & Hin & _). by apply Hpre_pull in Hin.
    + intros Hin. by apply Hpre_close in Hin.
  - assert (Hno : ReaderClose ∉ pre ++ [CallImagePull image opts]).
    { intros [Hin|Hin]%elem_of_app; [by apply Hpre_close in Hin|].
      apply elem_of_cons in Hin as [?|Hin]; [discriminate|]. by apply elem_of_nil in Hin. }
    split; [split|]; [done| |done].
    intros (opts' & Hin & Hok). exfalso.
    apply elem_of_app in Hin as [Hin|Hin]; [by apply Hpre_pull in Hin|].
    apply elem_of_cons in Hin as [[= ->]|Hin]; [congruence|]. by apply elem_of_nil in Hin.
  - split; [split|].
    + intros _. exists opts. split; [|done].
      apply elem_of_app. right. apply elem_of_app. left. apply list_elem_of_here.
    + intros _. apply after_pull_close_in.
    + intros _. rewrite !app_assoc. apply last_snoc.
  - split; [split|].
    + intros _. exists opts. split; [|done].
      apply elem_of_app. right. apply elem_of_app. left. apply list_elem_of_here.
    + intros _. apply after_pull_close_in.
    + intros _. rewrite !app_assoc. apply last_snoc.
  - split; [split|].
    + intros _. exists opts. split; [|done].
      apply elem_of_app. right. apply elem_of_app. left. apply list_elem_of_here.
    + intros _. apply after_pull_close_in.
    + intros _. rewrite !app_assoc. apply last_snoc.
Qed.

(** No event of a run names another image or another container. *)
Lemma deploy_run_touches o tr :
  deploy_run w image name o tr -> Forall (touches_only image name) tr.
Proof.
  intros Hrun. apply Forall_forall. intros e Hin.
  pose proof (deploy_run_in w image name o tr _ Hrun Hin) as Hcases.
  destruct Hcases as [Hc|[[opts ->]|[->|[->|[Hc|[[line ->]|(config & hostConfig & Hc)]]]]]];
    try done.
  - by destruct e.
  - apply cleanup_events_in in Hc as [->|[_ [->|[->|[? ->]]]]]; done.
  - destruct Hc as [->|Hc]; [done|].
    apply after_create_in in Hc as [[? ->]|(? & -> & _)]; done.
Qed.
End DeployRunFacts.

(** ** The order and the targets of the engine calls *)

(** X7.  the engine operations of a deploy are, in this order, pull, inspect,
    stop and remove (both or neither), create, start, cut off at the step
    that ended the deploy: one of eight sequences, each operation at most
    once.  In both variants. *)
Theorem deploy_engine_sequence `{GoLib} (w : World)
    (request : Main.DockerRequest.t) (request' : ApiKey.DockerRequest.t) :
  engine_ops (run (Main.startContainer w request)).2 ∈ deploy_sequences /\
  engine_ops (run (ApiKey.startContainer w request')).2 ∈ deploy_sequences.
Proof.
  split.
  - exact (deploy_run_ops w _ _ _ _ (main_deploy_run w request)).
  - exact (deploy_run_ops w _ _ _ _ (apikey_deploy_run w request')).
Qed.

(** X8.  a deploy starts no container but the one it has just created: every
    start call carries the ID that the create call of the same deploy, made
    under the request's name, returned without error.  In both variants. *)
Theorem start_follows_successful_create `{GoLib} (w : World)
    (request : Main.DockerRequest.t) (request' : ApiKey.DockerRequest.t) (id : string) :
  (CallContainerStart id ∈ (run (Main.startContainer w request)).2 ->
   exists config hostConfig,
     CallContainerCreate config hostConfig (Main.DockerRequest.ContainerName request)
       ∈ (run (Main.startContainer w request)).2 /\
     ContainerCreate w config hostConfig (Main.DockerRequest.ContainerName request)
       = (id, None)) /\
  (CallContainerStart id ∈ (run (ApiKey.startContainer w request')).2 ->
   exists config hostConfig,
     CallContainerCreate config hostConfig (ApiKey.DockerRequest.ContainerName request')
       ∈ (run (ApiKey.startContainer w request')).2 /\
     ContainerCreate w config hostConfig (ApiKey.DockerRequest.ContainerName request')
       = (id, None)).
Proof.
  split; intros Hin.
  - destruct (deploy_run_start w _ _ _ _ id (main_deploy_run w request) Hin)
      as (config & hostConfig & Hc & Hok & _). eauto.
  - destruct (deploy_run_start w _ _ _ _ id (apikey_deploy_run w request') Hin)
      as (config & hostConfig & Hc & Hok & _). eauto.
Qed.

Lemma svc1_start_follows_create :
  (exists config hostConfig,
     CallContainerCreate config hostConfig "svc1"
       ∈ (run (@Main.startContainer plainLib okWorld svc1)).2 /\
     ContainerCreate okWorld config hostConfig "svc1" = ("id-svc1", None)) /\
  (exists config hostConfig,
     CallContainerCreate config hostConfig "svc1"
       ∈ (run (@ApiKey.startContainer plainLib okWorld svc1_apikey)).2 /\
     ContainerCreate okWorld config hostConfig "svc1" = ("id-svc1", None)).
Proof.
  split.
  - apply (proj1 (@start_follows_successful_create plainLib okWorld svc1 svc1_apikey "id-svc1")).
    apply list_elem_of_lookup. exists 8%nat. reflexivity.
  - apply (proj2 (@start_follows_successful_create plainLib okWorld svc1 svc1_apikey "id-svc1")).
    apply list_elem_of_lookup. exists 6%nat. reflexivity.
Defined.

(** X9.  stop and remove are called only on the container the request names,
    and only when the inspect call found it: when inspect fails, the deploy
    neither stops nor removes anything.  In both variants. *)
Theorem cleanup_only_for_existing_container `{GoLib} (w : World)
    (request : Main.DockerRequest.t) (request' : ApiKey.DockerRequest.t) (n : string) :
  (CallContainerStop n ∈ (run (Main.startContainer w request)).2 \/
   CallContainerRemove n ∈ (run (Main.startContainer w request)).2 ->
   n = Main.DockerRequest.ContainerName request /\ ContainerInspect w n = None) /\
  (CallContainerStop n ∈ (run (ApiKey.startContainer w request')).2 \/
   CallContainerRemove n ∈ (run (ApiKey.startContainer w request')).2 ->
   n = ApiKey.DockerRequest.ContainerName request' /\ ContainerInspect w n = None).
Proof.
  split; intros Hin.
  - destruct (deploy_run_cleanup w _ _ _ _ n (main_deploy_run w request) Hin) as [-> Hi].
    by split.
  - destruct (deploy_run_cleanup w _ _ _ _ n (apikey_deploy_run w request') Hin) as [-> Hi].
    by split.
Qed.

Lemma svc1_cleanup_existing :
  ("svc1" = Main.DockerRequest.ContainerName svc1 /\ ContainerInspect okWorld "svc1" = None) /\
  ("svc1" = ApiKey.DockerRequest.ContainerName svc1_apikey /\
   ContainerInspect okWorld "svc1" = None).
Proof.
  split.
  - apply (proj1 (@cleanup_only_for_existing_container plainLib okWorld svc1 svc1_apikey "svc1")).
    left. apply list_elem_of_lookup. exists 5%nat. reflexivity.
  - apply (proj2 (@cleanup_only_for_existing_container plainLib okWorld svc1 svc1_apikey "svc1")).
    right. apply list_elem_of_lookup. exists 4%nat. reflexivity.
Defined.

(** X10.  the deferred close of the pull stream runs exactly in the deploys
    whose pull succeeded, whatever happens afterwards (parse error, panic,
    engine error or success), and it is then the last event of the deploy.
    In both variants. *)
Theorem pull_stream_closed_last `{GoLib} (w : World)
    (request : Main.DockerRequest.t) (request' : ApiKey.DockerRequest.t) :
  let tr := (run (Main.startContainer w request)).2 in
  let tr' := (run (ApiKey.startContainer w request')).2 in
  ((ReaderClose ∈ tr <->
    exists opts, CallImagePull (Main.DockerRequest.Image request) opts ∈ tr /\
                 ImagePull w (Main.DockerRequest.Image request) opts = None) /\
   (ReaderClose ∈ tr -> last tr = Some ReaderClose)) /\
  ((ReaderClose ∈ tr' <->
    exists opts, CallImagePull (ApiKey.DockerRequest.Image request') opts ∈ tr' /\
                 ImagePull w (ApiKey.DockerRequest.Image request') opts = None) /\
   (ReaderClose ∈ tr' -> last tr' = Some ReaderClose)).
Proof.
  cbv zeta. split.
  - exact (deploy_run_close w _ _ _ _ (main_deploy_run w request)).
  - exact (deploy_run_close w _ _ _ _ (apikey_deploy_run w request')).
Qed.

(** X11.  a deploy pulls no image but the request's and inspects, stops,
    removes and creates no container but the one the request names.  In both
    variants. *)
Theorem deploy_touches_only_request `{GoLib} (w : World)
    (request : Main.DockerRequest.t) (request' : ApiKey.DockerRequest.t) :
  Forall (touches_only (Main.DockerRequest.Image request)
            (Main.DockerRequest.ContainerName request))
    (run (Main.startContainer w request)).2 /\
  Forall (touches_only (ApiKey.DockerRequest.Image request')
            (ApiKey.DockerRequest.ContainerName request'))
    (run (ApiKey.startContainer w request')).2.
Proof.
  split.
  - exact (deploy_run_touches w _ _ _ _ (main_deploy_run w request)).
  - exact (deploy_run_touches w _ _ _ _ (apikey_deploy_run w request')).
Qed.

(** ** The responses of the handlers *)

Lemma JSON_500_not_started (m : string) :
  Ret (JSON 500 1 m) <> Ret (JSON 200 0 "Container Started").
Proof. intros [=]. Qed.

(** The answer of either handler once the deploy has run. *)
Lemma started_iff_start_succeeded `{GoLib} (w : World) (image name : string)
    (o : outcome (option error)) (tr : list event) :
  deploy_run w image name o tr ->
  match o with
  | Ret (Some e) => Ret (JSON 500 1 (Error e))
  | Ret None => Ret (JSON 200 0 "Container Started")
  | Panic p => Panic p
  end = Ret (JSON 200 0 "Container Started") <->
  exists id, CallContainerStart id ∈ tr /\ ContainerStart w id = None.
Proof.
  intros Hrun. split.
  - destruct o as [[e|]|p]; intros Heq.
    + by apply JSON_500_not_started in Heq.
    + by apply deploy_run_nil in Hrun.
    + discriminate.
  - intros (id & Hin & Hok).
    destruct (deploy_run_start w _ _ _ _ id Hrun Hin) as (_ & _ & _ & _ & ->).
    by rewrite Hok.
Qed.

(** X12.  the handler of main.go answers 200 "Container Started" exactly when
    the deploy made a start call that the engine accepted; after a failed or
    missing start call it never reports the container as started. *)
Theorem main_started_iff_engine_started `{GoLib} (w : World) (c : Main.Ctx) :
  (run (Main.handler w c)).1 = Ret (JSON 200 0 "Container Started") <->
  exists id, CallContainerStart id ∈ (run (Main.handler w c)).2 /\
             ContainerStart w id = None.
Proof.
  unfold run. rewrite handler_run.
  destruct (Main.BodyParser c) as [request [e|]].
  - cbn [fst snd]. split.
    + intros Heq. by apply JSON_500_not_started in Heq.
    + intros (id & Hin & _). by apply elem_of_nil in Hin.
  - pose proof (main_deploy_run w request) as Hrun. unfold run in Hrun.
    destruct (Main.startContainer w request []) as [o tr]. cbn [fst snd] in Hrun.
    pose proof (started_iff_start_succeeded w _ _ o tr Hrun) as Hiff.
    destruct o as [[e|]|p]; cbn [fst snd]; exact Hiff.
Qed.

(** X13.  the handler of the x-api-key variant answers every request, with
    status 200 or 500, and never panics; it answers 200 "Container Started"
    exactly when the deploy made a start call that the engine accepted. *)
Theorem apikey_handler_always_answers `{GoLib} (w : World) (c : ApiKey.Ctx) :
  (exists response,
     (run (ApiKey.handler w c)).1 = Ret response /\
     (Response.Status response = 200 \/ Response.Status response = 500)) /\
  ((run (ApiKey.handler w c)).1 = Ret (JSON 200 0 "Container Started") <->
   exists id, CallContainerStart id ∈ (run (ApiKey.handler w c)).2 /\
              ContainerStart w id = None).
Proof.
  unfold run. rewrite apikey_handler_run.
  assert (Hnostart : forall id, CallContainerStart id ∉ ([] : list event)).
  { intros id Hin. by apply elem_of_nil in Hin. }
  case_bool_decide as Hkey.
  { cbn [fst snd]. split; [eexists; split; [reflexivity|by right]|]. split.
    - intros Heq. by apply JSON_500_not_started in Heq.
    - intros (id & Hin & _). by apply Hnostart in Hin. }
  destruct (ApiKey.BodyParser c) as [request [e|]].
  { cbn [fst snd]. split; [eexists; split; [reflexivity|by right]|]. split.
    - intros Heq. by apply JSON_500_not_started in Heq.
    - intros (id & Hin & _). by apply Hnostart in Hin. }
  pose proof (apikey_deploy_run w request) as Hrun. unfold run in Hrun.
  destruct (apikey_startContainer_returns w request []) as (err & es & Hret).
  rewrite Hret in *. cbn [fst snd] in *. split.
  - destruct err as [e|]; eexists; (split; [reflexivity|]); [by right|by left].
  - pose proof (started_iff_start_succeeded w _ _ (Ret err) _ Hrun) as Hiff.
    destruct err as [e|]; cbn [fst snd]; exact Hiff.
Qed.

(** X26.  in the x-api-key variant a request whose x-api-key header differs
    from the DOCKER_DEPLOY_SECRET variable is answered 500 "Unauthorised
    Access" before the body is parsed and before any call is made; main.go
    makes no such check and deploys the same request. *)
Theorem apikey_wrong_key_rejected `{GoLib} (w : World) (c : ApiKey.Ctx) (t : list event) :
  ApiKey.Get c "x-api-key" <> os_Getenv w "DOCKER_DEPLOY_SECRET" ->
  ApiKey.handler w c t = (Ret (JSON 500 1 "Unauthorised Access"), t).
Proof.
  intros Hkey. rewrite apikey_handler_run. by rewrite (bool_decide_eq_true_2 _ Hkey).
Qed.

Lemma apikey_missing_key_rejected :
  @ApiKey.handler plainLib okWorld
    {| ApiKey.Get := fun _ => ""; ApiKey.BodyParser := (svc1_apikey, None) |} []
  = (Ret (JSON 500 1 "Unauthorised Access"), []).
Proof.
  apply (@apikey_wrong_key_rejected plainLib okWorld
           {| ApiKey.Get := fun _ => ""; ApiKey.BodyParser := (svc1_apikey, None) |} []).
  discriminate.
Defined.

(** X14.  a pull error ends the deploy: [startContainer] returns the engine's
    error right after the pull call, nothing is inspected, stopped, removed,
    created or started, the pull stream is not closed, and the handler answers
    500 with the error's message.  In main.go. *)
Theorem main_pull_error_aborts `{GoLib} (w : World) (c : Main.Ctx)
    (request : Main.DockerRequest.t) (e : error) :
  Main.BodyParser c = (request, None) ->
  strings.HasPrefix (Main.DockerRequest.Image request) "d.puneet.cc" = true ->
  cliconfig_Load w "" = None ->
  ImagePull w (Main.DockerRequest.Image request) (pullOptions w) = Some e ->
  run (Main.handler w c) =
    (Ret (JSON 500 1 (Error e)),
     [CallConfigLoad ""; CallGetAuthConfig "d.puneet.cc";
      CallImagePull (Main.DockerRequest.Image request) (pullOptions w)]).
Proof.
  intros Hb Hp Hl Hpull. unfold run.
  rewrite (handler_response w c request [] (pull_events w request) (Some e) Hb); [done|].
  by rewrite (startContainer_to_pull w request [] Hp Hl), Hpull.
Qed.

(** X15.  A pull error ends the deploy of the x-api-key variant in the same
    way; this variant pulls without credentials, so the pull is its only
    call. *)
Theorem apikey_pull_error_aborts `{GoLib} (w : World) (c : ApiKey.Ctx)
    (request : ApiKey.DockerRequest.t) (e : error) :
  ApiKey.Get c "x-api-key" = os_Getenv w "DOCKER_DEPLOY_SECRET" ->
  ApiKey.BodyParser c = (request, None) ->
  strings.HasPrefix (ApiKey.DockerRequest.Image request) "d.puneet.cc" = true ->
  ImagePull w (ApiKey.DockerRequest.Image request) types.ImagePullOptions.zero = Some e ->
  run (ApiKey.handler w c) =
    (Ret (JSON 500 1 (Error e)),
     [CallImagePull (ApiKey.DockerRequest.Image request) types.ImagePullOptions.zero]).
Proof.
  intros Hkey Hb Hp Hpull. unfold run. rewrite apikey_handler_run.
  rewrite bool_decide_eq_false_2 by (intros Hne; by apply Hne).
  by rewrite Hb, (apikey_startContainer_to_pull w request [] Hp), Hpull.
Qed.

(** ** The configuration of the create call *)

Lemma mounts_loop (volumes : list DockerVolumeBindingRequest.t)
    (mounts : list mount.Mount.t) :
  foldl (fun mounts volume =>
           mounts ++ [mount.Mount.mk mount.TypeBind
                        (DockerVolumeBindingRequest.Source volume)
                        (DockerVolumeBindingRequest.Target volume)])
        mounts volumes
  = mounts ++ (bind_mount <$> volumes).
Proof.
  revert mounts. induction volumes as [|v volumes IH]; intros mounts.
  - by rewrite app_nil_r.
  - cbn [foldl]. rewrite IH, fmap_cons, <- app_assoc. reflexivity.
Qed.

Lemma addVolumeBindings_mounts (volumes : list DockerVolumeBindingRequest.t)
    (hostConfig : container.HostConfig.t) :
  container.HostConfig.Mounts hostConfig = [] ->
  container.HostConfig.Mounts (addVolumeBindings volumes hostConfig)
    = bind_mount <$> volumes.
Proof.
  intros Hm. unfold addVolumeBindings. destruct (nonempty volumes) eqn:Hne.
  - cbn. by rewrite mounts_loop.
  - by apply nonempty_false in Hne as ->.
Qed.

Lemma addPortBindings_keeps_mounts (bindings : list DockerPortBindingRequest.t)
    (hostConfig : container.HostConfig.t) :
  container.HostConfig.Mounts (addPortBindings bindings hostConfig)
    = container.HostConfig.Mounts hostConfig.
Proof. unfold addPortBindings. by destruct (nonempty bindings). Qed.

(** X16.  every create call carries one bind mount per volume binding of the
    request, in the order of the request, from the binding's source to its
    target, and no other mount.  In both variants. *)
Theorem created_mounts_follow_volumes `{GoLib} (w : World)
    (request : Main.DockerRequest.t) (request' : ApiKey.DockerRequest.t)
    (config : container.Config.t) (hostConfig : container.HostConfig.t) (name : string) :
  (CallContainerCreate config hostConfig name ∈ (run (Main.startContainer w request)).2 ->
   container.HostConfig.Mounts hostConfig
     = bind_mount <$> Main.DockerRequest.VolumeBindings request) /\
  (CallContainerCreate config hostConfig name ∈ (run (ApiKey.startContainer w request')).2 ->
   container.HostConfig.Mounts hostConfig
     = bind_mount <$> ApiKey.DockerRequest.VolumeBindings request').
Proof.
  split; intros Hin.
  - pose proof (hoare_run _ _ _ _ (startContainer_hoare w request) Hin) as Hshape.
    cbn in Hshape. destruct Hshape as (res & -> & _ & _).
    unfold hostConfig_final. rewrite addPortBindings_keeps_mounts.
    by apply addVolumeBindings_mounts.
  - pose proof (hoare_run _ _ _ _ (apikey_startContainer_hoare w request') Hin) as Hshape.
    cbn in Hshape. destruct Hshape as (-> & _ & _).
    unfold apikey_hostConfig. rewrite addPortBindings_keeps_mounts.
    by apply addVolumeBindings_mounts.
Qed.

Lemma svc1_limits_mounts :
  container.HostConfig.Mounts
    (hostConfig_final svc1_limits
       (container.HostConfig.set_Resources (container.Resources.mk 256 536870912)
          hostConfig_always))
  = bind_mount <$> Main.DockerRequest.VolumeBindings svc1_limits.
Proof.
  apply (proj1 (@created_mounts_follow_volumes plainLib okWorld svc1_limits svc1_apikey
                  (Main.buildContainerConfig svc1_limits) _ "svc1")).
  apply list_elem_of_lookup. exists 7%nat. reflexivity.
Defined.

(** X17.  every create call is made under the request's container name, with
    the request's image and environment list and, in main.go, the request's
    command as the command override (the x-api-key variant never sets a
    command). *)
Theorem created_config_follows_request `{GoLib} (w : World)
    (request : Main.DockerRequest.t) (request' : ApiKey.DockerRequest.t)
    (config : container.Config.t) (hostConfig : container.HostConfig.t) (name : string) :
  (CallContainerCreate config hostConfig name ∈ (run (Main.startContainer w request)).2 ->
   name = Main.DockerRequest.ContainerName request /\
   container.Config.Image config = Main.DockerRequest.Image request /\
   container.Config.Env config = Main.DockerRequest.Environment request /\
   container.Config.Cmd config = Main.DockerRequest.CustomCommand request) /\
  (CallContainerCreate config hostConfig name ∈ (run (ApiKey.startContainer w request')).2 ->
   name = ApiKey.DockerRequest.ContainerName request' /\
   container.Config.Image config = ApiKey.DockerRequest.Image request' /\
   container.Config.Env config = ApiKey.DockerRequest.Environment request' /\
   container.Config.Cmd config = []).
Proof.
  split; intros Hin.
  - pose proof (hoare_run _ _ _ _ (startContainer_hoare w request) Hin) as Hshape.
    cbn in Hshape. destruct Hshape as (res & _ & -> & ->).
    unfold Main.buildContainerConfig, addExposedPorts. cbv zeta.
    destruct (nonempty (Main.DockerRequest.CustomCommand request)) eqn:Hc,
             (nonempty (Main.DockerRequest.Environment request)) eqn:He,
             (nonempty (Main.DockerRequest.PortBindings request));
      try apply nonempty_false in Hc; try apply nonempty_false in He;
      cbn; rewrite ?Hc, ?He; done.
  - pose proof (hoare_run _ _ _ _ (apikey_startContainer_hoare w request') Hin) as Hshape.
    cbn in Hshape. destruct Hshape as (_ & -> & ->).
    unfold ApiKey.buildContainerConfig, addExposedPorts. cbv zeta.
    destruct (nonempty (ApiKey.DockerRequest.Environment request')) eqn:He,
             (nonempty (ApiKey.DockerRequest.PortBindings request'));
      try apply nonempty_false in He; cbn; rewrite ?He; done.
Qed.

Lemma svc1_limits_config :
  "svc1" = Main.DockerRequest.ContainerName svc1_limits /\
  container.Config.Image (Main.buildContainerConfig svc1_limits)
    = Main.DockerRequest.Image svc1_limits /\
  container.Config.Env (Main.buildContainerConfig svc1_limits)
    = Main.DockerRequest.Environment svc1_limits /\
  container.Config.Cmd (Main.buildContainerConfig svc1_limits)
    = Main.DockerRequest.CustomCommand svc1_limits.
Proof.
  apply (proj1 (@created_config_follows_request plainLib okWorld svc1_limits svc1_apikey
                  (Main.buildContainerConfig svc1_limits)
                  (hostConfig_final svc1_limits
                     (container.HostConfig.set_Resources
                        (container.Resources.mk 256 536870912) hostConfig_always))
                  "svc1")).
  apply list_elem_of_lookup. exists 7%nat. reflexivity.
Defined.

Lemma resourceLimits_value `{GoLib} (request : Main.DockerRequest.t)
    (hostConfig : container.HostConfig.t) (t : list event) (n c : Z) :
  memory_limit request n -> cpu_limit request c ->
  container.HostConfig.Resources hostConfig = container.Resources.zero ->
  Main.resourceLimits request hostConfig t =
    (Ret (inl (container.HostConfig.set_Resources (container.Resources.mk c n) hostConfig)),
     t).
Proof.
  intros Hmem Hcpu Hzero. unfold Main.resourceLimits. cbv zeta.
  destruct hostConfig as [pb rp mo rs]. cbn in Hzero. subst rs.
  destruct Hmem as [[Hm ->]|[Hm Hn]], Hcpu as [[Hc ->]|[Hc Hp]].
  - rewrite Hm, Hc. rewrite (bool_decide_eq_false_2 ("" ≠ "")) by (intros Hx; by apply Hx).
    cbn [orb]. by rewrite bind_ret.
  - rewrite Hm. rewrite (bool_decide_eq_false_2 ("" ≠ "")) by (intros Hx; by apply Hx).
    rewrite (bool_decide_eq_true_2 _ Hc). cbn [orb]. by rewrite bind_ret, Hp.
  - rewrite Hc. rewrite (bool_decide_eq_false_2 ("" ≠ "")) by (intros Hx; by apply Hx).
    rewrite (bool_decide_eq_true_2 _ Hm). cbn [orb].
    by rewrite bind_bind, bind_lift, Hn, bind_ret.
  - rewrite (bool_decide_eq_true_2 _ Hm), (bool_decide_eq_true_2 _ Hc). cbn [orb].
    by rewrite bind_bind, bind_lift, Hn, bind_ret, Hp.
Qed.

(** X18.  when the memory and CPU-share strings are absent or parse, main.go
    creates the container with exactly these limits: memory is the value of
    [convertToBytes] (0 for an absent string), CPU shares the value of
    [strconv.ParseInt] (0 for an absent string). *)
Theorem created_with_parsed_limits `{GoLib} (w : World) (request : Main.DockerRequest.t)
    (n c : Z) :
  reaches_configuration w request ->
  memory_limit request n -> cpu_limit request c ->
  exists hostConfig,
    container.HostConfig.Resources hostConfig = container.Resources.mk c n /\
    CallContainerCreate (Main.buildContainerConfig request) hostConfig
      (Main.DockerRequest.ContainerName request)
      ∈ (run (Main.startContainer w request)).2.
Proof.
  intros Hreach Hmem Hcpu.
  exists (hostConfig_final request
            (container.HostConfig.set_Resources (container.Resources.mk c n)
               hostConfig_always)).
  split.
  - unfold hostConfig_final, addPortBindings, addVolumeBindings.
    by destruct (nonempty (Main.DockerRequest.PortBindings request)),
                (nonempty (Main.DockerRequest.VolumeBindings request)).
  - unfold run. rewrite (startContainer_after_cleanup w request [] Hreach).
    rewrite (resourceLimits_value request hostConfig_always _ n c Hmem Hcpu eq_refl).
    cbn [snd]. apply elem_of_app. right. apply elem_of_app. left. apply list_elem_of_here.
Qed.

Lemma svc1_limits_created :
  exists hostConfig,
    container.HostConfig.Resources hostConfig = container.Resources.mk 256 (512 * 1024 ^ 2) /\
    CallContainerCreate (Main.buildContainerConfig svc1_limits) hostConfig "svc1"
      ∈ (run (@Main.startContainer plainLib okWorld svc1_limits)).2.
Proof.
  apply (@created_with_parsed_limits plainLib okWorld svc1_limits (512 * 1024 ^ 2) 256).
  - repeat split.
  - right. split; [discriminate|reflexivity].
  - right. split; [discriminate|reflexivity].
Defined.

Lemma dom_portBindingsLoop (l : list DockerPortBindingRequest.t)
    (m : gmap string (list nat_.PortBinding.t)) :
  dom (portBindingsLoop l m) = list_to_set (port_container <$> l) ∪ dom m.
Proof.
  revert m. induction l as [|b l IH]; intros m.
  - cbn [fmap list_fmap list_to_set]. by rewrite (left_id_L ∅ (∪)).
  - rewrite portBindingsLoop_cons, IH, dom_insert_L, fmap_cons. cbn [list_to_set].
    rewrite (assoc_L (∪)). f_equal. apply (comm_L (∪)).
Qed.

Lemma exposedPortsLoop_set (l : list DockerPortBindingRequest.t) (ports : gset string) :
  exposedPortsLoop l ports = list_to_set (port_container <$> l) ∪ ports.
Proof.
  apply set_eq. intros p. rewrite exposedPortsLoop_spec, elem_of_union, elem_of_list_to_set.
  tauto.
Qed.

(** X19.  in every create call the exposed ports of the container
    configuration are exactly the container ports that the host configuration
    forwards.  In both variants. *)
Theorem exposed_ports_are_forwarded_ports `{GoLib} (w : World)
    (request : Main.DockerRequest.t) (request' : ApiKey.DockerRequest.t)
    (config : container.Config.t) (hostConfig : container.HostConfig.t) (name : string) :
  (CallContainerCreate config hostConfig name ∈ (run (Main.startContainer w request)).2 ->
   container.Config.ExposedPorts config = dom (container.HostConfig.PortBindings hostConfig)) /\
  (CallContainerCreate config hostConfig name ∈ (run (ApiKey.startContainer w request')).2 ->
   container.Config.ExposedPorts config = dom (container.HostConfig.PortBindings hostConfig)).
Proof.
  split; intros Hin.
  - pose proof (hoare_run _ _ _ _ (startContainer_hoare w request) Hin) as Hshape.
    cbn in Hshape. destruct Hshape as (res & -> & -> & _).
    unfold hostConfig_final, Main.buildContainerConfig, addExposedPorts, addPortBindings,
      addVolumeBindings. cbv zeta.
    destruct (nonempty (Main.DockerRequest.CustomCommand request)),
             (nonempty (Main.DockerRequest.Environment request)),
             (nonempty (Main.DockerRequest.VolumeBindings request)),
             (nonempty (Main.DockerRequest.PortBindings request)); cbn;
      rewrite ?dom_portBindingsLoop, ?exposedPortsLoop_set, ?dom_empty_L; reflexivity.
  - pose proof (hoare_run _ _ _ _ (apikey_startContainer_hoare w request') Hin) as Hshape.
    cbn in Hshape. destruct Hshape as (-> & -> & _).
    unfold apikey_hostConfig, ApiKey.buildContainerConfig, addExposedPorts, addPortBindings,
      addVolumeBindings. cbv zeta.
    destruct (nonempty (ApiKey.DockerRequest.Environment request')),
             (nonempty (ApiKey.DockerRequest.VolumeBindings request')),
             (nonempty (ApiKey.DockerRequest.PortBindings request')); cbn;
      rewrite ?dom_portBindingsLoop, ?exposedPortsLoop_set, ?dom_empty_L; reflexivity.
Qed.

Lemma svc1_two_hosts_exposed :
  container.Config.ExposedPorts (Main.buildContainerConfig svc1_two_hosts)
  = dom (container.HostConfig.PortBindings
           (hostConfig_final svc1_two_hosts
              (container.HostConfig.set_Resources container.Resources.zero
                 hostConfig_always))).
Proof.
  apply (proj1 (@exposed_ports_are_forwarded_ports plainLib okWorld svc1_two_hosts svc1_apikey
                  (Main.buildContainerConfig svc1_two_hosts) _ "svc1")).
  apply list_elem_of_lookup. exists 7%nat. reflexivity.
Defined.

(** ** The image validation *)

Lemma HasPrefix_iff (s pre : string) :
  strings.HasPrefix s pre = true <-> exists rest, s = pre +:+ rest.
Proof.
  revert s. induction pre as [|p pre IH]; intros s.
  - split; [intros _; by exists s|intros _; by destruct s].
  - destruct s as [|c s].
    + split; [done|]. intros [rest Hrest]. rewrite app_String in Hrest. discriminate.
    + cbn [strings.HasPrefix]. destruct (Ascii.eqb_spec c p) as [->|Hne].
      * rewrite IH. split; intros [rest Hrest]; exists rest.
        -- by rewrite app_String, Hrest.
        -- rewrite app_String in Hrest. by injection Hrest.
      * split; [done|]. intros [rest Hrest]. rewrite app_String in Hrest.
        injection Hrest as -> _. done.
Qed.

(** X20.  the image validation is a test on the first eleven bytes and nothing
    more: a deploy is refused with "only d.puneet.cc images supported", before
    any call, exactly when the image reference is not "d.puneet.cc" followed
    by some text; a reference such as "d.puneet.cc.example.org/app", which
    names another host, passes.  In both variants. *)
Theorem image_refused_iff_not_prefixed `{GoLib} (w : World)
    (request : Main.DockerRequest.t) (request' : ApiKey.DockerRequest.t) :
  (run (Main.startContainer w request)
     = (Ret (Some (errorString "only d.puneet.cc images supported")), []) <->
   forall rest, Main.DockerRequest.Image request <> "d.puneet.cc" +:+ rest) /\
  (run (ApiKey.startContainer w request')
     = (Ret (Some (errorString "only d.puneet.cc images supported")), []) <->
   forall rest, ApiKey.DockerRequest.Image request' <> "d.puneet.cc" +:+ rest).
Proof.
  assert (Hsnoc : forall (l : list event) e, l ++ [e] <> []).
  { intros [|? ?] ?; discriminate. }
  split.
  - destruct (strings.HasPrefix (Main.DockerRequest.Image request) "d.puneet.cc") eqn:Hp.
    + split.
      * intros Hrun. exfalso. unfold run in Hrun.
        destruct (cliconfig_Load w "") as [e|] eqn:Hl.
        { rewrite (startContainer_load_failed w request [] e Hp Hl) in Hrun. discriminate. }
        rewrite (startContainer_to_pull w request [] Hp Hl) in Hrun.
        destruct (ImagePull w _ _); [discriminate|]. unfold defer in Hrun.
        destruct (Main.afterPull w request _) as [o t']. injection Hrun as _ Ht.
        by apply Hsnoc in Ht.
      * intros Hno. apply HasPrefix_iff in Hp as [rest Hrest]. by apply Hno in Hrest.
    + split.
      * intros _ rest Hrest.
        assert (strings.HasPrefix (Main.DockerRequest.Image request) "d.puneet.cc" = true)
          by (apply HasPrefix_iff; eauto). congruence.
      * intros _. unfold run, Main.startContainer, privateDockerRegistry. by rewrite Hp.
  - destruct (strings.HasPrefix (ApiKey.DockerRequest.Image request') "d.puneet.cc") eqn:Hp.
    + split.
      * intros Hrun. exfalso. unfold run in Hrun.
        rewrite (apikey_startContainer_to_pull w request' [] Hp) in Hrun.
        destruct (ImagePull w _ _); [discriminate|]. unfold defer in Hrun.
        destruct (ApiKey.afterPull w request' _) as [o t']. injection Hrun as _ Ht.
        by apply Hsnoc in Ht.
      * intros Hno. apply HasPrefix_iff in Hp as [rest Hrest]. by apply Hno in Hrest.
    + split.
      * intros _ rest Hrest.
        assert (strings.HasPrefix (ApiKey.DockerRequest.Image request') "d.puneet.cc" = true)
          by (apply HasPrefix_iff; eauto). congruence.
      * intros _. unfold run, ApiKey.startContainer. by rewrite Hp.
Qed.

(** ** Parse errors of the resource limits *)

(** The memory string "1XB" is answered 500 "Invalid unit: B". *)
Lemma memory_1XB_answered_500 :
  run (@Main.handler plainLib okWorld {| Main.BodyParser := (svc1_memory "1XB", None) |}) =
    (Ret (JSON 500 1 "Invalid unit: B"),
     @events_to_cleanup plainLib okWorld (svc1_memory "1XB")
       ++ [Println "[startContainer][Memory-Parsing][ERROR] : Invalid unit: B"; ReaderClose]).
Proof.
  apply (@handler_memory_error plainLib okWorld
           {| Main.BodyParser := (svc1_memory "1XB", None) |} (svc1_memory "1XB") 0
           (errorString "Invalid unit: B")).
  - reflexivity.
  - repeat split.
  - discriminate.
  - reflexivity.
Defined.

(** The CPU-share string "abc" is answered 500 with the error of
    [strconv.ParseInt]. *)
Lemma cpu_abc_answered_500 :
  run (@Main.handler plainLib okWorld {| Main.BodyParser := (svc1_cpu "abc", None) |}) =
    (Ret (JSON 500 1 (@Error plainLib (NumError "ParseInt" "abc" ErrSyntax))),
     @events_to_cleanup plainLib okWorld (svc1_cpu "abc")
       ++ [Println ("[startContainer][CPUShares-Parsing][ERROR] : "
                      +:+ @Error plainLib (NumError "ParseInt" "abc" ErrSyntax));
           ReaderClose]).
Proof.
  apply (@handler_cpu_error plainLib okWorld
           {| Main.BodyParser := (svc1_cpu "abc", None) |} (svc1_cpu "abc") 0
           (NumError "ParseInt" "abc" ErrSyntax)).
  - reflexivity.
  - repeat split.
  - by left.
  - discriminate.
  - reflexivity.
Defined.

(** ** Engine errors of create and start *)

Section CreateErrors.
Context `{GoLib} (w : World) (image name : string).

(** In a run that reached the create call, a start call carries the ID that
    this create call returned. *)
Lemma created_trace_start (pre : list event) (opts : types.ImagePullOptions.t)
    (config : container.Config.t) (hostConfig : container.HostConfig.t) (id : string) :
  forallb credential_call pre = true ->
  CallContainerStart id
    ∈ pre ++ [CallImagePull image opts]
          ++ after_pull_events w name
               ([CallContainerCreate config hostConfig name]
                  ++ after_create w config hostConfig name) ->
  ContainerCreate w config hostConfig name = (id, None).
Proof.
  intros Hpre Hin. unfold after_pull_events in Hin.
  apply elem_of_app in Hin as [Hin|Hin];
    [by apply (credential_calls_in pre _ Hpre) in Hin|].
  do 2 (apply elem_of_cons in Hin as [?|Hin]; [discriminate|]).
  apply elem_of_app in Hin as [Hin|Hin].
  { apply cleanup_events_in in Hin as [?|[_ [?|[?|[? ?]]]]]; discriminate. }
  apply elem_of_app in Hin as [Hin|Hin].
  2:{ apply elem_of_cons in Hin as [?|Hin]; [discriminate|]. by apply elem_of_nil in Hin. }
  apply elem_of_app in Hin as [Hin|Hin].
  { apply elem_of_cons in Hin as [?|Hin]; [discriminate|]. by apply elem_of_nil in Hin. }
  by apply after_create_in in Hin as [[? ?]|(cID & [= ->] & Hcreate)].
Qed.

(** The create call of a run is made under the request's name and decides
    the outcome, the events that follow it and the ID of the start call. *)
Lemma deploy_run_create (o : outcome (option error)) (tr : list event)
    (config : container.Config.t) (hostConfig : container.HostConfig.t) (n : string) :
  deploy_run w image name o tr ->
  CallContainerCreate config hostConfig n ∈ tr ->
  n = name /\ o = Ret (create_result w config hostConfig name) /\
  (forall e, e ∈ after_create w config hostConfig name -> e ∈ tr) /\
  (forall id, CallContainerStart id ∈ tr ->
              ContainerCreate w config hostConfig name = (id, None)).
Proof.
  intros Hrun Hin.
  assert (Hclean : CallContainerCreate config hostConfig n ∉ cleanup_events w name).
  { intros Hc. apply cleanup_events_in in Hc as [?|[_ [?|[?|[? ?]]]]]; discriminate. }
  assert (Hpre : forall pre, forallb credential_call pre = true ->
            CallContainerCreate config hostConfig n ∉ pre).
  { intros pre Hpre Hc. by apply (credential_calls_in pre _ Hpre) in Hc. }
  destruct Hrun as [e' pre Hp|e' pre opts Hp Hpull|p pre opts Hp Hpull
                   |e' line pre opts Hp Hpull|config' hostConfig' pre opts Hp Hpull].
  - by apply Hpre in Hin.
  - apply elem_of_app in Hin as [Hin|Hin]; [by apply Hpre in Hin|].
    apply elem_of_cons in Hin as [?|Hin]; [discriminate|]. by apply elem_of_nil in Hin.
  - unfold after_pull_events in Hin.
    apply elem_of_app in Hin as [Hin|Hin]; [by apply Hpre in Hin|].
    do 2 (apply elem_of_cons in Hin as [?|Hin]; [discriminate|]).
    apply elem_of_app in Hin as [Hin|Hin]; [done|].
    apply elem_of_cons in Hin as [?|Hin]; [discriminate|]. by apply elem_of_nil in Hin.
  - unfold after_pull_events in Hin.
    apply elem_of_app in Hin as [Hin|Hin]; [by apply Hpre in Hin|].
    do 2 (apply elem_of_cons in Hin as [?|Hin]; [discriminate|]).
    apply elem_of_app in Hin as [Hin|Hin]; [done|].
    do 2 (apply elem_of_cons in Hin as [?|Hin]; [discriminate|]). by apply elem_of_nil in Hin.
  - assert (Heq : config = config' /\ hostConfig = hostConfig' /\ n = name).
    { unfold after_pull_events in Hin.
      apply elem_of_app in Hin as [Hin|Hin]; [by apply Hpre in Hin|].
      do 2 (apply elem_of_cons in Hin as [?|Hin]; [discriminate|]).
      apply elem_of_app in Hin as [Hin|Hin]; [done|].
      apply elem_of_app in Hin as [Hin|Hin].
      2:{ apply elem_of_cons in Hin as [?|Hin]; [discriminate|]. by apply elem_of_nil in Hin. }
      apply elem_of_app in Hin as [Hin|Hin].
      - apply elem_of_cons in Hin as [[= -> -> ->]|Hin]; [done|by apply elem_of_nil in Hin].
      - apply after_create_in in Hin as [[? ?]|(? & ? & _)]; discriminate. }
    destruct Heq as (-> & -> & ->). repeat split.
    + intros e He. apply after_pull_mid_in, elem_of_app. by right.
    + intros id Hstart. by apply (created_trace_start pre opts).
Qed.

(** What a failed create call and a failed start call do to a run. *)
Lemma deploy_run_create_failed (o : outcome (option error)) (tr : list event)
    (config : container.Config.t) (hostConfig : container.HostConfig.t)
    (n cID : string) (e : error) :
  deploy_run w image name o tr ->
  CallContainerCreate config hostConfig n ∈ tr ->
  ContainerCreate w config hostConfig n = (cID, Some e) ->
  o = Ret (Some e) /\
  Println ("[startContainer][ContainerCreate][ERROR] : " +:+ Error e) ∈ tr /\
  forall id, CallContainerStart id ∉ tr.
Proof.
  intros Hrun Hin Hfail.
  destruct (deploy_run_create o tr _ _ _ Hrun Hin) as (-> & -> & Hafter & Hstart).
  split; [unfold create_result; by rewrite Hfail|]. split.
  - apply Hafter. unfold after_create. rewrite Hfail. apply list_elem_of_here.
  - intros id Hid. apply Hstart in Hid. congruence.
Qed.

Lemma deploy_run_start_failed (o : outcome (option error)) (tr : list event)
    (id : string) (e : error) :
  deploy_run w image name o tr ->
  CallContainerStart id ∈ tr -> ContainerStart w id = Some e -> o = Ret (Some e).
Proof.
  intros Hrun Hin Hfail.
  destruct (deploy_run_start w image name o tr id Hrun Hin) as (_ & _ & _ & _ & ->).
  by rewrite Hfail.
Qed.
End CreateErrors.

(** X23.  the engine's error of the create call ends the deploy: it is
    printed and returned, and no start call is made; the engine's error of
    the start call is returned as well.  In both variants. *)
Theorem create_and_start_errors_returned `{GoLib} (w : World)
    (request : Main.DockerRequest.t) (request' : ApiKey.DockerRequest.t)
    (config : container.Config.t) (hostConfig : container.HostConfig.t)
    (name cID : string) (e : error) :
  let main := run (Main.startContainer w request) in
  let apikey := run (ApiKey.startContainer w request') in
  let printed := Println ("[startContainer][ContainerCreate][ERROR] : " +:+ Error e) in
  (CallContainerCreate config hostConfig name ∈ main.2 ->
   ContainerCreate w config hostConfig name = (cID, Some e) ->
   main.1 = Ret (Some e) /\ printed ∈ main.2 /\ forall id, CallContainerStart id ∉ main.2) /\
  (CallContainerStart cID ∈ main.2 -> ContainerStart w cID = Some e ->
   main.1 = Ret (Some e)) /\
  (CallContainerCreate config hostConfig name ∈ apikey.2 ->
   ContainerCreate w config hostConfig name = (cID, Some e) ->
   apikey.1 = Ret (Some e) /\ printed ∈ apikey.2 /\
   forall id, CallContainerStart id ∉ apikey.2) /\
  (CallContainerStart cID ∈ apikey.2 -> ContainerStart w cID = Some e ->
   apikey.1 = Ret (Some e)).
Proof.
  cbv zeta.
  pose proof (main_deploy_run w request) as Hmain.
  pose proof (apikey_deploy_run w request') as Hkey.
  split; [|split; [|split]].
  - intros Hin Hfail. exact (deploy_run_create_failed w _ _ _ _ _ _ _ _ _ Hmain Hin Hfail).
  - intros Hin Hfail. exact (deploy_run_start_failed w _ _ _ _ _ _ Hmain Hin Hfail).
  - intros Hin Hfail. exact (deploy_run_create_failed w _ _ _ _ _ _ _ _ _ Hkey Hin Hfail).
  - intros Hin Hfail. exact (deploy_run_start_failed w _ _ _ _ _ _ Hkey Hin Hfail).
Qed.

Lemma create_refused_start_failed :
  ((run (@Main.startContainer plainLib noCreateWorld svc1)).1
     = Ret (Some (libError "name already in use")) /\
   Println ("[startContainer][ContainerCreate][ERROR] : "
              +:+ @Error plainLib (libError "name already in use"))
     ∈ (run (@Main.startContainer plainLib noCreateWorld svc1)).2 /\
   forall id, CallContainerStart id ∉ (run (@Main.startContainer plainLib noCreateWorld svc1)).2) /\
  (run (@ApiKey.startContainer plainLib noStartWorld svc1_apikey)).1
    = Ret (Some (libError "port is already allocated")).
Proof.
  split.
  - apply (proj1 (@create_and_start_errors_returned plainLib noCreateWorld svc1 svc1_apikey
                    (Main.buildContainerConfig svc1)
                    (hostConfig_final svc1
                       (container.HostConfig.set_Resources container.Resources.zero
                          hostConfig_always))
                    "svc1" "" (libError "name already in use"))).
    + apply list_elem_of_lookup. exists 7%nat. reflexivity.
    + reflexivity.
  - apply (proj2 (proj2 (proj2
             (@create_and_start_errors_returned plainLib noStartWorld svc1 svc1_apikey
                (ApiKey.buildContainerConfig svc1_apikey) (apikey_hostConfig svc1_apikey)
                "svc1" "id-svc1" (libError "port is already allocated"))))).
    + apply list_elem_of_lookup. exists 6%nat. reflexivity.
    + reflexivity.
Defined.

(** A pull that the registry refuses, in both variants. *)
Lemma main_pull_denied :
  run (@Main.handler plainLib noPullWorld {| Main.BodyParser := (svc1, None) |}) =
    (Ret (JSON 500 1 "pull access denied"),
     [CallConfigLoad ""; CallGetAuthConfig "d.puneet.cc";
      CallImagePull "d.puneet.cc/app:latest" (@pullOptions plainLib noPullWorld)]).
Proof.
  apply (@main_pull_error_aborts plainLib noPullWorld
           {| Main.BodyParser := (svc1, None) |} svc1 (libError "pull access denied"));
    reflexivity.
Defined.

Lemma apikey_pull_denied :
  run (@ApiKey.handler plainLib noPullWorld
         {| ApiKey.Get := fun _ => "s3cret"; ApiKey.BodyParser := (svc1_apikey, None) |}) =
    (Ret (JSON 500 1 "pull access denied"),
     [CallImagePull "d.puneet.cc/app:latest" types.ImagePullOptions.zero]).
Proof.
  apply (@apikey_pull_error_aborts plainLib noPullWorld
           {| ApiKey.Get := fun _ => "s3cret"; ApiKey.BodyParser := (svc1_apikey, None) |}
           svc1_apikey (libError "pull access denied")); reflexivity.
Defined.

(** ** When main.go panics *)

Lemma resourceLimits_panics `{GoLib} (request : Main.DockerRequest.t)
    (hostConfig : container.HostConfig.t) (t t' : list event) (p : panic) :
  Main.resourceLimits request hostConfig t = (Panic p, t') ->
  Main.DockerRequest.Memory request <> "" /\
  convertToBytes (Main.DockerRequest.Memory request) = Panic p.
Proof.
  intros Hrl.
  assert (Hok : resources_parse request -> False).
  { intros Hres. destruct (resourceLimits_ok request hostConfig t Hres) as [res Hr].
    congruence. }
  assert (Hcpu : (Main.DockerRequest.Memory request = "" \/
                  exists m, convertToBytes (Main.DockerRequest.Memory request) = Ret (m, None))
                 -> False).
  { intros Hmem.
    destruct (decide (Main.DockerRequest.CPUShares request = "")) as [Hc|Hc].
    - apply Hok. split; [exact Hmem|by left].
    - destruct (strconv.ParseInt (Main.DockerRequest.CPUShares request))
        as [c [e|]] eqn:Hp.
      + rewrite (resourceLimits_cpu_error request hostConfig t c e Hmem Hc Hp) in Hrl.
        discriminate.
      + apply Hok. split; [exact Hmem|right; eauto]. }
  destruct (decide (Main.DockerRequest.Memory request = "")) as [Hm|Hm];
    [exfalso; apply Hcpu; by left|].
  split; [exact Hm|].
  destruct (convertToBytes (Main.DockerRequest.Memory request)) as [[n [e|]]|p'] eqn:Hconv.
  - rewrite (resourceLimits_memory_error request hostConfig t n e Hm Hconv) in Hrl.
    discriminate.
  - exfalso. apply Hcpu. right. eauto.
  - rewrite (resourceLimits_panic request hostConfig t p' Hm Hconv) in Hrl. congruence.
Qed.

(** X24.  a deploy of main.go panics exactly when it gets as far as the
    resource limits (image accepted, credential configuration loaded, image
    pulled) with a memory string that is not empty and whose upper-cased form
    is shorter than two bytes; every other deploy returns. *)
Theorem main_panics_iff_short_memory `{GoLib} (w : World) (request : Main.DockerRequest.t) :
  (exists p, (run (Main.startContainer w request)).1 = Panic p) <->
  reaches_configuration w request /\
  Main.DockerRequest.Memory request <> "" /\
  len (strings.ToUpper (Main.DockerRequest.Memory request)) < 2.
Proof.
  split.
  - intros [p Hp]. unfold run in Hp.
    destruct (strings.HasPrefix (Main.DockerRequest.Image request) privateDockerRegistry)
      eqn:Hpre.
    2:{ unfold Main.startContainer in Hp. rewrite Hpre in Hp. discriminate. }
    destruct (cliconfig_Load w "") as [e|] eqn:Hl.
    { rewrite (startContainer_load_failed w request [] e Hpre Hl) in Hp. discriminate. }
    destruct (ImagePull w (Main.DockerRequest.Image request) (pullOptions w)) as [e|]
      eqn:Hpull.
    { rewrite (startContainer_to_pull w request [] Hpre Hl), Hpull in Hp. discriminate. }
    assert (Hreach : reaches_configuration w request) by done.
    split; [exact Hreach|].
    rewrite (startContainer_after_cleanup w request [] Hreach) in Hp.
    destruct (Main.resourceLimits request hostConfig_always _) as [[[hc|e]|p'] t'] eqn:Hrl;
      try discriminate.
    apply resourceLimits_panics in Hrl as [Hm Hconv]. split; [exact Hm|].
    destruct (Z.lt_ge_cases (len (strings.ToUpper (Main.DockerRequest.Memory request))) 2)
      as [?|Hge]; [done|].
    destruct (convertToBytes_returns _ Hge) as [r Hr]. congruence.
  - intros (Hreach & Hm & Hlt). eexists. unfold run.
    by rewrite (startContainer_memory_panic w request [] _ Hreach Hm
                  (convertToBytes_short_panics _ Hlt)).
Qed.

(** X25.  in the x-api-key variant every create call is made with a host
    configuration that has no restart policy and no resource limits (both are
    left at their zero values): containers deployed by this variant are not
    restarted by the engine. *)
Theorem apikey_created_without_policy_or_limits `{GoLib} (w : World)
    (request : ApiKey.DockerRequest.t)
    (config : container.Config.t) (hostConfig : container.HostConfig.t) (name : string) :
  CallContainerCreate config hostConfig name ∈ (run (ApiKey.startContainer w request)).2 ->
  container.HostConfig.RestartPolicy hostConfig = container.RestartPolicy.zero /\
  container.HostConfig.Resources hostConfig = container.Resources.zero.
Proof.
  intros Hin.
  pose proof (hoare_run _ _ _ _ (apikey_startContainer_hoare w request) Hin) as Hshape.
  cbn in Hshape. destruct Hshape as (-> & _ & _).
  unfold apikey_hostConfig, addPortBindings, addVolumeBindings.
  by destruct (nonempty (ApiKey.DockerRequest.PortBindings request)),
              (nonempty (ApiKey.DockerRequest.VolumeBindings request)).
Qed.

Lemma svc1_apikey_created_plain :
  container.HostConfig.RestartPolicy (apikey_hostConfig svc1_apikey)
    = container.RestartPolicy.zero /\
  container.HostConfig.Resources (apikey_hostConfig svc1_apikey) = container.Resources.zero.
Proof.
  apply (@apikey_created_without_policy_or_limits plainLib okWorld svc1_apikey
           (ApiKey.buildContainerConfig svc1_apikey) _ "svc1").
  apply list_elem_of_lookup. exists 5%nat. reflexivity.
Defined.
